(** * mirra: the page-archiving engine of [src/tools/scraper.js]

    A shallow embedding of the scraper tool (class [WebScraper] and its
    helpers [AssetManager], [ScreenshotManager], [AssetNamer],
    [AssetMapper]) and of the standalone rewriter of [src/cli.js].
    Further sections embed the second implementation of the run in
    [src/cli.js] (the tool built by [createWebScraperTool]), the URL
    validator of [urlValidator.js], the metadata extraction of
    [PageExtractor] and the functions with which the project builder of
    [src/cli.js] reads a snapshot back.

    Conventions.
    - JavaScript strings are [string]; a character stands for one code unit.
    - A JavaScript object used as a dictionary is an association list kept
      in insertion order ([JsObject]); [Obj.entries] gives the order in
      which [Object.entries] enumerates it.
    - Asynchronous methods are sequential computations in the monad [M]:
      state (the clock, the files on disk, the trace of external calls, the
      scraper's [result] object and its browser handles) plus exceptions
      carrying [error.message].
    - The collaborators the code only calls (robots checker, browser, HTTP
      fetch) are an oracle [Env]; Node's [path], [crypto] (MD5), [URL] and
      [RegExp]/[String.prototype.replace] are modelled from their
      documented behaviour on the inputs this code gives them.
    - File-system calls ([fs.mkdir], [fs.writeFile]) and the page queries
      after a successful navigation are taken to succeed; starting the
      browser (launch, context, page) is one call. Closing is three
      calls, [page.close()], [context.close()] and [browser.close()],
      each of which may throw.
    - Of the logger, the lines sent to [console.warn] and [console.error]
      are kept; the [info] and [success] lines are left out. *)

From Stdlib Require Import ZArith List String Ascii Bool Lia.
From Stdlib Require Import DecimalString.
Import ListNotations.
Open Scope string_scope.
Open Scope Z_scope.

(* ------------------------------------------------------------------ *)
(** ** JavaScript values                                               *)
(* ------------------------------------------------------------------ *)

Module Js.

(** [a || b] on strings: the empty string is falsy. *)
Definition or_else (a b : string) : string :=
  if String.eqb a "" then b else a.

(** Truthiness of an optional string field ([undefined] and [''] are
    falsy). *)
Definition truthy (o : option string) : bool :=
  match o with
  | Some s => negb (String.eqb s "")
  | None => false
  end.

(** [n.toString()] for a number holding a non-negative integer. *)
Definition toString (n : Z) : string :=
  NilZero.string_of_uint (N.to_uint (Z.to_N n)).

Definition codeUnit (c : ascii) : Z := Z.of_N (N_of_ascii c).

Definition chars (s : string) : list ascii := list_ascii_of_string s.
Definition str (l : list ascii) : string := string_of_list_ascii l.

(** The double-quote character and the one-character string holding it. *)
Definition dquote : ascii := Eval cbv in ascii_of_nat 34.
Definition q : string := String dquote "".

(** [s.substring(0, n)]. *)
Definition substring0 (n : nat) (s : string) : string := String.substring 0 n s.

(** [s.includes(t)]. *)
Fixpoint includes (t s : string) : bool :=
  String.prefix t s
  || match s with
     | EmptyString => false
     | String _ s' => includes t s'
     end.

End Js.

(** A JavaScript object used as a dictionary with string keys. *)
Definition JsObject (V : Type) : Type := list (string * V).

Module Obj.
Section WithValue.
Context {V : Type}.

Fixpoint get (k : string) (o : JsObject V) : option V :=
  match o with
  | [] => None
  | (k', v) :: o' => if String.eqb k k' then Some v else get k o'
  end.

(** [o[k] = v]: an existing property keeps its place. *)
Fixpoint set (k : string) (v : V) (o : JsObject V) : JsObject V :=
  match o with
  | [] => [(k, v)]
  | (k', v') :: o' =>
      if String.eqb k k' then (k, v) :: o' else (k', v') :: set k v o'
  end.

(** [o[k] = v] for a string [v] on an object made by [{}]: the key
    [__proto__] names the prototype, and giving it a string does
    nothing. *)
Definition assign (k : string) (v : V) (o : JsObject V) : JsObject V :=
  if String.eqb k "__proto__" then o else set k v o.

(** [{ ...a, ...b }]. *)
Definition spread (a b : JsObject V) : JsObject V :=
  fold_left (fun acc kv => set (fst kv) (snd kv) acc) b a.
End WithValue.

(** Array-index keys (canonical decimal numerals below [2^32 - 1]) are
    enumerated first, in ascending numeric order, then the other keys in
    insertion order. *)
Definition isDigit (c : ascii) : bool :=
  let n := Js.codeUnit c in (48 <=? n) && (n <=? 57).

Definition numeral (s : string) : Z :=
  fold_left (fun acc c => 10 * acc + (Js.codeUnit c - 48)) (Js.chars s) 0.

Definition isArrayIndex (s : string) : bool :=
  match s with
  | EmptyString => false
  | String c rest =>
      forallb isDigit (Js.chars s)
      && (negb (Ascii.eqb c "0") || String.eqb rest "")
      && (Nat.leb (String.length s) 10)
      && (numeral s <? 4294967295)
  end.

Fixpoint insertByIndex {V} (kv : string * V) (l : list (string * V)) :=
  match l with
  | [] => [kv]
  | kv' :: l' =>
      if numeral (fst kv) <? numeral (fst kv') then kv :: l
      else kv' :: insertByIndex kv l'
  end.

Definition entries {V} (o : JsObject V) : list (string * V) :=
  fold_right insertByIndex [] (filter (fun kv => isArrayIndex (fst kv)) o)
  ++ filter (fun kv => negb (isArrayIndex (fst kv))) o.
End Obj.

(* ------------------------------------------------------------------ *)
(** ** [crypto.createHash('md5')]                                      *)
(* ------------------------------------------------------------------ *)

Module MD5.

Definition w32 (x : Z) : Z := x mod 4294967296.

Definition rotl (x : Z) (n : Z) : Z :=
  w32 (Z.lor (Z.shiftl x n) (Z.shiftr x (32 - n))).

Definition not32 (x : Z) : Z := Z.lxor x 4294967295.

Definition K : list Z :=
  [0xd76aa478; 0xe8c7b756; 0x242070db; 0xc1bdceee;
   0xf57c0faf; 0x4787c62a; 0xa8304613; 0xfd469501;
   0x698098d8; 0x8b44f7af; 0xffff5bb1; 0x895cd7be;
   0x6b901122; 0xfd987193; 0xa679438e; 0x49b40821;
   0xf61e2562; 0xc040b340; 0x265e5a51; 0xe9b6c7aa;
   0xd62f105d; 0x02441453; 0xd8a1e681; 0xe7d3fbc8;
   0x21e1cde6; 0xc33707d6; 0xf4d50d87; 0x455a14ed;
   0xa9e3e905; 0xfcefa3f8; 0x676f02d9; 0x8d2a4c8a;
   0xfffa3942; 0x8771f681; 0x6d9d6122; 0xfde5380c;
   0xa4beea44; 0x4bdecfa9; 0xf6bb4b60; 0xbebfbc70;
   0x289b7ec6; 0xeaa127fa; 0xd4ef3085; 0x04881d05;
   0xd9d4d039; 0xe6db99e5; 0x1fa27cf8; 0xc4ac5665;
   0xf4292244; 0x432aff97; 0xab9423a7; 0xfc93a039;
   0x655b59c3; 0x8f0ccc92; 0xffeff47d; 0x85845dd1;
   0x6fa87e4f; 0xfe2ce6e0; 0xa3014314; 0x4e0811a1;
   0xf7537e82; 0xbd3af235; 0x2ad7d2bb; 0xeb86d391].

Definition shifts : list Z :=
  [7; 12; 17; 22; 7; 12; 17; 22; 7; 12; 17; 22; 7; 12; 17; 22;
   5; 9; 14; 20; 5; 9; 14; 20; 5; 9; 14; 20; 5; 9; 14; 20;
   4; 11; 16; 23; 4; 11; 16; 23; 4; 11; 16; 23; 4; 11; 16; 23;
   6; 10; 15; 21; 6; 10; 15; 21; 6; 10; 15; 21; 6; 10; 15; 21].

Definition state : Type := (Z * Z * Z * Z)%type.

Definition init : state := (0x67452301, 0xefcdab89, 0x98badcfe, 0x10325476).

Definition round (M : list Z) (st : state) (i : nat) : state :=
  let '(A, B, C, D) := st in
  let iz := Z.of_nat i in
  let '(F, g) :=
    if iz <? 16 then (Z.lor (Z.land B C) (Z.land (not32 B) D), iz)
    else if iz <? 32 then
      (Z.lor (Z.land D B) (Z.land (not32 D) C), (5 * iz + 1) mod 16)
    else if iz <? 48 then (Z.lxor B (Z.lxor C D), (3 * iz + 5) mod 16)
    else (Z.lxor C (Z.lor B (not32 D)), (7 * iz) mod 16) in
  let F' := w32 (F + A + nth i K 0 + nth (Z.to_nat g) M 0) in
  (D, w32 (B + rotl F' (nth i shifts 0)), B, C).

Definition wordLE (b0 b1 b2 b3 : Z) : Z :=
  b0 + 256 * b1 + 65536 * b2 + 16777216 * b3.

Fixpoint words (fuel : nat) (bytes : list Z) : list Z :=
  match fuel, bytes with
  | S f, b0 :: b1 :: b2 :: b3 :: rest => wordLE b0 b1 b2 b3 :: words f rest
  | _, _ => []
  end.

Definition block (st : state) (M : list Z) : state :=
  let '(a0, b0, c0, d0) := st in
  let '(A, B, C, D) := fold_left (round M) (seq 0 64) st in
  (w32 (a0 + A), w32 (b0 + B), w32 (c0 + C), w32 (d0 + D)).

Fixpoint blocks (fuel : nat) (st : state) (ws : list Z) : state :=
  match fuel, ws with
  | S f, _ :: _ => blocks f (block st (firstn 16 ws)) (skipn 16 ws)
  | _, _ => st
  end.

Definition bytesLE (n : nat) (x : Z) : list Z :=
  map (fun i => (Z.shiftr x (8 * Z.of_nat i)) mod 256) (seq 0 n).

Definition pad (msg : list Z) : list Z :=
  let len := Z.of_nat (List.length msg) in
  let zeros := Z.to_nat ((55 - len) mod 64) in
  msg ++ [128] ++ repeat 0 zeros ++ bytesLE 8 (8 * len).

Definition hexDigit (n : Z) : ascii :=
  ascii_of_N (Z.to_N (if n <? 10 then 48 + n else 87 + n)).

Definition hexByte (b : Z) : list ascii := [hexDigit (b / 16); hexDigit (b mod 16)].

(** [createHash('md5').update(s).digest('hex')]. *)
Definition hex (s : string) : string :=
  let bytes := pad (map Js.codeUnit (Js.chars s)) in
  let ws := words (List.length bytes) bytes in
  let '(a, b, c, d) := blocks (List.length ws) init ws in
  Js.str (flat_map hexByte (flat_map (bytesLE 4) [a; b; c; d])).

End MD5.

(* ------------------------------------------------------------------ *)
(** ** Node's [path] module (POSIX flavour)                            *)
(* ------------------------------------------------------------------ *)

Module Path.

Definition isSlash (c : ascii) : bool := Ascii.eqb c "/".

Fixpoint dropSlashes (r : list ascii) : list ascii :=
  match r with
  | c :: r' => if isSlash c then dropSlashes r' else r
  | [] => []
  end.

Fixpoint takeSlashes (r : list ascii) : list ascii :=
  match r with
  | c :: r' => if isSlash c then c :: takeSlashes r' else []
  | [] => []
  end.

Fixpoint untilSlash (r : list ascii) : list ascii :=
  match r with
  | c :: r' => if isSlash c then [] else c :: untilSlash r'
  | [] => []
  end.

(** The last component of [p], trailing separators ignored, reversed. *)
Definition lastSegmentRev (p : string) : list ascii :=
  untilSlash (dropSlashes (rev (Js.chars p))).

(** Scanning a reversed component for its right-most dot: the characters
    after the dot (in reading order) and the reversed ones before it. *)
Fixpoint splitAtDot (r acc : list ascii) : option (list ascii * list ascii) :=
  match r with
  | [] => None
  | c :: r' =>
      if Ascii.eqb c "." then Some (acc, r') else splitAtDot r' (c :: acc)
  end.

(** [path.extname(p)]: from the last dot of the last component to its end;
    empty when there is no dot, when the dot opens the component, or when
    the component is [..]. *)
Definition extname (p : string) : string :=
  match splitAtDot (lastSegmentRev p) [] with
  | None => ""
  | Some (_, []) => ""
  | Some ([], ["."%char]) => ""
  | Some (after, _) => Js.str ("."%char :: after)
  end.

Inductive suffixMatch :=
| Full (restRev : list ascii)
| Partial
| Mismatch.

Fixpoint matchRev (sufR segR : list ascii) : suffixMatch :=
  match sufR, segR with
  | [], _ => Full segR
  | _ :: _, [] => Partial
  | a :: sufR', b :: segR' =>
      if Ascii.eqb a b then matchRev sufR' segR' else Mismatch
  end.

(** [path.basename(p, suffix)]. *)
Definition basename (p suffix : string) : string :=
  let r := rev (Js.chars p) in
  let segR := untilSlash (dropSlashes r) in
  if negb (String.eqb suffix "")
     && Nat.leb (String.length suffix) (String.length p)
  then
    if String.eqb suffix p then ""
    else
      match segR with
      | [] => p
      | _ :: _ =>
          match matchRev (rev (Js.chars suffix)) segR with
          | Full [] => Js.str (rev segR)
          | Full restR => Js.str (rev restR)
          | Mismatch => Js.str (rev segR)
          | Partial => Js.str (rev segR ++ takeSlashes r)%list
          end
      end
  else Js.str (rev segR).

(** Splitting at separators. *)
Fixpoint split (cur : list ascii) (l : list ascii) : list (list ascii) :=
  match l with
  | [] => [rev cur]
  | c :: l' => if isSlash c then rev cur :: split [] l' else split (c :: cur) l'
  end.

Definition isDotDot (seg : list ascii) : bool :=
  match seg with
  | ["."%char; "."%char] => true
  | _ => false
  end.

Definition isDot (seg : list ascii) : bool :=
  match seg with
  | ["."%char] => true
  | _ => false
  end.

(** One step of [normalizeString]: the stack holds the kept components,
    last first. *)
Definition pushSegment (allowAboveRoot : bool) (stack : list (list ascii))
    (seg : list ascii) : list (list ascii) :=
  match seg with
  | [] => stack
  | _ =>
      if isDot seg then stack
      else if isDotDot seg then
        match stack with
        | top :: below =>
            if isDotDot top then seg :: stack else below
        | [] => if allowAboveRoot then [seg] else []
        end
      else seg :: stack
  end.

Fixpoint intercalate (segs : list (list ascii)) : list ascii :=
  match segs with
  | [] => []
  | [s] => s
  | s :: rest => (s ++ "/"%char :: intercalate rest)%list
  end.

(** [path.normalize(p)]. *)
Definition normalize (p : string) : string :=
  match Js.chars p with
  | [] => "."
  | (c :: _) as l =>
      let isAbsolute := isSlash c in
      let trailing := match rev l with x :: _ => isSlash x | [] => false end in
      let kept := rev (fold_left (pushSegment (negb isAbsolute)) (split [] l) []) in
      let body := intercalate kept in
      match body with
      | [] => if isAbsolute then "/" else if trailing then "./" else "."
      | _ =>
          let body' := if trailing then (body ++ ["/"%char])%list else body in
          Js.str (if isAbsolute then "/"%char :: body' else body')
      end
  end.

(** [path.join(...parts)]. *)
Definition join (parts : list string) : string :=
  match filter (fun s => negb (String.eqb s "")) parts with
  | [] => "."
  | ps => normalize (String.concat "/" ps)
  end.

End Path.

(* ------------------------------------------------------------------ *)
(** ** The WHATWG [URL] class, on absolute URLs                        *)
(* ------------------------------------------------------------------ *)

Module Url.

Record t := mk {
  protocol : string;
  host : string;
  hostname : string;
  pathname : string
}.

Definition isAlpha (c : ascii) : bool :=
  let n := Js.codeUnit c in
  ((65 <=? n) && (n <=? 90)) || ((97 <=? n) && (n <=? 122)).

Definition isSchemeChar (c : ascii) : bool :=
  isAlpha c || Obj.isDigit c
  || Ascii.eqb c "+" || Ascii.eqb c "-" || Ascii.eqb c ".".

Definition lower (c : ascii) : ascii :=
  let n := Js.codeUnit c in
  if (65 <=? n) && (n <=? 90) then ascii_of_N (Z.to_N (n + 32)) else c.

(** Splitting at the first character satisfying [stop]. *)
Fixpoint break (stop : ascii -> bool) (l : list ascii) : list ascii * list ascii :=
  match l with
  | [] => ([], [])
  | c :: l' =>
      if stop c then ([], l)
      else let '(a, b) := break stop l' in (c :: a, b)
  end.

Definition isColon (c : ascii) : bool := Ascii.eqb c ":".
Definition endsAuthority (c : ascii) : bool :=
  Ascii.eqb c "/" || Ascii.eqb c "?" || Ascii.eqb c "#".
Definition endsPath (c : ascii) : bool :=
  Ascii.eqb c "?" || Ascii.eqb c "#".

Definition isSpecial (scheme : string) : bool :=
  existsb (String.eqb scheme) ["http"; "https"; "ftp"; "ws"; "wss"; "file"].

(** [new URL(s)] without a base: [None] stands for the [TypeError] thrown
    on a string with no scheme. Percent-encoding, dot-segment removal,
    credentials and IPv6 hosts are left out: the strings parsed here are
    the user's URL and hrefs already serialised by the browser. *)
Definition parse (s : string) : option t :=
  match break isColon (Js.chars s) with
  | ((c :: _) as scheme, _ :: rest) =>
      if isAlpha c && forallb isSchemeChar scheme then
        let scheme' := Js.str (map lower scheme) in
        match rest with
        | "/"%char :: "/"%char :: rest' =>
            let '(authority, tail) := break endsAuthority rest' in
            let '(path, _) := break endsPath tail in
            let path' :=
              match path with
              | [] => if isSpecial scheme' then ["/"%char] else []
              | _ => path
              end in
            Some (mk (scheme' ++ ":") (Js.str authority)
                     (Js.str (fst (break isColon authority))) (Js.str path'))
        | _ =>
            let '(path, _) := break endsPath rest in
            Some (mk (scheme' ++ ":") "" "" (Js.str path))
        end
      else None
  | _ => None
  end.

End Url.

(* ------------------------------------------------------------------ *)
(** ** [RegExp] and [String.prototype.replace]                         *)
(* ------------------------------------------------------------------ *)

Module RegExp.

Inductive item :=
| Single (c : ascii)
| Range (lo hi : ascii).

(** The fragment of the pattern language the code uses: literal
    characters, character classes (possibly negated) and optional
    classes. *)
Inductive atom :=
| Lit (c : ascii)
| Class (negated : bool) (items : list item)
| OptClass (negated : bool) (items : list item).

Definition pattern := list atom.

Definition inItem (x : ascii) (i : item) : bool :=
  match i with
  | Single c => Ascii.eqb x c
  | Range lo hi =>
      (Js.codeUnit lo <=? Js.codeUnit x) && (Js.codeUnit x <=? Js.codeUnit hi)
  end.

Definition inClass (negated : bool) (items : list item) (x : ascii) : bool :=
  xorb negated (existsb (inItem x) items).

(** Characters with a meaning of their own in a pattern. *)
Definition syntaxChars : list ascii :=
  ["."; "*"; "+"; "?"; "^"; "$"; "{"; "}"; "("; ")"; "|"; "["; "]"; "\"]%char.

Definition isSyntaxChar (c : ascii) : bool :=
  existsb (Ascii.eqb c) syntaxChars.

Definition consAtom (a : atom) (r : option pattern) : option pattern :=
  option_map (cons a) r.

(** [new RegExp(src, 'g')] on this fragment; [None] stands for a pattern
    outside it. An escaped syntax character is that character; inside
    brackets every character up to the closing bracket is a member. *)
Fixpoint compile (cls : option (list ascii)) (src : list ascii) : option pattern :=
  match src with
  | [] => match cls with None => Some [] | Some _ => None end
  | c :: rest =>
      match cls with
      | Some members =>
          if Ascii.eqb c "]" then
            match rest with
            | "?"%char :: rest' =>
                consAtom (OptClass false (map Single (rev members))) (compile None rest')
            | _ => consAtom (Class false (map Single (rev members))) (compile None rest)
            end
          else compile (Some (c :: members)) rest
      | None =>
          if Ascii.eqb c "\" then
            match rest with
            | c' :: rest' =>
                if isSyntaxChar c' then consAtom (Lit c') (compile None rest') else None
            | [] => None
            end
          else if Ascii.eqb c "[" then compile (Some []) rest
          else if isSyntaxChar c then None
          else consAtom (Lit c) (compile None rest)
      end
  end.

(** Matching at the head of [s], greedy with backtracking: the matched
    text and what follows it. *)
Fixpoint matchAt (p : pattern) (s : list ascii) : option (list ascii * list ascii) :=
  let take x r :=
    match r with Some (m, rest) => Some (x :: m, rest) | None => None end in
  match p with
  | [] => Some ([], s)
  | Lit c :: p' =>
      match s with
      | x :: s' => if Ascii.eqb x c then take x (matchAt p' s') else None
      | [] => None
      end
  | Class n items :: p' =>
      match s with
      | x :: s' => if inClass n items x then take x (matchAt p' s') else None
      | [] => None
      end
  | OptClass n items :: p' =>
      match s with
      | x :: s' =>
          if inClass n items x then
            match matchAt p' s' with
            | Some (m, rest) => Some (x :: m, rest)
            | None => matchAt p' s
            end
          else matchAt p' s
      | [] => matchAt p' s
      end
  end.

(** [GetSubstitution] for a pattern without capture groups: [$$], [$&],
    [$`] and [$'] are expanded, any other [$] is literal. *)
Fixpoint expand (matched before after template : list ascii) : list ascii :=
  match template with
  | [] => []
  | c :: t =>
      if Ascii.eqb c "$" then
        match t with
        | d :: t' =>
            if Ascii.eqb d "$" then "$"%char :: expand matched before after t'
            else if Ascii.eqb d "&" then matched ++ expand matched before after t'
            else if Ascii.eqb d "`" then before ++ expand matched before after t'
            else if Ascii.eqb d "'" then after ++ expand matched before after t'
            else c :: d :: expand matched before after t'
        | [] => [c]
        end
      else c :: expand matched before after t
  end%list.

(** The scan of a global replace: [skip] characters are still inside the
    last match; [beforeRev] is the subject read so far, reversed. *)
Fixpoint scan (p : pattern) (template : list ascii)
    (beforeRev : list ascii) (skip : nat) (s : list ascii) : list ascii :=
  match skip with
  | S k =>
      match s with
      | c :: s' => scan p template (c :: beforeRev) k s'
      | [] => []
      end
  | O =>
      match matchAt p s with
      | Some (m, rest) =>
          (expand m (rev beforeRev) rest template
           ++ match m, s with
              | _ :: m', c :: s' =>
                  scan p template (c :: beforeRev) (List.length m') s'
              | [], c :: s' => c :: scan p template (c :: beforeRev) 0 s'
              | _, [] => []
              end)%list
      | None =>
          match s with
          | c :: s' => c :: scan p template (c :: beforeRev) 0 s'
          | [] => []
          end
      end
  end.

(** [subject.replace(re, template)] for a global [re]. *)
Definition replace (p : pattern) (template subject : string) : string :=
  Js.str (scan p (Js.chars template) [] 0 (Js.chars subject)).

End RegExp.

Import RegExp.

(* ------------------------------------------------------------------ *)
(** ** Configuration and data                                          *)
(* ------------------------------------------------------------------ *)

(** The four values of [asset.type], the directory names of
    [CONFIG.DIRECTORIES]. *)
Inductive AssetType := images | stylesheets | scripts | fonts.

Module CONFIG.
Definition ASSET_DOWNLOAD_TIMEOUT : Z := 15000.

Module DIRECTORIES.
Definition ASSETS : string := "assets".
Definition IMAGES : AssetType := images.
Definition STYLESHEETS : AssetType := stylesheets.
Definition SCRIPTS : AssetType := scripts.
Definition FONTS : AssetType := fonts.
Definition SCREENSHOTS : string := "screenshots".
End DIRECTORIES.

(** [CONFIG.DEFAULT_EXTENSIONS[assetType]]. *)
Definition DEFAULT_EXTENSIONS (t : AssetType) : string :=
  match t with
  | images => ".jpg"
  | stylesheets => ".css"
  | scripts => ".js"
  | fonts => ".woff2"
  end.
End CONFIG.

Definition dirName (t : AssetType) : string :=
  match t with
  | images => "images"
  | stylesheets => "stylesheets"
  | scripts => "scripts"
  | fonts => "fonts"
  end.

(** An entry of [scrapedData.assets]: [url] is the canonical URL, the
    literal text found in the page is [originalSrc] (images, scripts) or
    [originalHref] (stylesheets, fonts). *)
Record Asset := mkAsset {
  url : string;
  alt : option string;
  originalSrc : option string;
  originalHref : option string
}.

Record Assets := mkAssets {
  a_images : list Asset;
  a_stylesheets : list Asset;
  a_scripts : list Asset;
  a_fonts : list Asset
}.

(** [{ ...asset, type }]. *)
Record TypedAsset := typed {
  base : Asset;
  type : AssetType
}.

Record Viewport := mkViewport { width : Z; height : Z }.

Record Params := mkParams {
  p_url : string;
  p_outputDir : string;
  p_userAgent : string;
  p_respectRobots : bool;
  p_timeout : Z;
  p_downloadAssets : bool;
  p_takeScreenshots : bool;
  p_desktopViewport : Viewport;
  p_mobileViewport : Viewport
}.

Record ScrapedData := mkScrapedData {
  html : option string;
  title : option string;
  metadata : JsObject string;
  assets : Assets
}.

Record Screenshots := mkScreenshots {
  desktop : option string;
  mobile : option string
}.

(** [this.result] of a [WebScraper]. *)
Record Result := mkResult {
  success : bool;
  r_url : string;
  accessible : bool;
  scrapingAllowed : bool;
  outputDir : string;
  scrapedData : ScrapedData;
  screenshots : Screenshots;
  assetMapping : JsObject string;
  statistics : JsObject Z;
  message : string
}.

Definition set_success (b : bool) (r : Result) : Result :=
  mkResult b (r_url r) (accessible r) (scrapingAllowed r) (outputDir r)
    (scrapedData r) (screenshots r) (assetMapping r) (statistics r) (message r).
Definition set_accessible (b : bool) (r : Result) : Result :=
  mkResult (success r) (r_url r) b (scrapingAllowed r) (outputDir r)
    (scrapedData r) (screenshots r) (assetMapping r) (statistics r) (message r).
Definition set_scrapingAllowed (b : bool) (r : Result) : Result :=
  mkResult (success r) (r_url r) (accessible r) b (outputDir r)
    (scrapedData r) (screenshots r) (assetMapping r) (statistics r) (message r).
Definition set_scrapedData (d : ScrapedData) (r : Result) : Result :=
  mkResult (success r) (r_url r) (accessible r) (scrapingAllowed r) (outputDir r)
    d (screenshots r) (assetMapping r) (statistics r) (message r).
Definition set_screenshots (s : Screenshots) (r : Result) : Result :=
  mkResult (success r) (r_url r) (accessible r) (scrapingAllowed r) (outputDir r)
    (scrapedData r) s (assetMapping r) (statistics r) (message r).
Definition set_assetMapping (m : JsObject string) (r : Result) : Result :=
  mkResult (success r) (r_url r) (accessible r) (scrapingAllowed r) (outputDir r)
    (scrapedData r) (screenshots r) m (statistics r) (message r).
Definition set_statistics (s : JsObject Z) (r : Result) : Result :=
  mkResult (success r) (r_url r) (accessible r) (scrapingAllowed r) (outputDir r)
    (scrapedData r) (screenshots r) (assetMapping r) s (message r).
Definition set_message (m : string) (r : Result) : Result :=
  mkResult (success r) (r_url r) (accessible r) (scrapingAllowed r) (outputDir r)
    (scrapedData r) (screenshots r) (assetMapping r) (statistics r) m.

(* ------------------------------------------------------------------ *)
(** ** The outside world                                               *)
(* ------------------------------------------------------------------ *)

(** The record serialised into [metadata.json]. *)
Record Metadata := mkMetadata {
  m_url : string;
  m_originalUrl : string;
  m_title : option string;
  m_metadata : JsObject string;
  m_scrapedAt : Z;
  m_assets : Assets;
  m_assetMapping : JsObject string;
  m_statistics : JsObject Z
}.

(** What is written to a file. *)
Inductive Content :=
| Text (s : string)
| Buffer (byteLength : Z)
| Json (m : Metadata).

(** Calls that leave the process, in the order they are made;
    [EvClose] is [browser.close()]. *)
Inductive Event :=
| EvMkdir (dir : string)
| EvRobotsLoad (robotsUrl : string)
| EvLaunch
| EvGoto (target : string)
| EvWait (ms : Z)
| EvFetch (target : string)
| EvWriteFile (path : string) (content : Content)
| EvSetViewport (v : Viewport)
| EvScreenshot (path : string)
| EvClose
| EvClosePage
| EvCloseContext.

Inductive GotoOutcome :=
| GotoThrows (msg : string)
| GotoNull
| GotoResponse (ok : bool) (status : Z) (statusText : string).

Inductive FetchOutcome :=
| FetchThrows (msg : string)
| FetchResponse (ok : bool) (status : Z) (statusText : string) (byteLength : Z).

(** What the collaborators answer. An [option string] is the message of
    the error the call throws, [None] when it returns. *)
Record Env := mkEnv {
  robotsLoad : string -> option string;
  robotsIsAllowed : string -> bool;
  launch : option string;
  goto : string -> GotoOutcome;
  pageTitle : string;
  pageContent : string;
  pageUrl : string;
  pageMetadata : JsObject string;
  pageAssets : Assets;
  fetch : string -> FetchOutcome;
  setViewportSize : Viewport -> option string;
  screenshot : string -> option string;
  elapsed : Event -> Z;
  closePage : option string;
  closeContext : option string;
  closeBrowser : option string
}.

Inductive Level := warn | error.

(** The state a run reads and writes: the clock of [Date.now()], the
    entries of the file system, the trace of external calls, the lines
    sent to [console.warn] and [console.error], and the scraper object
    (its [result] and whether it holds browser handles: [page],
    [context] and [browser] are set together, and nothing resets
    them). *)
Record State := mkState {
  clock : Z;
  files : list string;
  trace : list Event;
  console : list (Level * string);
  result : Result;
  browser : bool
}.

Definition set_clock (t : Z) (s : State) : State :=
  mkState t (files s) (trace s) (console s) (result s) (browser s).
Definition set_files (f : list string) (s : State) : State :=
  mkState (clock s) f (trace s) (console s) (result s) (browser s).
Definition set_trace (t : list Event) (s : State) : State :=
  mkState (clock s) (files s) t (console s) (result s) (browser s).
Definition set_console (c : list (Level * string)) (s : State) : State :=
  mkState (clock s) (files s) (trace s) c (result s) (browser s).
Definition set_result (r : Result) (s : State) : State :=
  mkState (clock s) (files s) (trace s) (console s) r (browser s).
Definition set_browser (b : bool) (s : State) : State :=
  mkState (clock s) (files s) (trace s) (console s) (result s) b.

(** A completed statement: a value, or a thrown [Error] with its
    message. *)
Inductive Completion (A : Type) :=
| Normal (a : A)
| Throw (msg : string).
Arguments Normal {A} a.
Arguments Throw {A} msg.

Definition M (A : Type) : Type := State -> Completion A * State.

Definition ret {A} (a : A) : M A := fun s => (Normal a, s).

Definition bind {A B} (c : M A) (k : A -> M B) : M B :=
  fun s =>
    match c s with
    | (Normal a, s') => k a s'
    | (Throw msg, s') => (Throw msg, s')
    end.

Definition throw {A} (msg : string) : M A := fun s => (Throw msg, s).

(** [try { c } catch (error) { handler(error.message) }]. *)
Definition try_catch {A} (c : M A) (handler : string -> M A) : M A :=
  fun s =>
    match c s with
    | (Normal a, s') => (Normal a, s')
    | (Throw msg, s') => handler msg s'
    end.

(** [try { c } finally { fin }], for a [fin] that does not throw. *)
Definition try_finally {A} (c : M A) (fin : M unit) : M A :=
  fun s =>
    match c s with
    | (r, s') => (r, snd (fin s'))
    end.

Definition get : M State := fun s => (Normal s, s).
Definition modify (f : State -> State) : M unit := fun s => (Normal tt, f s).

Declare Scope js_scope.
Delimit Scope js_scope with js.
Notation "x <- c ;; k" := (bind c (fun x => k))
  (at level 61, c at next level, right associativity) : js_scope.
Notation "c ;; k" := (bind c (fun _ => k))
  (at level 61, right associativity) : js_scope.
Open Scope js_scope.

(** [for (const x of l) { body(x) }]. *)
Fixpoint for_of {A} (l : list A) (body : A -> M unit) : M unit :=
  match l with
  | [] => ret tt
  | x :: l' => body x ;; for_of l' body
  end.

(** [Date.now()]. *)
Definition Date_now : M Z := fun s => (Normal (clock s), s).

(** An external call: recorded, and the clock moves by what it took. *)
Definition call (env : Env) (e : Event) : M unit :=
  modify (fun s =>
    set_clock (clock s + elapsed env e) (set_trace (trace s ++ [e])%list s)).

(** An external call that may throw. *)
Definition callThrowing (env : Env) (e : Event) (outcome : option string) : M unit :=
  call env e ;;
  match outcome with
  | Some msg => throw msg
  | None => ret tt
  end.

Definition log (l : Level) (msg : string) : M unit :=
  modify (fun s => set_console (console s ++ [(l, msg)])%list s).

Definition updateResult (f : Result -> Result) : M unit :=
  modify (fun s => set_result (f (result s)) s).

(** [try { steps } catch (error) { handler } ; return local] for a body
    that updates a local object at the end of each of its steps: what
    the steps before the failing one stored is kept. *)
Fixpoint try_steps {L} (local : L) (steps : list (L -> M L))
    (handler : string -> M unit) : M L :=
  match steps with
  | [] => ret local
  | step :: rest =>
      fun s =>
        match step local s with
        | (Normal local', s') => try_steps local' rest handler s'
        | (Throw msg, s') => (handler msg ;; ret local) s'
        end
  end.

(** A loop that updates local variables [acc]. *)
Fixpoint for_of_with {A L} (l : list A) (acc : L) (body : A -> L -> M L) : M L :=
  match l with
  | [] => ret acc
  | x :: l' => acc' <- body x acc ;; for_of_with l' acc' body
  end.

(** [new URL(s)] as a statement. *)
Definition new_URL (s : string) : M Url.t :=
  match Url.parse s with
  | Some u => ret u
  | None => throw "Invalid URL"
  end.

(* ------------------------------------------------------------------ *)
(** ** [class FileManager]                                             *)
(* ------------------------------------------------------------------ *)

Definition addEntry (path : string) (fs : list string) : list string :=
  if existsb (String.eqb path) fs then fs else (fs ++ [path])%list.

Module FileManager.
Section FileManager.
Variable env : Env.
Variable outputDir : string.

Definition getAssetPath (subdir : option AssetType) : string :=
  match subdir with
  | Some d => Path.join [outputDir; CONFIG.DIRECTORIES.ASSETS; dirName d]
  | None => Path.join [outputDir; CONFIG.DIRECTORIES.ASSETS]
  end.

Definition getScreenshotPath : string :=
  Path.join [outputDir; CONFIG.DIRECTORIES.SCREENSHOTS].

Definition mkdir (dir : string) : M unit :=
  call env (EvMkdir dir) ;;
  modify (fun s => set_files (addEntry dir (files s)) s).

Definition writeFile (path : string) (content : Content) : M unit :=
  call env (EvWriteFile path content) ;;
  modify (fun s => set_files (addEntry path (files s)) s).

(** The local [directories] of [createDirectoryStructure]. *)
Definition directories : list string :=
  [ outputDir;
    getAssetPath None;
    getAssetPath (Some CONFIG.DIRECTORIES.IMAGES);
    getAssetPath (Some CONFIG.DIRECTORIES.STYLESHEETS);
    getAssetPath (Some CONFIG.DIRECTORIES.SCRIPTS);
    getAssetPath (Some CONFIG.DIRECTORIES.FONTS);
    getScreenshotPath ].

Definition createDirectoryStructure : M unit :=
  for_of directories mkdir.

Definition saveFile (filename : string) (content : Content) : M unit :=
  let filePath := Path.join [outputDir; filename] in
  writeFile filePath content.

Definition saveAsset (assetType : AssetType) (filename : string)
    (buffer : Content) : M string :=
  let filePath := Path.join [getAssetPath (Some assetType); filename] in
  writeFile filePath buffer ;;
  ret (Path.join [CONFIG.DIRECTORIES.ASSETS; dirName assetType; filename]).

Definition fileExists (filePath : string) : M bool :=
  s <- get ;;
  ret (existsb (String.eqb filePath) (files s)).

End FileManager.
End FileManager.

(* ------------------------------------------------------------------ *)
(** ** [class AssetNamer]                                              *)
(* ------------------------------------------------------------------ *)

Module AssetNamer.

(** [/[^a-zA-Z0-9.-]/g]. *)
Definition unsafeChar : pattern :=
  [Class true [Range "a" "z"; Range "A" "Z"; Range "0" "9";
               Single "."; Single "-"]]%char.

(** The body of [generateFilename] once [Date.now()] has been read. *)
Definition filenameAt (now : Z) (pathname : string) (assetType : AssetType) : string :=
  let ext :=
    Js.or_else (Js.or_else (Path.extname pathname)
                           (CONFIG.DEFAULT_EXTENSIONS assetType)) ".bin" in
  let basename := Js.or_else (Path.basename pathname ext) "asset" in
  let basename := RegExp.replace unsafeChar "_" basename in
  let hash := Js.substring0 8 (MD5.hex (pathname ++ Js.toString now)) in
  basename ++ "-" ++ hash ++ ext.

Definition generateFilename (pathname : string) (assetType : AssetType) : M string :=
  now <- Date_now ;;
  ret (filenameAt now pathname assetType).

End AssetNamer.

(* ------------------------------------------------------------------ *)
(** ** [class AssetMapper] and the rewriter of [cli.js]                *)
(* ------------------------------------------------------------------ *)

(** [/[.*+?^${}()|[\]\\]/g]. *)
Definition regexpSpecial : pattern :=
  [Class false
     (map Single
        ["."; "*"; "+"; "?"; "^"; "$"; "{"; "}"; "("; ")"; "|"; "["; "]"; "\"]%char)].

(** [subject.replace(new RegExp(src, 'g'), template)]; [None] when
    [src] is outside the fragment of patterns modelled. *)
Definition replaceRegExp (src template subject : string) : option string :=
  option_map (fun p => RegExp.replace p template subject)
             (compile None (Js.chars src)).

Module AssetMapper.

Definition replaceAssetUrls (html : string) (assetMapping : JsObject string)
  : option string :=
  fold_left
    (fun (modifiedHtml : option string) '(originalUrl, localPath) =>
       match modifiedHtml with
       | None => None
       | Some modifiedHtml =>
           let escapedUrl := RegExp.replace regexpSpecial "\$&" originalUrl in
           (* Replace src attributes *)
           match replaceRegExp
                   ("src=['" ++ Js.q ++ "]" ++ escapedUrl ++ "['" ++ Js.q ++ "]")
                   ("src=" ++ Js.q ++ localPath ++ Js.q) modifiedHtml with
           | None => None
           | Some modifiedHtml =>
               (* Replace href attributes *)
               match replaceRegExp
                       ("href=['" ++ Js.q ++ "]" ++ escapedUrl ++ "['" ++ Js.q ++ "]")
                       ("href=" ++ Js.q ++ localPath ++ Js.q) modifiedHtml with
               | None => None
               | Some modifiedHtml =>
                   (* Replace CSS url() functions *)
                   replaceRegExp
                     ("url\(['" ++ Js.q ++ "]?" ++ escapedUrl ++ "['" ++ Js.q ++ "]?\)")
                     ("url(" ++ Js.q ++ localPath ++ Js.q ++ ")") modifiedHtml
               end
           end
       end)
    (Obj.entries assetMapping) (Some html).

End AssetMapper.

Module Cli.

Definition escapeRegExp (text : string) : string :=
  RegExp.replace regexpSpecial "\$&" text.

Definition replaceAssetUrls (html : string) (assetMapping : JsObject string)
  : option string :=
  fold_left
    (fun (modifiedHtml : option string) '(originalUrl, localPath) =>
       match modifiedHtml with
       | None => None
       | Some modifiedHtml =>
           let escapedUrl := escapeRegExp originalUrl in
           match replaceRegExp
                   ("src=['" ++ Js.q ++ "]" ++ escapedUrl ++ "['" ++ Js.q ++ "]")
                   ("src=" ++ Js.q ++ localPath ++ Js.q) modifiedHtml with
           | None => None
           | Some modifiedHtml =>
               match replaceRegExp
                       ("href=['" ++ Js.q ++ "]" ++ escapedUrl ++ "['" ++ Js.q ++ "]")
                       ("href=" ++ Js.q ++ localPath ++ Js.q) modifiedHtml with
               | None => None
               | Some modifiedHtml =>
                   replaceRegExp
                     ("url\(['" ++ Js.q ++ "]?" ++ escapedUrl ++ "['" ++ Js.q ++ "]?\)")
                     ("url(" ++ Js.q ++ localPath ++ Js.q ++ ")") modifiedHtml
               end
           end
       end)
    (Obj.entries assetMapping) (Some html).

End Cli.

Definition sampleHtml : string :=
  "<img src=" ++ Js.q ++ "a.b/x.png" ++ Js.q ++ "><link href='a.b/x.png'>"
  ++ "<p style=" ++ Js.q ++ "background:url(a.b/x.png)" ++ Js.q ++ ">"
  ++ "<img src='aXb/x.png'> src=a.b/x.png".

(* ------------------------------------------------------------------ *)
(** ** [class AssetManager]                                            *)
(* ------------------------------------------------------------------ *)

Record Stats := mkStats { total : Z; downloaded : Z; failed : Z }.

(** What [downloadSingleAsset] returns. *)
Record Download := mkDownload {
  d_success : bool;
  d_filename : string;
  d_relativePath : string;
  d_size : Z
}.

(** [self.findIndex(pred)]; [None] stands for [-1]. *)
Fixpoint findIndex {A} (pred : A -> bool) (self : list A) : option nat :=
  match self with
  | [] => None
  | a :: rest =>
      if pred a then Some O else option_map S (findIndex pred rest)
  end.

(** [self.filter((x, index, self) => keep x index self)]. *)
Definition filterIndexed {A} (keep : A -> nat -> list A -> bool) (self : list A) : list A :=
  map snd
    (filter (fun ix => keep (snd ix) (fst ix) self)
            (combine (seq 0 (List.length self)) self)).

Definition sameIndex (index : nat) (found : option nat) : bool :=
  match found with
  | Some i => Nat.eqb index i
  | None => false
  end.

(** [if (key) mapping[key] = value]. *)
Definition setIfTruthy (key : option string) (value : string)
    (mapping : JsObject string) : JsObject string :=
  match key with
  | Some k => if Js.truthy key then Obj.assign k value mapping else mapping
  | None => mapping
  end.

Module AssetManager.
Section AssetManager.
Variable env : Env.
Variable outputDir : string.

Definition flattenAssets (assets : Assets) : list TypedAsset :=
  (map (fun asset => typed asset CONFIG.DIRECTORIES.IMAGES) (a_images assets)
   ++ map (fun asset => typed asset CONFIG.DIRECTORIES.STYLESHEETS) (a_stylesheets assets)
   ++ map (fun asset => typed asset CONFIG.DIRECTORIES.SCRIPTS) (a_scripts assets)
   ++ map (fun asset => typed asset CONFIG.DIRECTORIES.FONTS) (a_fonts assets))%list.

Definition removeDuplicates (assets : list TypedAsset) : list TypedAsset :=
  filterIndexed
    (fun asset index self =>
       sameIndex index
         (findIndex (fun a => String.eqb (url (base a)) (url (base asset))) self))
    assets.

Definition downloadSingleAsset (asset : TypedAsset) (userAgent : string) : M Download :=
  assetUrl <- new_URL (url (base asset)) ;;
  filename <- AssetNamer.generateFilename (Url.pathname assetUrl) (type asset) ;;
  let localPath :=
    Path.join [FileManager.getAssetPath outputDir (Some (type asset)); filename] in
  (* Check if file already exists *)
  present <- FileManager.fileExists localPath ;;
  if (present : bool) then
    ret (mkDownload true filename
           (Path.join [CONFIG.DIRECTORIES.ASSETS; dirName (type asset); filename]) 0)
  else
    (* Download asset *)
    call env (EvFetch (url (base asset))) ;;
    match fetch env (url (base asset)) with
    | FetchThrows msg => throw msg
    | FetchResponse ok status statusText byteLength =>
        if negb ok then
          throw ("HTTP " ++ Js.toString status ++ ": " ++ statusText)
        else
          relativePath <-
            FileManager.saveAsset env outputDir (type asset) filename
              (Buffer byteLength) ;;
          ret (mkDownload true filename relativePath byteLength)
    end.

Definition downloadAndMapAssets (assets : Assets) (userAgent : string)
  : M (JsObject string * Stats) :=
  let mapping : JsObject string := [] in
  let stats := mkStats 0 0 0 in
  let allAssets := flattenAssets assets in
  let uniqueAssets := removeDuplicates allAssets in
  let stats := mkStats (Z.of_nat (List.length uniqueAssets)) (downloaded stats) (failed stats) in
  for_of_with uniqueAssets (mapping, stats)
    (fun asset '(mapping, stats) =>
       try_catch
         (result <- downloadSingleAsset asset userAgent ;;
          if d_success result then
            (* Create all possible mappings *)
            let mapping := Obj.assign (url (base asset)) (d_relativePath result) mapping in
            let mapping := setIfTruthy (originalSrc (base asset)) (d_relativePath result) mapping in
            let mapping := setIfTruthy (originalHref (base asset)) (d_relativePath result) mapping in
            ret (mapping, mkStats (total stats) (downloaded stats + 1) (failed stats))
          else
            ret (mapping, mkStats (total stats) (downloaded stats) (failed stats + 1)))
         (fun msg =>
            log error ("Failed to download " ++ url (base asset) ++ ": " ++ msg) ;;
            ret (mapping, mkStats (total stats) (downloaded stats) (failed stats + 1)))).

End AssetManager.
End AssetManager.

(* ------------------------------------------------------------------ *)
(** ** [class ScreenshotManager]                                       *)
(* ------------------------------------------------------------------ *)

Module ScreenshotManager.
Section ScreenshotManager.
Variable env : Env.
Variable outputDir : string.

(** [page.screenshot({ path, fullPage: true, type: 'png' })]. *)
Definition pageScreenshot (path : string) : M unit :=
  callThrowing env (EvScreenshot path) (screenshot env path) ;;
  modify (fun s => set_files (addEntry path (files s)) s).

Definition captureScreenshots (desktopViewport mobileViewport : Viewport)
    (hostname : string) : M Screenshots :=
  let screenshots := mkScreenshots None None in
  timestamp <- Date_now ;;
  try_steps screenshots
    [ (fun screenshots =>
         (* Desktop screenshot *)
         callThrowing env (EvSetViewport desktopViewport)
                      (setViewportSize env desktopViewport) ;;
         call env (EvWait 2000) ;;
         let desktopFilename :=
           hostname ++ "-desktop-" ++ Js.toString timestamp ++ ".png" in
         let desktopPath :=
           Path.join [FileManager.getScreenshotPath outputDir; desktopFilename] in
         pageScreenshot desktopPath ;;
         ret (mkScreenshots (Some desktopPath) (mobile screenshots)));
      (fun screenshots =>
         (* Mobile screenshot *)
         callThrowing env (EvSetViewport mobileViewport)
                      (setViewportSize env mobileViewport) ;;
         call env (EvWait 2000) ;;
         let mobileFilename :=
           hostname ++ "-mobile-" ++ Js.toString timestamp ++ ".png" in
         let mobilePath :=
           Path.join [FileManager.getScreenshotPath outputDir; mobileFilename] in
         pageScreenshot mobilePath ;;
         ret (mkScreenshots (desktop screenshots) (Some mobilePath))) ]
    (fun msg => log error ("Screenshot error: " ++ msg)).

End ScreenshotManager.
End ScreenshotManager.

(* ------------------------------------------------------------------ *)
(** ** [class WebScraper]                                              *)
(* ------------------------------------------------------------------ *)

(** [`${n}`] for a property that may be missing. *)
Definition showNumber (n : option Z) : string :=
  match n with
  | Some z => Js.toString z
  | None => "undefined"
  end.

Module WebScraper.
Section WebScraper.
Variable env : Env.
Variable params : Params.

(** [this.result] as the constructor leaves it. *)
Definition initialResult : Result :=
  mkResult false (p_url params) false false (p_outputDir params)
    (mkScrapedData None None [] (mkAssets [] [] [] []))
    (mkScreenshots None None)
    []
    [("totalAssets", 0); ("downloadedAssets", 0); ("failedAssets", 0);
     ("processingTime", 0)]
    "".

Definition validateUrl : M unit :=
  urlObj <- new_URL (p_url params) ;;
  if negb (existsb (String.eqb (Url.protocol urlObj)) ["http:"; "https:"]) then
    throw "Only HTTP and HTTPS URLs are supported"
  else ret tt.

Definition checkRobotsTxt : M unit :=
  if negb (p_respectRobots params) then ret tt
  else
    try_catch
      (urlObj <- new_URL (p_url params) ;;
       let robotsUrl := Url.protocol urlObj ++ "//" ++ Url.host urlObj ++ "/robots.txt" in
       callThrowing env (EvRobotsLoad robotsUrl) (robotsLoad env robotsUrl) ;;
       if negb (robotsIsAllowed env (p_url params)) then
         throw "Access blocked by robots.txt"
       else ret tt)
      (fun msg =>
         if Js.includes "blocked" msg then throw msg
         else log warn "robots.txt not accessible - proceeding").

Definition launchBrowser : M unit :=
  callThrowing env EvLaunch (launch env) ;;
  modify (set_browser true).

Definition scrapePage : M unit :=
  call env (EvGoto (p_url params)) ;;
  match goto env (p_url params) with
  | GotoThrows msg => throw msg
  | GotoNull => throw "HTTP unknown: Navigation failed"
  | GotoResponse ok status statusText =>
      if negb ok then
        throw ("HTTP " ++ (if status =? 0 then "unknown" else Js.toString status)
               ++ ": " ++ Js.or_else statusText "Navigation failed")
      else
        (* Wait for content to fully load *)
        call env (EvWait 2000) ;;
        (* Extract page data *)
        updateResult
          (set_scrapedData
             (mkScrapedData (Some (pageContent env)) (Some (pageTitle env))
                            (pageMetadata env) (pageAssets env)))
  end.

(** The entries of the [stats] object of [downloadAndMapAssets]. *)
Definition statsObject (stats : Stats) : JsObject Z :=
  [("total", total stats); ("downloaded", downloaded stats); ("failed", failed stats)].

Definition processAssets : M unit :=
  urlObj <- new_URL (p_url params) ;;
  s <- get ;;
  downloadResult <-
    AssetManager.downloadAndMapAssets env (p_outputDir params)
      (assets (scrapedData (result s))) (p_userAgent params) ;;
  updateResult (set_assetMapping (fst downloadResult)) ;;
  updateResult (fun r =>
    set_statistics (Obj.spread (statistics r) (statsObject (snd downloadResult))) r).

Definition captureScreenshots : M unit :=
  urlObj <- new_URL (p_url params) ;;
  shots <-
    ScreenshotManager.captureScreenshots env (p_outputDir params)
      (p_desktopViewport params) (p_mobileViewport params) (Url.hostname urlObj) ;;
  updateResult (set_screenshots shots).

Definition saveResults : M unit :=
  s <- get ;;
  match html (scrapedData (result s)) with
  | None => throw "Cannot read properties of null"
  | Some captured =>
      (* Create modified HTML with local asset paths *)
      match AssetMapper.replaceAssetUrls captured (assetMapping (result s)) with
      | None => throw "Invalid regular expression"
      | Some modifiedHtml =>
          (* Save HTML file *)
          FileManager.saveFile env (p_outputDir params) "index.html"
            (Text modifiedHtml) ;;
          (* Save metadata *)
          scrapedAt <- Date_now ;;
          let metadataRecord :=
            mkMetadata (pageUrl env) (p_url params)
              (title (scrapedData (result s))) (metadata (scrapedData (result s)))
              scrapedAt (assets (scrapedData (result s)))
              (assetMapping (result s)) (statistics (result s)) in
          FileManager.saveFile env (p_outputDir params) "metadata.json"
            (Json metadataRecord) ;;
          (* Update result with modified HTML *)
          updateResult (fun r =>
            set_scrapedData
              (mkScrapedData (Some modifiedHtml) (title (scrapedData r))
                             (metadata (scrapedData r)) (assets (scrapedData r))) r)
      end
  end.

Definition cleanup : M unit :=
  try_catch
    (s <- get ;;
     (if browser s then callThrowing env EvClosePage (closePage env) else ret tt) ;;
     (if browser s then callThrowing env EvCloseContext (closeContext env)
      else ret tt) ;;
     (if browser s then callThrowing env EvClose (closeBrowser env) else ret tt))
    (fun msg => log error ("Cleanup error: " ++ msg)).

Definition setProcessingTime (startTime : Z) : M unit :=
  now <- Date_now ;;
  updateResult (fun r =>
    set_statistics (Obj.set "processingTime" (now - startTime) (statistics r)) r).

Definition scrape : M Result :=
  startTime <- Date_now ;;
  try_finally
    (try_catch
       ((* Step 1: Validate URL *)
        validateUrl ;;
        (* Step 2: Setup file system *)
        FileManager.createDirectoryStructure env (p_outputDir params) ;;
        (* Step 3: Check robots.txt *)
        checkRobotsTxt ;;
        (* Step 4: Launch browser and scrape *)
        launchBrowser ;;
        scrapePage ;;
        (* Step 5: Process assets *)
        (if p_downloadAssets params then processAssets else ret tt) ;;
        (* Step 6: Take screenshots *)
        (if p_takeScreenshots params then captureScreenshots else ret tt) ;;
        (* Step 7: Save results *)
        saveResults ;;
        updateResult (set_success true) ;;
        updateResult (set_accessible true) ;;
        updateResult (set_scrapingAllowed true) ;;
        setProcessingTime startTime ;;
        updateResult (fun r =>
          set_message
            ("Successfully scraped page and processed "
             ++ showNumber (Obj.get "downloadedAssets" (statistics r)) ++ "/"
             ++ showNumber (Obj.get "totalAssets" (statistics r)) ++ " assets in "
             ++ showNumber (Obj.get "processingTime" (statistics r)) ++ "ms") r))
       (fun msg =>
          log error ("Scraping failed: " ++ msg) ;;
          updateResult (set_message ("Scraping error: " ++ msg)) ;;
          setProcessingTime startTime))
    cleanup ;;
  s <- get ;;
  ret (result s).

End WebScraper.

(** [execute(params)] of the tool: a new [WebScraper], then [scrape()].
    The clock, the file system, the trace and the console are the
    process's and persist from one call to the next. *)
Definition execute (env : Env) (params : Params) (s : State) : Result * State :=
  let s0 := set_browser false (set_result (initialResult params) s) in
  match scrape env params s0 with
  | (Normal r, s') => (r, s')
  | (Throw _, s') => (result s', s')
  end.

End WebScraper.

(** A fresh process: nothing on disk, nothing called yet. *)
Definition boot (now : Z) : State :=
  mkState now [] [] []
    (mkResult false "" false false "" (mkScrapedData None None [] (mkAssets [] [] [] []))
       (mkScreenshots None None) [] [] "")
    false.

(* ------------------------------------------------------------------ *)
(** ** Definitions used in the statements and proofs                   *)
(* ------------------------------------------------------------------ *)

(** What [escapeRegExp] yields, character by character. *)
Definition escaped (l : list ascii) : list ascii :=
  flat_map (fun c => if isSyntaxChar c then ["\"%char; c] else [c]) l.

Definition quoteClass : list item := [Single "'"; Single Js.dquote]%char.

Fixpoint consAtoms (l : list atom) (r : option pattern) : option pattern :=
  match l with
  | [] => r
  | a :: l' => consAtom a (consAtoms l' r)
  end.

Definition attrPattern (name u : string) : pattern :=
  (map Lit (Js.chars name) ++ [Lit "="%char; Class false quoteClass]
   ++ map Lit (Js.chars u) ++ [Class false quoteClass])%list.

Definition urlPattern (u : string) : pattern :=
  (map Lit (Js.chars "url(") ++ [OptClass false quoteClass]
   ++ map Lit (Js.chars u) ++ [OptClass false quoteClass; Lit ")"%char])%list.

(** One turn of the rewriting loop, with the patterns compiled. *)
Definition rewriteOne (modifiedHtml : string) (entry : string * string) : string :=
  let '(originalUrl, localPath) := entry in
  RegExp.replace (urlPattern originalUrl) ("url(" ++ Js.q ++ localPath ++ Js.q ++ ")")
    (RegExp.replace (attrPattern "href" originalUrl) ("href=" ++ Js.q ++ localPath ++ Js.q)
       (RegExp.replace (attrPattern "src" originalUrl) ("src=" ++ Js.q ++ localPath ++ Js.q)
          modifiedHtml)).

(** The state after an external call [e]. *)
Definition afterCall (env : Env) (e : Event) (s : State) : State :=
  set_clock (clock s + elapsed env e) (set_trace (trace s ++ [e])%list s).

Definition afterMkdir (env : Env) (s : State) (dir : string) : State :=
  let s' := afterCall env (EvMkdir dir) s in
  set_files (addEntry dir (files s')) s'.

(** The calls [cleanup] makes when the browser handles are set: the page,
    the context and the browser are closed in that order, and a close
    that throws ends the sequence. *)
Definition closeCalls (env : Env) : list Event :=
  EvClosePage
  :: match closePage env with
     | Some _ => []
     | None =>
         EvCloseContext
         :: match closeContext env with
            | Some _ => []
            | None => [EvClose]
            end
     end.

(** The error [cleanup] catches, if any. *)
Definition closeError (env : Env) : option string :=
  match closePage env with
  | Some msg => Some msg
  | None =>
      match closeContext env with
      | Some msg => Some msg
      | None => closeBrowser env
      end
  end.

(** The state after [cleanup]. *)
Definition afterCleanup (env : Env) (s : State) : State :=
  if browser s then
    let s' := fold_left (fun x e => afterCall env e x) (closeCalls env) s in
    match closeError env with
    | Some msg =>
        set_console
          (console s' ++ [(error, ("Cleanup error: " ++ msg)%string)])%list s'
    | None => s'
    end
  else s.

(** [robots.txt] lets the run go on: the check is off, or the file loads
    and allows the URL, or loading fails with a message that does not
    contain the word the handler looks for. *)
Definition robotsUrlOf (u : Url.t) : string :=
  Url.protocol u ++ "//" ++ Url.host u ++ "/robots.txt".

Definition robotsPass (env : Env) (params : Params) (u : Url.t) : bool :=
  negb (p_respectRobots params)
  || match robotsLoad env (robotsUrlOf u) with
     | None => robotsIsAllowed env (p_url params)
     | Some msg => negb (Js.includes "blocked" msg)
     end.

Definition validProtocol (u : Url.t) : bool :=
  existsb (String.eqb (Url.protocol u)) ["http:"; "https:"].

(** The path of a capture taken for [kind] at clock reading [t]. *)
Definition capturePath (outputDir hostname kind : string) (t : Z) : string :=
  Path.join [FileManager.getScreenshotPath outputDir;
             hostname ++ "-" ++ kind ++ "-" ++ Js.toString t ++ ".png"].

Definition isNone {A} (o : option A) : bool :=
  match o with None => true | Some _ => false end.

(** Neither resizing to [v] nor the capture into [path] throws. *)
Definition captureOk (env : Env) (v : Viewport) (path : string) : bool :=
  isNone (setViewportSize env v) && isNone (screenshot env path).

(** The scraper's own fields are untouched. *)
Definition sameScraper (s s' : State) : Prop :=
  result s' = result s /\ browser s' = browser s.

Definition countFetches (target : string) (t : list Event) : nat :=
  List.length
    (filter (fun e => match e with
                      | EvFetch x => String.eqb x target
                      | _ => false
                      end) t).

Definition isNavigation (e : Event) : bool :=
  match e with
  | EvLaunch | EvGoto _ => true
  | _ => false
  end.

Definition isDownload (e : Event) : bool :=
  match e with
  | EvFetch _ => true
  | _ => false
  end.

Definition isWrite (e : Event) : bool :=
  match e with
  | EvWriteFile _ _ | EvScreenshot _ => true
  | _ => false
  end.

(** What [captureScreenshots] returns when called at clock reading [t]:
    the mobile capture is attempted only after the desktop one went
    through. *)
Definition expectedScreenshots (env : Env) (outputDir : string)
    (desktopViewport mobileViewport : Viewport) (hostname : string) (t : Z)
  : Screenshots :=
  let desktopPath := capturePath outputDir hostname "desktop" t in
  let mobilePath := capturePath outputDir hostname "mobile" t in
  if captureOk env desktopViewport desktopPath then
    mkScreenshots (Some desktopPath)
      (if captureOk env mobileViewport mobilePath then Some mobilePath else None)
  else mkScreenshots None None.

(* ------------------------------------------------------------------ *)
(** ** Scenarios                                                       *)
(* ------------------------------------------------------------------ *)

(** An image reference as [extractAssets] builds it. *)
Definition img (canonical literal : string) : Asset :=
  mkAsset canonical (Some "") (Some literal) None.

(** How long the external calls take in the scenarios, in ms: of the
    three close calls the last, closing the browser, takes the time. *)
Definition usualLatency (e : Event) : Z :=
  match e with
  | EvWait ms => ms
  | EvGoto _ => 800
  | EvFetch _ => 40
  | EvClosePage | EvCloseContext => 0
  | _ => 1
  end.

(** A site that loads: [robotsErr] is what loading its robots file
    throws, [allowed] what the file says, [page] and [content] what the
    page holds, [fetchOf] what its server answers, [shot] what a capture
    throws. *)
Definition site (robotsErr : option string) (allowed : bool)
    (page : Assets) (content : string)
    (fetchOf : string -> FetchOutcome) (shot : string -> option string)
    (latency : Event -> Z) : Env :=
  mkEnv (fun _ => robotsErr) (fun _ => allowed) None
        (fun _ => GotoResponse true 200 "OK")
        "Demo" content "https://example.com/" [] page
        fetchOf (fun _ => None) shot latency None None None.

Definition request (target : string) : Params :=
  mkParams target "./scraped-data" "Mozilla/5.0" true 30000 true true
           (mkViewport 1920 1080) (mkViewport 375 667).

(** A server on which one image is missing. *)
Definition serve (target : string) : FetchOutcome :=
  if String.eqb target "https://example.com/missing.png"
  then FetchResponse false 404 "Not Found" 0
  else FetchResponse true 200 "OK" 1024.

Definition noCaptureError (path : string) : option string := None.

(** Three distinct images, the second of which answers 404. *)
Definition threeImages : Assets :=
  mkAssets [img "https://example.com/a.png" "a.png";
            img "https://example.com/missing.png" "missing.png";
            img "https://example.com/c.png" "/c.png"] [] [] [].

Definition threeImagesHtml : string :=
  "<img src='a.png'><img src='missing.png'><img src='/c.png'>".

(** One image referenced twice, by two literal forms of the same URL. *)
Definition sameImageTwice : Assets :=
  mkAssets [img "https://example.com/logo.png" "logo.png";
            img "https://example.com/logo.png" "/logo.png"] [] [] [].

Definition sameImageTwiceHtml : string :=
  "<img src='logo.png'><img src='/logo.png'>".

(** Two distinct canonical URLs with the same path. *)
Definition logoV1 : string := "https://cdn.example.com/logo.png?v=1".
Definition logoV2 : string := "https://cdn.example.com/logo.png?v=2".

Definition twoVersions : Assets :=
  mkAssets [img logoV1 "logo.png?v=1"; img logoV2 "logo.png?v=2"] [] [] [].

(** A slow server: the answer comes after 14975 ms, under the 15000 ms
    limit of [ASSET_DOWNLOAD_TIMEOUT], and writing takes 300 ms. *)
Definition slowLatency (e : Event) : Z :=
  match e with
  | EvFetch _ => 14975
  | EvWriteFile _ _ => 300
  | EvWait ms => ms
  | _ => 0
  end.

(** A capture that fails for the desktop file only. *)
Definition desktopCaptureFails (path : string) : option string :=
  if Js.includes "-desktop-" path then Some "Target closed" else None.

Definition mobileCaptureFails (path : string) : option string :=
  if Js.includes "-mobile-" path then Some "Target closed" else None.

(** The state in which a downloader starts: the clock reads [now], the
    directories exist. *)
Definition ready (env : Env) (outputDir : string) (now : Z) : State :=
  set_clock now
    (snd (FileManager.createDirectoryStructure env outputDir (boot now))).

(* ------------------------------------------------------------------ *)
(** ** The calls of the capture step                                   *)
(* ------------------------------------------------------------------ *)

(** A call of the capture step: resizing the page or taking a
    screenshot. *)
Definition isCapture (e : Event) : bool :=
  match e with
  | EvSetViewport _ | EvScreenshot _ => true
  | _ => false
  end.

(** The time the calls [events] take. *)
Definition elapsedTotal (env : Env) (events : list Event) : Z :=
  fold_right (fun e acc => elapsed env e + acc) 0 events.

(** The calls [captureScreenshots] makes when it starts at clock reading
    [t]: a call that throws is the last one. *)
Definition captureCalls (env : Env) (outputDir : string)
    (desktopViewport mobileViewport : Viewport) (hostname : string) (t : Z)
  : list Event :=
  let desktopPath := capturePath outputDir hostname "desktop" t in
  let mobilePath := capturePath outputDir hostname "mobile" t in
  EvSetViewport desktopViewport
  :: if isNone (setViewportSize env desktopViewport) then
       EvWait 2000 :: EvScreenshot desktopPath
       :: if isNone (screenshot env desktopPath) then
            EvSetViewport mobileViewport
            :: if isNone (setViewportSize env mobileViewport) then
                 [EvWait 2000; EvScreenshot mobilePath]
               else []
          else []
     else [].

(** From [s] to [s'] calls were made, none of them of the capture step,
    and the clock moved by the time they took. *)
Definition grows (env : Env) (s s' : State) : Prop :=
  exists added,
    trace s' = (trace s ++ added)%list
    /\ clock s' = clock s + elapsedTotal env added
    /\ filter isCapture added = [].

(** A computation that makes no call of the capture step. *)
Definition quiet (env : Env) {A} (c : M A) : Prop :=
  forall s, grows env s (snd (c s)).

(* ------------------------------------------------------------------ *)
(** ** Further definitions for the properties of the code              *)
(* ------------------------------------------------------------------ *)

(** The references kept by a left-to-right pass that remembers the
    canonical URLs already [seen]. *)
Fixpoint firstOccurrences (seen : list string) (l : list TypedAsset)
  : list TypedAsset :=
  match l with
  | [] => []
  | a :: l' =>
      if existsb (String.eqb (url (base a))) seen
      then firstOccurrences seen l'
      else a :: firstOccurrences (url (base a) :: seen) l'
  end.

Definition urlOf (a : TypedAsset) : string := url (base a).

(** One turn of the loop of [downloadAndMapAssets]. *)
Definition downloadTurn (env : Env) (outputDir userAgent : string)
    (asset : TypedAsset) (acc : JsObject string * Stats)
  : M (JsObject string * Stats) :=
  let '(mapping, stats) := acc in
  try_catch
    (result <- AssetManager.downloadSingleAsset env outputDir asset userAgent ;;
     if d_success result then
       let mapping := Obj.assign (url (base asset)) (d_relativePath result) mapping in
       let mapping := setIfTruthy (originalSrc (base asset)) (d_relativePath result) mapping in
       let mapping := setIfTruthy (originalHref (base asset)) (d_relativePath result) mapping in
       ret (mapping, mkStats (total stats) (downloaded stats + 1) (failed stats))
     else
       ret (mapping, mkStats (total stats) (downloaded stats) (failed stats + 1)))
    (fun msg =>
       log error ("Failed to download " ++ url (base asset) ++ ": " ++ msg) ;;
       ret (mapping, mkStats (total stats) (downloaded stats) (failed stats + 1))).

(** The mapping after the three assignments made for a downloaded
    reference. *)
Definition written (a : TypedAsset) (path : string) (mapping : JsObject string)
  : JsObject string :=
  setIfTruthy (originalHref (base a)) path
    (setIfTruthy (originalSrc (base a)) path
       (Obj.assign (url (base a)) path mapping)).

Definition optionList {A} (o : option A) : list A :=
  match o with Some x => [x] | None => [] end.

(** The strings a reference is known by: its canonical URL and its
    literals. *)
Definition namesOf (a : TypedAsset) : list string :=
  (urlOf a :: optionList (originalSrc (base a))
   ++ optionList (originalHref (base a)))%list.

(** Those of them that become keys of the mapping: an empty literal is
    skipped by the code, and [__proto__] is no property. *)
Definition mappedKeys (a : TypedAsset) : list string :=
  filter (fun k => negb (String.eqb k "__proto__"))
         (urlOf a
          :: filter (fun k => negb (String.eqb k ""))
               (optionList (originalSrc (base a))
                ++ optionList (originalHref (base a))))%list.

(** The canonical URL parses and the server answers it with a 2xx. *)
Definition fetchable (env : Env) (a : TypedAsset) : bool :=
  match Url.parse (urlOf a), fetch env (urlOf a) with
  | Some _, FetchResponse true _ _ _ => true
  | _, _ => false
  end.

(** A computation that leaves an observation [proj] of the state as it
    found it, whether it returns or throws. *)
Definition keeps {X A} (proj : State -> X) (c : M A) : Prop :=
  forall s, proj (snd (c s)) = proj s.

(** The three verdicts of the result. *)
Definition flags (s : State) : bool * bool * bool :=
  (success (result s), accessible (result s), scrapingAllowed (result s)).

(** Started with the three verdicts false, the computation ends with all
    of them true when it returns and all of them false when it
    throws. *)
Definition settles {A} (c : M A) : Prop :=
  forall s,
    flags s = (false, false, false) ->
    flags (snd (c s))
    = match fst (c s) with
      | Normal _ => (true, true, true)
      | Throw _ => (false, false, false)
      end.

(** The fetches recorded so far. *)
Definition downloadsOf (s : State) : list Event := filter isDownload (trace s).

(** The error a navigation outcome makes [scrapePage] throw, if any. *)
Definition gotoError (o : GotoOutcome) : option string :=
  match o with
  | GotoThrows msg => Some msg
  | GotoNull => Some "HTTP unknown: Navigation failed"
  | GotoResponse true _ _ => None
  | GotoResponse false status statusText =>
      Some ("HTTP " ++ (if status =? 0 then "unknown" else Js.toString status)
            ++ ": " ++ Js.or_else statusText "Navigation failed")
  end.

(** The call the robots check makes when it is on. *)
Definition robotsEvents (params : Params) (u : Url.t) : list Event :=
  if p_respectRobots params then [EvRobotsLoad (robotsUrlOf u)] else [].

(** A site whose server answers the navigation with [outcome]. *)
Definition siteAnswering (outcome : GotoOutcome) : Env :=
  mkEnv (fun _ => None) (fun _ => true) None (fun _ => outcome)
        "" "" "https://example.com/" [] (mkAssets [] [] [] [])
        serve (fun _ => None) noCaptureError usualLatency None None None.

(** The same site with a browser context whose [close()] throws. *)
Definition contextCloseFails (outcome : GotoOutcome) : Env :=
  mkEnv (fun _ => None) (fun _ => true) None (fun _ => outcome)
        "" "" "https://example.com/" [] (mkAssets [] [] [] [])
        serve (fun _ => None) noCaptureError usualLatency
        None (Some "Target page, context or browser has been closed") None.

(** How often a turn for [a] may fetch [u]. *)
Definition fetchesAllowed (u : string) (a : TypedAsset) : nat :=
  if String.eqb (urlOf a) u then 1%nat else 0%nat.

(** The characters [generateFilename] lets through. *)
Definition safeItems : list item :=
  [Range "a" "z"; Range "A" "Z"; Range "0" "9"; Single "."; Single "-"]%char.

(** [basename.replace(/[^a-zA-Z0-9.-]/g, '_')], character by character. *)
Definition sanitized (l : list ascii) : list ascii :=
  map (fun c => if inClass true safeItems c then "_"%char else c) l.

(** A character of [a-zA-Z0-9.-] or the underscore. *)
Definition isNameChar (c : ascii) : bool :=
  negb (inClass true safeItems c) || Ascii.eqb c "_".

Definition isLowerHex (c : ascii) : bool :=
  existsb (Ascii.eqb c) (Js.chars "0123456789abcdef").

(** The extension [generateFilename] settles on. *)
Definition extensionOf (pathname : string) (t : AssetType) : string :=
  Js.or_else (Js.or_else (Path.extname pathname) (CONFIG.DEFAULT_EXTENSIONS t)) ".bin".

(** A text without a path separator. *)
Definition noSlash (l : list ascii) : Prop :=
  Forall (fun c => Path.isSlash c = false) l.

(* ------------------------------------------------------------------ *)
(** ** The scraper tool of [src/cli.js]                                *)
(* ------------------------------------------------------------------ *)

(** The second implementation of the archiving run, the tool built by
    [createWebScraperTool] with its helper functions. Its locals [page],
    [context] and [browser] are the [browser] flag of the state; of its
    console output the [console.error] lines are kept. *)

(** [result.statistics]. *)
Record Statistics := mkStatistics {
  totalAssets : Z;
  downloadedAssets : Z;
  failedAssets : Z;
  processingTime : Z
}.

(** What [execute] returns: the object built in its [catch] block has no
    [scrapedData], [screenshots] and [assetMapping]. *)
Record ToolResult := mkToolResult {
  t_success : bool;
  t_url : string;
  t_accessible : bool;
  t_scrapingAllowed : bool;
  t_outputDir : string;
  t_scrapedData : option ScrapedData;
  t_screenshots : option Screenshots;
  t_assetMapping : option (JsObject string);
  t_statistics : Statistics;
  t_message : string
}.

Module WebScraperTool.
Section WebScraperTool.
Variable env : Env.

Definition createDirectories (outputDir : string) : M unit :=
  let dirs :=
    [ outputDir;
      Path.join [outputDir; "assets"];
      Path.join [outputDir; "assets"; "images"];
      Path.join [outputDir; "assets"; "stylesheets"];
      Path.join [outputDir; "assets"; "scripts"];
      Path.join [outputDir; "assets"; "fonts"];
      Path.join [outputDir; "screenshots"] ] in
  for_of dirs (FileManager.mkdir env).

Definition takePageScreenshots (outputDir : string)
    (desktopViewport mobileViewport : Viewport) (hostname : string)
  : M Screenshots :=
  let screenshots := mkScreenshots None None in
  let screenshotDir := Path.join [outputDir; "screenshots"] in
  try_steps screenshots
    [ (fun screenshots =>
         (* Desktop screenshot *)
         callThrowing env (EvSetViewport desktopViewport)
                      (setViewportSize env desktopViewport) ;;
         call env (EvWait 2000) ;;
         now <- Date_now ;;
         let desktopPath :=
           Path.join [screenshotDir;
                      hostname ++ "_desktop_" ++ Js.toString now ++ ".png"] in
         ScreenshotManager.pageScreenshot env desktopPath ;;
         ret (mkScreenshots (Some desktopPath) (mobile screenshots)));
      (fun screenshots =>
         (* Mobile screenshot *)
         callThrowing env (EvSetViewport mobileViewport)
                      (setViewportSize env mobileViewport) ;;
         call env (EvWait 2000) ;;
         now <- Date_now ;;
         let mobilePath :=
           Path.join [screenshotDir;
                      hostname ++ "_mobile_" ++ Js.toString now ++ ".png"] in
         ScreenshotManager.pageScreenshot env mobilePath ;;
         ret (mkScreenshots (desktop screenshots) (Some mobilePath))) ]
    (fun msg => log error ("Screenshot error: " ++ msg)).

Definition getDefaultExtension (assetType : AssetType) : string :=
  let extensions :=
    match assetType with
    | images => ".jpg"
    | stylesheets => ".css"
    | scripts => ".js"
    | fonts => ".woff2"
    end in
  Js.or_else extensions ".bin".

(** The body of [generateAssetFilename] once [Date.now()] has been
    read. *)
Definition assetFilenameAt (now : Z) (pathname : string) (assetType : AssetType)
  : string :=
  let ext := Js.or_else (Path.extname pathname) (getDefaultExtension assetType) in
  let basename := Js.or_else (Path.basename pathname ext) "asset" in
  (* Clean filename *)
  let basename := RegExp.replace AssetNamer.unsafeChar "_" basename in
  let hash := Js.substring0 8 (MD5.hex (pathname ++ Js.toString now)) in
  basename ++ "_" ++ hash ++ ext.

Definition generateAssetFilename (pathname : string) (assetType : AssetType)
  : M string :=
  now <- Date_now ;;
  ret (assetFilenameAt now pathname assetType).

(** One turn of the loop of [downloadAndMapAssets]. *)
Definition downloadOne (outputDir userAgent : string) (asset : TypedAsset)
    (acc : JsObject string * Stats) : M (JsObject string * Stats) :=
  let '(mapping, stats) := acc in
  try_catch
    (assetUrl <- new_URL (url (base asset)) ;;
     filename <- generateAssetFilename (Url.pathname assetUrl) (type asset) ;;
     let localPath :=
       Path.join [outputDir; "assets"; dirName (type asset); filename] in
     let relativePath := Path.join ["assets"; dirName (type asset); filename] in
     (* Check if file already exists *)
     present <- FileManager.fileExists localPath ;;
     if (present : bool) then
       (* Create mapping even if file exists *)
       let mapping := Obj.assign (url (base asset)) relativePath mapping in
       let mapping := setIfTruthy (originalSrc (base asset)) relativePath mapping in
       let mapping := setIfTruthy (originalHref (base asset)) relativePath mapping in
       ret (mapping, mkStats (total stats) (downloaded stats + 1) (failed stats))
     else
       (* Download the asset *)
       call env (EvFetch (url (base asset))) ;;
       match fetch env (url (base asset)) with
       | FetchThrows msg => throw msg
       | FetchResponse ok status statusText byteLength =>
           if negb ok then
             throw ("HTTP " ++ Js.toString status ++ ": " ++ statusText)
           else
             FileManager.writeFile env localPath (Buffer byteLength) ;;
             (* Create mapping *)
             let mapping := Obj.assign (url (base asset)) relativePath mapping in
             let mapping :=
               setIfTruthy (originalSrc (base asset)) relativePath mapping in
             let mapping :=
               setIfTruthy (originalHref (base asset)) relativePath mapping in
             ret (mapping,
                  mkStats (total stats) (downloaded stats + 1) (failed stats))
       end)
    (fun msg =>
       log error ("Failed to download " ++ url (base asset) ++ ": " ++ msg) ;;
       ret (mapping, mkStats (total stats) (downloaded stats) (failed stats + 1))).

Definition downloadAndMapAssets (assets : Assets) (outputDir userAgent : string)
  : M (JsObject string * Stats) :=
  let mapping : JsObject string := [] in
  let stats := mkStats 0 0 0 in
  let allAssets :=
    (map (fun img => typed img images) (a_images assets)
     ++ map (fun css => typed css stylesheets) (a_stylesheets assets)
     ++ map (fun js => typed js scripts) (a_scripts assets)
     ++ map (fun font => typed font fonts) (a_fonts assets))%list in
  (* Remove duplicates *)
  let uniqueAssets :=
    filterIndexed
      (fun asset index self =>
         sameIndex index
           (findIndex (fun a => String.eqb (url (base a)) (url (base asset))) self))
      allAssets in
  let stats :=
    mkStats (Z.of_nat (List.length uniqueAssets)) (downloaded stats) (failed stats) in
  for_of_with uniqueAssets (mapping, stats) (downloadOne outputDir userAgent).

(** The [finally] block of [execute]. *)
Definition closeAll : M unit :=
  try_catch
    (s <- get ;;
     (if browser s then callThrowing env EvClosePage (closePage env) else ret tt) ;;
     (if browser s then callThrowing env EvCloseContext (closeContext env)
      else ret tt) ;;
     (if browser s then callThrowing env EvClose (closeBrowser env) else ret tt))
    (fun msg => log error ("Cleanup error: " ++ msg)).

Definition execute (params : Params) : M ToolResult :=
  modify (set_browser false) ;;
  try_finally
    (try_catch
       (let result :=
          mkToolResult false (p_url params) false false (p_outputDir params)
            (Some (mkScrapedData None None [] (mkAssets [] [] [] [])))
            (Some (mkScreenshots None None)) (Some [])
            (mkStatistics 0 0 0 0) "" in
        startTime <- Date_now ;;
        (* Step 1: Basic URL validation *)
        urlObj <- new_URL (p_url params) ;;
        if negb (existsb (String.eqb (Url.protocol urlObj)) ["http:"; "https:"]) then
          throw "Only HTTP and HTTPS URLs are supported"
        else
        (* Step 2: Create output directories *)
        createDirectories (p_outputDir params) ;;
        (* Step 3: Check robots.txt if required *)
        robotsAllowed <-
          (if p_respectRobots params then
             try_catch
               (let robotsUrl :=
                  Url.protocol urlObj ++ "//" ++ Url.host urlObj ++ "/robots.txt" in
                callThrowing env (EvRobotsLoad robotsUrl) (robotsLoad env robotsUrl) ;;
                ret (robotsIsAllowed env (p_url params)))
               (fun _ => ret true)
           else ret true) ;;
        if negb robotsAllowed then
          ret (mkToolResult (t_success result) (t_url result) (t_accessible result)
                 false (t_outputDir result) (t_scrapedData result)
                 (t_screenshots result) (t_assetMapping result)
                 (t_statistics result) "Access blocked by robots.txt")
        else
        (* Step 4: Launch browser and create context *)
        callThrowing env EvLaunch (launch env) ;;
        modify (set_browser true) ;;
        (* Step 5: Navigate to the page *)
        call env (EvGoto (p_url params)) ;;
        match goto env (p_url params) with
        | GotoThrows msg => throw msg
        | GotoNull => throw "HTTP unknown: Navigation failed"
        | GotoResponse ok status statusText =>
            if negb ok then
              throw ("HTTP " ++ (if status =? 0 then "unknown" else Js.toString status)
                     ++ ": " ++ Js.or_else statusText "Navigation failed")
            else
            (* Wait for additional content to load *)
            call env (EvWait 2000) ;;
            (* Step 6: Extract page data *)
            let title := pageTitle env in
            let html := pageContent env in
            let metadata := pageMetadata env in
            let assets := pageAssets env in
            (* Step 7: Take screenshots if requested *)
            screenshots <-
              (if p_takeScreenshots params then
                 takePageScreenshots (p_outputDir params) (p_desktopViewport params)
                   (p_mobileViewport params) (Url.hostname urlObj)
               else ret (mkScreenshots None None)) ;;
            (* Step 8: Download assets and create mappings *)
            downloadResult <-
              (if p_downloadAssets params then
                 downloadAndMapAssets assets (p_outputDir params) (p_userAgent params)
               else ret ([], mkStats 0 0 0)) ;;
            let assetMapping := fst downloadResult in
            let downloadStats := snd downloadResult in
            (* Step 9: Create modified HTML with local asset paths *)
            match Cli.replaceAssetUrls html assetMapping with
            | None => throw "Invalid regular expression"
            | Some modifiedHtml =>
                (* Step 10: Save HTML file *)
                let htmlPath := Path.join [p_outputDir params; "index.html"] in
                FileManager.writeFile env htmlPath (Text modifiedHtml) ;;
                (* Step 11: Save metadata *)
                let metadataPath := Path.join [p_outputDir params; "metadata.json"] in
                scrapedAt <- Date_now ;;
                FileManager.writeFile env metadataPath
                  (Json (mkMetadata (pageUrl env) (p_url params) (Some title) metadata
                           scrapedAt assets assetMapping
                           (WebScraper.statsObject downloadStats))) ;;
                (* Final result *)
                now <- Date_now ;;
                let statistics :=
                  mkStatistics (total downloadStats) (downloaded downloadStats)
                    (failed downloadStats) (now - startTime) in
                ret (mkToolResult true (p_url params) true true (p_outputDir params)
                       (Some (mkScrapedData (Some modifiedHtml) (Some title)
                                metadata assets))
                       (Some screenshots) (Some assetMapping) statistics
                       ("Successfully scraped page and downloaded "
                        ++ Js.toString (downloaded downloadStats) ++ "/"
                        ++ Js.toString (total downloadStats) ++ " assets in "
                        ++ Js.toString (processingTime statistics) ++ "ms"))
            end
        end)
       (fun msg =>
          log error ("Scraping error: " ++ msg) ;;
          now <- Date_now ;;
          now' <- Date_now ;;
          ret (mkToolResult false (p_url params) false false (p_outputDir params)
                 None None None (mkStatistics 0 0 0 (now - now'))
                 ("Scraping error: " ++ msg))))
    closeAll.

End WebScraperTool.
End WebScraperTool.

(** What a computation can end with: a value satisfying [Q], or an error
    whose message satisfies [E]. *)
Definition yields {A} (c : M A) (Q : A -> Prop) (E : string -> Prop) : Prop :=
  forall s,
    match fst (c s) with
    | Normal a => Q a
    | Throw msg => E msg
    end.

(** The counters of a tool result are consistent with its verdict. *)
Definition countersAddUp (r : ToolResult) : Prop :=
  downloadedAssets (t_statistics r) + failedAssets (t_statistics r)
  = totalAssets (t_statistics r)
  /\ 0 <= downloadedAssets (t_statistics r)
  /\ 0 <= failedAssets (t_statistics r)
  /\ (t_success r = false -> totalAssets (t_statistics r) = 0).

Definition verdictsAgree (r : ToolResult) : Prop :=
  t_accessible r = t_success r /\ t_scrapingAllowed r = t_success r.

(** The counters returned by a download pass. *)
Definition statsAddUp (r : JsObject string * Stats) : Prop :=
  downloaded (snd r) + failed (snd r) = total (snd r)
  /\ 0 <= downloaded (snd r) /\ 0 <= failed (snd r).

(** The same collaborators, but with a [robots.txt] that loads and
    allows everything. *)
Definition robotsAllowing (env : Env) : Env :=
  mkEnv (fun _ => None) (fun _ => true) (launch env) (goto env)
        (pageTitle env) (pageContent env) (pageUrl env) (pageMetadata env)
        (pageAssets env) (fetch env) (setViewportSize env) (screenshot env)
        (elapsed env) (closePage env) (closeContext env) (closeBrowser env).

(** The error the validation of a URL raises, if any. *)
Definition validationError (target : string) : option string :=
  match Url.parse target with
  | None => Some "Invalid URL"
  | Some u =>
      if validProtocol u then None
      else Some "Only HTTP and HTTPS URLs are supported"
  end.

(* ------------------------------------------------------------------ *)
(** ** The URL validator tool ([urlValidator.js])                      *)
(* ------------------------------------------------------------------ *)

(** The validator is a function of what its collaborators answer: the
    robots checker, and the crawler, which during [run] calls the
    request handler and the failed-request handler some number of
    times and may then throw. *)

(** [c.toLowerCase()] for one code unit below 256: the letters [A-Z] and
    the capitals of Latin-1 (all of [C0-DE] but the multiplication
    sign). *)
Definition lowerChar (c : ascii) : ascii :=
  let n := N_of_ascii c in
  if ((65 <=? n) && (n <=? 90)
      || (192 <=? n) && (n <=? 222) && negb (n =? 215))%N
  then ascii_of_N (n + 32) else c.

Definition toLowerCase (s : string) : string :=
  Js.str (map lowerChar (Js.chars s)).

Definition maliciousIndicators : list string :=
  [ "phishing";
    "malware";
    "suspicious activity";
    "account suspended";
    "domain parked";
    "this site may harm your computer";
    "deceptive site ahead" ].

Definition checkForMaliciousContent (content : string) : bool :=
  let lowerContent := toLowerCase content in
  existsb (fun indicator => Js.includes indicator lowerContent) maliciousIndicators.

(** A property that is absent, [null], or holds a value. *)
Inductive Field (A : Type) :=
| undefined
| null
| value (a : A).
Arguments undefined {A}.
Arguments null {A}.
Arguments value {A} a.

(** What one call of the request handler finds: the outcome of
    [page.goto], the title ([None] when [page.title()] rejects), the URL
    the page ended at and its content. *)
Record Visit := mkVisit {
  v_goto : GotoOutcome;
  v_title : option string;
  v_pageUrl : string;
  v_content : string
}.

Inductive Callback :=
| requestHandler (v : Visit)
| failedRequestHandler (msg : string).

(** The collaborators of the validator: [crawlError] is what
    [crawler.run] or the [teardown] after it throws. *)
Record ValidatorEnv := mkValidatorEnv {
  ve_robotsLoad : string -> option string;
  ve_robotsIsAllowed : string -> bool;
  ve_callbacks : list Callback;
  ve_crawlError : option string
}.

Record CrawlerResult := mkCrawlerResult {
  cr_accessible : bool;
  cr_title : option string;
  cr_statusCode : option Z;
  cr_redirectUrl : option string;
  cr_isMalicious : bool;
  cr_error : option string
}.

Record ValidatorParams := mkValidatorParams {
  vp_url : string;
  vp_userAgent : string;
  vp_respectRobots : bool;
  vp_timeout : Z
}.

Record ValidatorResult := mkValidatorResult {
  vr_success : bool;
  vr_url : string;
  vr_accessible : bool;
  vr_scrapingAllowed : bool;
  vr_statusCode : option Z;
  vr_title : Field string;
  vr_redirectUrl : Field string;
  vr_recommendations : list string;
  vr_message : string
}.

Module UrlValidator.
Section UrlValidator.
Variable env : ValidatorEnv.
Variable params : ValidatorParams.

(** [response?.status() || null]. *)
Definition statusOf (response : GotoOutcome) : option Z :=
  match response with
  | GotoResponse _ status _ => if status =? 0 then None else Some status
  | _ => None
  end.

(** The effect of one callback on [crawlerResult]. *)
Definition onCallback (crawlerResult : CrawlerResult) (c : Callback)
  : CrawlerResult :=
  match c with
  | requestHandler v =>
      match v_goto v with
      | GotoThrows msg => mkCrawlerResult false None None None false (Some msg)
      | response =>
          let title := match v_title v with Some t => t | None => "No title" end in
          let statusCode := statusOf response in
          let redirectUrl :=
            if negb (String.eqb (v_pageUrl v) (vp_url params))
            then Some (v_pageUrl v) else None in
          (* Basic malicious content check *)
          let isMalicious := checkForMaliciousContent (v_content v) in
          mkCrawlerResult true (Some title) statusCode redirectUrl isMalicious None
      end
  | failedRequestHandler msg =>
      mkCrawlerResult false None None None false (Some msg)
  end.

(** [crawlerResult] after the [try] around [crawler.run]. *)
Definition crawl : CrawlerResult :=
  let crawlerResult :=
    mkCrawlerResult false None None None false (Some "Request not processed") in
  let crawlerResult := fold_left onCallback (ve_callbacks env) crawlerResult in
  match ve_crawlError env with
  | None =>
      if negb (cr_accessible crawlerResult)
         && match cr_error crawlerResult with
            | Some e => String.eqb e "Request not processed"
            | None => false
            end
      then mkCrawlerResult (cr_accessible crawlerResult) (cr_title crawlerResult)
             (cr_statusCode crawlerResult) (cr_redirectUrl crawlerResult)
             (cr_isMalicious crawlerResult)
             (Some "URL could not be reached or processed")
      else crawlerResult
  | Some msg =>
      mkCrawlerResult false None None None false (Some ("Crawler error: " ++ msg))
  end.

Definition showStatus (statusCode : option Z) : string :=
  match statusCode with
  | Some n => Js.toString n
  | None => "null"
  end.

Definition optionField {A} (o : option A) : Field A :=
  match o with
  | Some a => value a
  | None => null
  end.

Definition execute : ValidatorResult :=
  let failure (msg : string) :=
    mkValidatorResult false (vp_url params) false false None undefined undefined
      ["Validation failed - check URL format"] ("Validation error: " ++ msg) in
  let result :=
    mkValidatorResult false (vp_url params) false false None null null [] "" in
  (* Step 1: Basic URL validation *)
  match Url.parse (vp_url params) with
  | None => failure "Invalid URL"
  | Some urlObj =>
      (* Only allow http and https *)
      if negb (existsb (String.eqb (Url.protocol urlObj)) ["http:"; "https:"]) then
        failure "Only HTTP and HTTPS URLs are supported"
      else
      (* Step 2: Check robots.txt if required *)
      let robotsUrl := Url.protocol urlObj ++ "//" ++ Url.host urlObj ++ "/robots.txt" in
      let '(robotsAllowed, recommendations) :=
        if vp_respectRobots params then
          match ve_robotsLoad env robotsUrl with
          | None => (ve_robotsIsAllowed env (vp_url params), [])
          | Some _ => (true, ["robots.txt not accessible - proceeding"])
          end
        else (true, []) in
      if negb robotsAllowed then
        mkValidatorResult (vr_success result) (vr_url result) (vr_accessible result)
          false (vr_statusCode result) (vr_title result) (vr_redirectUrl result)
          (recommendations ++ ["URL blocked by robots.txt"])%list
          "Access blocked by robots.txt"
      else
      (* Step 3: Basic accessibility check *)
      let crawlerResult := crawl in
      (* Step 4: Process results *)
      if cr_accessible crawlerResult then
        if cr_isMalicious crawlerResult then
          mkValidatorResult true (vp_url params) true false
            (cr_statusCode crawlerResult) (optionField (cr_title crawlerResult))
            (optionField (cr_redirectUrl crawlerResult))
            (recommendations ++ ["Potential malicious content detected"])%list
            "URL accessible but may contain suspicious content"
        else
          mkValidatorResult true (vp_url params) true robotsAllowed
            (cr_statusCode crawlerResult) (optionField (cr_title crawlerResult))
            (optionField (cr_redirectUrl crawlerResult))
            (recommendations ++ ["URL appears safe for scraping"])%list
            ("URL is accessible and safe (Status: "
             ++ showStatus (cr_statusCode crawlerResult) ++ ")")
      else
        mkValidatorResult false (vp_url params) false false None null null
          (recommendations ++ ["Check URL validity and network connectivity"])%list
          ("URL not accessible: "
           ++ match cr_error crawlerResult with
              | Some e => Js.or_else e "Unknown error"
              | None => "Unknown error"
              end)
  end.

End UrlValidator.
End UrlValidator.

(** A visit during which the page loaded: [page.goto] did not throw. *)
Definition loaded (v : Visit) : bool :=
  match v_goto v with
  | GotoThrows _ => false
  | _ => true
  end.

(** A crawl whose first attempt fails and whose second loads the page. *)
Definition secondAttemptLoads : ValidatorEnv :=
  mkValidatorEnv (fun _ => None) (fun _ => true)
    [ requestHandler
        (mkVisit (GotoThrows "Timeout 15000ms exceeded") None "about:blank" "");
      requestHandler
        (mkVisit (GotoResponse true 200 "OK") (Some "Example Domain")
           "https://example.com/" "<h1>Example Domain</h1>") ]
    None.

Definition validatorRequest (target : string) : ValidatorParams :=
  mkValidatorParams target "Mozilla/5.0 (compatible; WebScraper/1.0)" true 15000.

(* ------------------------------------------------------------------ *)
(** ** [class PageExtractor]: the metadata of the page                 *)
(* ------------------------------------------------------------------ *)

(** What the function evaluated in the page reads from the document:
    the [meta] elements in document order, each with the four
    attributes looked at ([None] where [getAttribute] gives [null]), and
    the page information. *)
Record MetaElement := mkMeta {
  meta_name : option string;
  meta_property : option string;
  meta_httpEquiv : option string;
  meta_content : option string
}.

Record Document := mkDocument {
  metaElements : list MetaElement;
  documentLang : string;
  characterSet : string;
  locationHref : string;
  locationHostname : string
}.

(** [a || b] on attribute values. *)
Definition orAttribute (a b : option string) : option string :=
  if Js.truthy a then a else b.

Module PageExtractor.

Definition extractMetadata (document : Document) : JsObject string :=
  let metadata : JsObject string := [] in
  (* Extract meta tags *)
  let metadata :=
    fold_left
      (fun metadata meta =>
         let name :=
           orAttribute (orAttribute (meta_name meta) (meta_property meta))
                       (meta_httpEquiv meta) in
         let content := meta_content meta in
         match name, content with
         | Some n, Some c =>
             if Js.truthy name && Js.truthy content then Obj.assign n c metadata
             else metadata
         | _, _ => metadata
         end)
      (metaElements document) metadata in
  (* Add page info *)
  let metadata := Obj.set "lang" (Js.or_else (documentLang document) "en") metadata in
  let metadata :=
    Obj.set "charset" (Js.or_else (characterSet document) "UTF-8") metadata in
  let metadata := Obj.set "url" (locationHref document) metadata in
  let metadata := Obj.set "domain" (locationHostname document) metadata in
  metadata.

End PageExtractor.

(** The name and content under which a [meta] element is recorded, if it
    is. *)
Definition metaEntry (meta : MetaElement) : option (string * string) :=
  match orAttribute (orAttribute (meta_name meta) (meta_property meta))
                    (meta_httpEquiv meta),
        meta_content meta with
  | Some n, Some c =>
      if negb (String.eqb n "") && negb (String.eqb c "")
         && negb (String.eqb n "__proto__")
      then Some (n, c) else None
  | _, _ => None
  end.

(** The content of the last [meta] element recorded under [k]. *)
Fixpoint lastContent (k : string) (metas : list MetaElement) : option string :=
  match metas with
  | [] => None
  | meta :: rest =>
      match lastContent k rest with
      | Some c => Some c
      | None =>
          match metaEntry meta with
          | Some (n, c) => if String.eqb k n then Some c else None
          | None => None
          end
      end
  end.

Definition pageInfo (document : Document) (k : string) : option string :=
  if String.eqb k "domain" then Some (locationHostname document)
  else if String.eqb k "url" then Some (locationHref document)
  else if String.eqb k "charset" then Some (Js.or_else (characterSet document) "UTF-8")
  else if String.eqb k "lang" then Some (Js.or_else (documentLang document) "en")
  else None.

(* ------------------------------------------------------------------ *)
(** ** The project builder of [src/cli.js]: reading a snapshot back    *)
(* ------------------------------------------------------------------ *)

(** The functions that read a snapshot directory. Their [log] argument
    only records messages and is left out. *)

(** What [readdirSync] gives: the names in the directory, or an error. *)
Inductive Listing :=
| Entries (files : list string)
| ReaddirThrows (msg : string).

(** The file system as the builder's synchronous calls see it;
    [statSync] gives the size, [None] when it throws. *)
Record Disk := mkDisk {
  existsSync : string -> bool;
  readdirSync : string -> Listing;
  statSync : string -> option Z
}.

Record AssetFile := mkAssetFile {
  af_filename : string;
  af_path : string;
  af_size : Z;
  af_extension : string
}.

Record AssetsInfo := mkAssetsInfo {
  ai_images : list AssetFile;
  ai_stylesheets : list AssetFile;
  ai_scripts : list AssetFile;
  ai_fonts : list AssetFile;
  ai_total : Z
}.

(** [assets[type]]. *)
Definition ofType (type : AssetType) (assets : AssetsInfo) : list AssetFile :=
  match type with
  | images => ai_images assets
  | stylesheets => ai_stylesheets assets
  | scripts => ai_scripts assets
  | fonts => ai_fonts assets
  end.

(** [assets[type] = entries]. *)
Definition setType (type : AssetType) (entries : list AssetFile)
    (assets : AssetsInfo) : AssetsInfo :=
  match type with
  | images =>
      mkAssetsInfo entries (ai_stylesheets assets) (ai_scripts assets)
        (ai_fonts assets) (ai_total assets)
  | stylesheets =>
      mkAssetsInfo (ai_images assets) entries (ai_scripts assets)
        (ai_fonts assets) (ai_total assets)
  | scripts =>
      mkAssetsInfo (ai_images assets) (ai_stylesheets assets) entries
        (ai_fonts assets) (ai_total assets)
  | fonts =>
      mkAssetsInfo (ai_images assets) (ai_stylesheets assets) (ai_scripts assets)
        entries (ai_total assets)
  end.

Definition addTotal (n : Z) (assets : AssetsInfo) : AssetsInfo :=
  mkAssetsInfo (ai_images assets) (ai_stylesheets assets) (ai_scripts assets)
    (ai_fonts assets) (ai_total assets + n).

Module NextJSBuilder.
Section NextJSBuilder.
Variable disk : Disk.

Definition getFileSize (filePath : string) : Z :=
  match statSync disk filePath with
  | Some size => size
  | None => 0
  end.

Definition loadAssetsInfoInteractive (assetsPath : string) : Completion AssetsInfo :=
  let assets := mkAssetsInfo [] [] [] [] 0 in
  let assetTypes := [images; stylesheets; scripts; fonts] in
  fold_left
    (fun (acc : Completion AssetsInfo) type =>
       match acc with
       | Throw msg => Throw msg
       | Normal assets =>
           let typePath := Path.join [assetsPath; dirName type] in
           if existsSync disk typePath then
             match readdirSync disk typePath with
             | ReaddirThrows msg => Throw msg
             | Entries files =>
                 let assets :=
                   setType type
                     (map (fun file =>
                             mkAssetFile file
                               (Path.join ["assets"; dirName type; file])
                               (getFileSize (Path.join [typePath; file]))
                               (Path.extname file))
                          files)
                     assets in
                 Normal (addTotal (Z.of_nat (List.length files)) assets)
             end
           else Normal assets
       end)
    assetTypes (Normal assets).

Definition loadScreenshotsInteractive (screenshotsPath : string) : Screenshots :=
  let screenshots := mkScreenshots None None in
  match readdirSync disk screenshotsPath with
  | ReaddirThrows _ => screenshots
  | Entries files =>
      fold_left
        (fun screenshots file =>
           let filePath := Path.join [screenshotsPath; file] in
           if Js.includes "desktop" file then
             mkScreenshots (Some filePath) (mobile screenshots)
           else if Js.includes "mobile" file then
             mkScreenshots (desktop screenshots) (Some filePath)
           else screenshots)
        files screenshots
  end.

End NextJSBuilder.
End NextJSBuilder.

(** The name [captureScreenshots] gives the capture of [kind] taken at
    clock reading [t]. *)
Definition captureName (hostname kind : string) (t : Z) : string :=
  hostname ++ "-" ++ kind ++ "-" ++ Js.toString t ++ ".png".

(** A file that is a capture of neither kind by its name. *)
Definition unrelated (file : string) : bool :=
  negb (Js.includes "desktop" file) && negb (Js.includes "mobile" file).

(** A snapshot directory after one run on [example.com] at clock reading
    1700000002000: every directory exists, the screenshot directory
    holds the two captures and a stray file. *)
Definition snapshotDisk : Disk :=
  mkDisk (fun _ => true)
         (fun dir =>
            if String.eqb dir (FileManager.getScreenshotPath "./scraped-data") then
              Entries [ captureName "example.com" "mobile" 1700000002000;
                        "notes.txt";
                        captureName "example.com" "desktop" 1700000002000 ]
            else if String.eqb dir "scraped-data/assets/images" then
              Entries ["a-db2504f1.png"; "c-4be1a0c2.png"]
            else Entries [])
         (fun _ => Some 1024).

(** An entry of the asset listing is what the builder makes of a file
    name found under [assets/type]. *)
Definition listedAs (type : AssetType) (f : AssetFile) : Prop :=
  af_path f = Path.join ["assets"; dirName type; af_filename f]
  /\ af_extension f = Path.extname (af_filename f).

(** A text without a dot. *)
Definition noDot (l : list ascii) : Prop :=
  Forall (fun c => Ascii.eqb c "." = false) l.

(* ------------------------------------------------------------------ *)
(** ** Sanity checks of the library models                             *)
(* ------------------------------------------------------------------ *)

Example md5_empty : MD5.hex "" = "d41d8cd98f00b204e9800998ecf8427e".
Proof. vm_compute. reflexivity. Qed.

Example md5_abc : MD5.hex "abc" = "900150983cd24fb0d6963f7d28e17f72".
Proof. vm_compute. reflexivity. Qed.

Example md5_two_blocks :
  MD5.hex "aaaaaaaaaaaaaaaaaaaaaaaaaaaaaaaaaaaaaaaaaaaaaaaaaaaaaaaaaaaaaaaaaaaaaa"
  = "0f5c6c4e740bfcc08c3c26ccb2673d46".
Proof. vm_compute. reflexivity. Qed.

Example toString_now : Js.toString 1700000000000 = "1700000000000".
Proof. vm_compute. reflexivity. Qed.

Example extname_png : Path.extname "/img/logo.v2.png" = ".png".
Proof. reflexivity. Qed.

Example extname_hidden : Path.extname "/home/.profile" = "".
Proof. reflexivity. Qed.

Example extname_dotdot : Path.extname "/a/.." = "".
Proof. reflexivity. Qed.

Example extname_trailing : Path.extname "/a/b.css//" = ".css".
Proof. reflexivity. Qed.

Example basename_png : Path.basename "/img/logo.v2.png" ".png" = "logo.v2".
Proof. reflexivity. Qed.

Example basename_only_ext : Path.basename "/x/.jpg" ".jpg" = ".jpg".
Proof. reflexivity. Qed.

Example basename_root : Path.basename "/" ".jpg" = "".
Proof. reflexivity. Qed.

Example join_assets :
  Path.join ["./scraped-data"; "assets"; "images"; "a-0.png"]
  = "scraped-data/assets/images/a-0.png".
Proof. reflexivity. Qed.

Example url_https :
  Url.parse "HTTPS://cdn.example.com:8443/img/logo.png?v=2#top"
  = Some (Url.mk "https:" "cdn.example.com:8443" "cdn.example.com" "/img/logo.png").
Proof. reflexivity. Qed.

Example url_root : option_map Url.pathname (Url.parse "http://example.com") = Some "/".
Proof. reflexivity. Qed.

Example url_relative : Url.parse "img/logo.png" = None.
Proof. reflexivity. Qed.

Example extname_doc_1 : Path.extname "index.coffee.md" = ".md".
Proof. reflexivity. Qed.

Example extname_doc_2 : Path.extname "index." = ".".
Proof. reflexivity. Qed.

Example normalize_doc : Path.normalize "/foo/bar//baz/asdf/quux/.." = "/foo/bar/baz/asdf".
Proof. reflexivity. Qed.

Example compile_src :
  compile None (Js.chars ("url\(['" ++ Js.q ++ "]?a\.b['" ++ Js.q ++ "]?\)"))
  = Some [Lit "u"; Lit "r"; Lit "l"; Lit "(";
          OptClass false [Single "'"; Single Js.dquote];
          Lit "a"; Lit "."; Lit "b";
          OptClass false [Single "'"; Single Js.dquote]; Lit ")"]%char.
Proof. reflexivity. Qed.

Example filename_logo :
  AssetNamer.filenameAt 1700000000000 "/img/my%20logo.png" images
  = "my_20logo-6f760214.png".
Proof. vm_compute. reflexivity. Qed.

Example rewrite_sample :
  AssetMapper.replaceAssetUrls sampleHtml [("a.b/x.png", "assets/images/x-0.png")]
  = Some ("<img src=" ++ Js.q ++ "assets/images/x-0.png" ++ Js.q ++ ">"
          ++ "<link href=" ++ Js.q ++ "assets/images/x-0.png" ++ Js.q ++ ">"
          ++ "<p style=" ++ Js.q ++ "background:url(" ++ Js.q
          ++ "assets/images/x-0.png" ++ Js.q ++ ")" ++ Js.q ++ ">"
          ++ "<img src='aXb/x.png'> src=a.b/x.png").
Proof. vm_compute. reflexivity. Qed.

(** A [$&] in the local path is expanded by [replace]. *)
Example rewrite_dollar :
  AssetMapper.replaceAssetUrls "<a href='u'>" [("u", "p$&")]
  = Some ("<a href=" ++ Js.q ++ "phref='u'" ++ Js.q ++ ">").
Proof. vm_compute. reflexivity. Qed.

(* ------------------------------------------------------------------ *)
(** ** The rewriter always returns                                     *)
(* ------------------------------------------------------------------ *)

Lemma chars_str (l : list ascii) : Js.chars (Js.str l) = l.
Proof. apply list_ascii_of_string_of_list_ascii. Qed.

Lemma chars_app (a b : string) :
  Js.chars (a ++ b) = (Js.chars a ++ Js.chars b)%list.
Proof.
  unfold Js.chars.
  induction a as [|c a IH]; simpl; [reflexivity | now rewrite IH].
Qed.

Lemma inClass_special (c : ascii) :
  inClass false (map Single syntaxChars) c = isSyntaxChar c.
Proof. reflexivity. Qed.

Lemma scan_class_cons (n : bool) (items : list item) (bR : list ascii)
    (c : ascii) (l : list ascii) :
  scan [Class n items] ["\"; "$"; "&"]%char bR 0 (c :: l)
  = if inClass n items c
    then "\"%char :: c :: scan [Class n items] ["\"; "$"; "&"]%char (c :: bR) 0 l
    else c :: scan [Class n items] ["\"; "$"; "&"]%char (c :: bR) 0 l.
Proof.
  cbn [scan matchAt]. destruct (inClass n items c); reflexivity.
Qed.

Lemma scan_special (l beforeRev : list ascii) :
  scan regexpSpecial (Js.chars "\$&") beforeRev 0 l = escaped l.
Proof.
  revert beforeRev.
  induction l as [|c l IH]; intros beforeRev; [reflexivity|].
  change regexpSpecial with [Class false (map Single syntaxChars)] in *.
  change (Js.chars "\$&") with ["\"; "$"; "&"]%char in *.
  rewrite scan_class_cons, inClass_special, IH.
  unfold escaped. cbn [flat_map].
  destruct (isSyntaxChar c); reflexivity.
Qed.

Lemma escapeRegExp_chars (u : string) :
  Js.chars (Cli.escapeRegExp u) = escaped (Js.chars u).
Proof.
  unfold Cli.escapeRegExp, RegExp.replace.
  now rewrite chars_str, scan_special.
Qed.

Lemma not_special_plain (c : ascii) :
  isSyntaxChar c = false ->
  Ascii.eqb c "\" = false /\ Ascii.eqb c "[" = false /\ Ascii.eqb c "?" = false.
Proof.
  intros H. repeat split.
  - destruct (Ascii.eqb_spec c "\"); [subst; discriminate | reflexivity].
  - destruct (Ascii.eqb_spec c "["); [subst; discriminate | reflexivity].
  - destruct (Ascii.eqb_spec c "?"); [subst; discriminate | reflexivity].
Qed.

(** An escaped text compiles to the literal characters it came from. *)
Lemma compile_escaped (l rest : list ascii) :
  compile None (escaped l ++ rest)%list
  = consAtoms (map Lit l) (compile None rest).
Proof.
  induction l as [|c l IH]; [reflexivity|].
  unfold escaped in *. cbn [flat_map map consAtoms].
  destruct (isSyntaxChar c) eqn:E.
  - cbn [app compile]. change (Ascii.eqb "\" "\") with true. cbv iota.
    rewrite E. now rewrite IH.
  - destruct (not_special_plain c E) as (H1 & H2 & _).
    cbn [app compile]. rewrite H1, H2, E. now rewrite IH.
Qed.

(** Nor does an escaped text start with a question mark. *)
Lemma escaped_head (l rest : list ascii) :
  match rest with "?"%char :: _ => False | _ => True end ->
  forall (A : Type) (f : list ascii -> A) (g : A),
    match (escaped l ++ rest)%list with
    | "?"%char :: rest' => f rest'
    | _ => g
    end = g.
Proof.
  intros Hrest A f g.
  destruct l as [|c l].
  - simpl. destruct rest as [|x rest]; [reflexivity|].
    destruct x as [[] [] [] [] [] [] [] []]; try reflexivity. contradiction.
  - unfold escaped. cbn [flat_map].
    destruct (isSyntaxChar c) eqn:E.
    + reflexivity.
    + destruct (not_special_plain c E) as (_ & _ & H3).
      cbn [app].
      destruct c as [[] [] [] [] [] [] [] []]; try reflexivity. discriminate H3.
Qed.

Lemma compile_close_class (members l rest : list ascii) :
  match rest with "?"%char :: _ => False | _ => True end ->
  compile (Some members) ("]"%char :: escaped l ++ rest)%list
  = consAtom (Class false (map Single (rev members)))
             (compile None (escaped l ++ rest)%list).
Proof.
  intros H. cbn [compile]. change (Ascii.eqb "]" "]") with true. cbv iota.
  apply (escaped_head l rest H).
Qed.

Lemma consAtoms_Some (l : list atom) (p : pattern) :
  consAtoms l (Some p) = Some (l ++ p)%list.
Proof. induction l as [|a l IH]; simpl; [reflexivity | now rewrite IH]. Qed.

Lemma compile_plain (c : ascii) (rest : list ascii) :
  isSyntaxChar c = false ->
  compile None (c :: rest) = consAtom (Lit c) (compile None rest).
Proof.
  intros E. destruct (not_special_plain c E) as (H1 & H2 & _).
  cbn [compile]. now rewrite H1, H2, E.
Qed.

Lemma compile_member (members : list ascii) (c : ascii) (rest : list ascii) :
  Ascii.eqb c "]" = false ->
  compile (Some members) (c :: rest) = compile (Some (c :: members)) rest.
Proof. intros E. cbn [compile]. now rewrite E. Qed.

Lemma compile_escape (c : ascii) (rest : list ascii) :
  isSyntaxChar c = true ->
  compile None ("\"%char :: c :: rest) = consAtom (Lit c) (compile None rest).
Proof.
  intros E. cbn [compile]. change (Ascii.eqb "\" "\") with true. cbv iota.
  now rewrite E.
Qed.

Lemma compile_close_opt (members rest : list ascii) :
  compile (Some members) ("]"%char :: "?"%char :: rest)
  = consAtom (OptClass false (map Single (rev members))) (compile None rest).
Proof. reflexivity. Qed.

Lemma compile_attr (name : list ascii) (u : string) :
  forallb (fun c => negb (isSyntaxChar c)) name = true ->
  compile None
    (name ++ "="%char :: "["%char :: "'"%char :: Js.dquote :: "]"%char
          :: escaped (Js.chars u) ++ ["["; "'"; Js.dquote; "]"]%char)%list
  = Some (map Lit name ++ [Lit "="%char; Class false quoteClass]
          ++ map Lit (Js.chars u) ++ [Class false quoteClass])%list.
Proof.
  intros Hname.
  induction name as [|c name IH].
  - cbn [app map].
    rewrite compile_plain by reflexivity.
    change (compile None ("["%char :: ?x)) with (compile (Some []) x).
    rewrite 2 compile_member by reflexivity.
    rewrite compile_close_class by exact I.
    rewrite compile_escaped.
    change (compile None ["["; "'"; Js.dquote; "]"]%char)
      with (Some [Class false quoteClass]).
    rewrite consAtoms_Some. reflexivity.
  - cbn [forallb] in Hname. apply andb_true_iff in Hname as [Hc Hname].
    apply negb_true_iff in Hc.
    cbn [app map]. rewrite compile_plain by exact Hc.
    now rewrite (IH Hname).
Qed.

Lemma compile_url (u : string) :
  compile None
    ("u"%char :: "r"%char :: "l"%char :: "\"%char :: "("%char
      :: "["%char :: "'"%char :: Js.dquote :: "]"%char :: "?"%char
      :: escaped (Js.chars u)
         ++ ["["; "'"; Js.dquote; "]"; "?"; "\"; ")"]%char)%list
  = Some (urlPattern u).
Proof.
  rewrite 3 compile_plain by reflexivity.
  rewrite compile_escape by reflexivity.
  change (compile None ("["%char :: ?x)) with (compile (Some []) x).
  rewrite 2 compile_member by reflexivity.
  rewrite compile_close_opt.
  rewrite compile_escaped.
  change (compile None ["["; "'"; Js.dquote; "]"; "?"; "\"; ")"]%char)
    with (Some [OptClass false quoteClass; Lit ")"%char]).
  rewrite consAtoms_Some. reflexivity.
Qed.

(** The three patterns built for a mapping entry always compile. *)
Lemma replace_src (u template subject : string) :
  replaceRegExp ("src=['" ++ Js.q ++ "]" ++ Cli.escapeRegExp u ++ "['" ++ Js.q ++ "]")
                template subject
  = Some (RegExp.replace (attrPattern "src" u) template subject).
Proof.
  unfold replaceRegExp.
  rewrite !chars_app, escapeRegExp_chars.
  change (Js.chars "src=['") with (["s"; "r"; "c"]%char ++ ["="; "["; "'"]%char)%list.
  change (Js.chars Js.q) with [Js.dquote].
  change (Js.chars "]") with ["]"%char].
  change (Js.chars "['") with ["["; "'"]%char.
  rewrite <- !app_assoc. cbn [app].
  change ("s"%char :: "r"%char :: "c"%char :: ?x) with (["s"; "r"; "c"]%char ++ x)%list.
  rewrite compile_attr by reflexivity. reflexivity.
Qed.

Lemma replace_href (u template subject : string) :
  replaceRegExp ("href=['" ++ Js.q ++ "]" ++ Cli.escapeRegExp u ++ "['" ++ Js.q ++ "]")
                template subject
  = Some (RegExp.replace (attrPattern "href" u) template subject).
Proof.
  unfold replaceRegExp.
  rewrite !chars_app, escapeRegExp_chars.
  change (Js.chars "href=['") with (["h"; "r"; "e"; "f"]%char ++ ["="; "["; "'"]%char)%list.
  change (Js.chars Js.q) with [Js.dquote].
  change (Js.chars "]") with ["]"%char].
  change (Js.chars "['") with ["["; "'"]%char.
  rewrite <- !app_assoc. cbn [app].
  change ("h"%char :: "r"%char :: "e"%char :: "f"%char :: ?x)
    with (["h"; "r"; "e"; "f"]%char ++ x)%list.
  rewrite compile_attr by reflexivity. reflexivity.
Qed.

Lemma replace_url (u template subject : string) :
  replaceRegExp ("url\(['" ++ Js.q ++ "]?" ++ Cli.escapeRegExp u ++ "['" ++ Js.q ++ "]?\)")
                template subject
  = Some (RegExp.replace (urlPattern u) template subject).
Proof.
  unfold replaceRegExp.
  rewrite !chars_app, escapeRegExp_chars.
  change (Js.chars "url\(['") with ["u"; "r"; "l"; "\"; "("; "["; "'"]%char.
  change (Js.chars Js.q) with [Js.dquote].
  change (Js.chars "]?") with ["]"; "?"]%char.
  change (Js.chars "['") with ["["; "'"]%char.
  change (Js.chars "]?\)") with ["]"; "?"; "\"; ")"]%char.
  cbn [app].
  rewrite compile_url. reflexivity.
Qed.

Lemma replaceAssetUrls_fold (entries : list (string * string)) (html : string) :
  fold_left
    (fun (modifiedHtml : option string) '(originalUrl, localPath) =>
       match modifiedHtml with
       | None => None
       | Some modifiedHtml =>
           let escapedUrl := Cli.escapeRegExp originalUrl in
           match replaceRegExp
                   ("src=['" ++ Js.q ++ "]" ++ escapedUrl ++ "['" ++ Js.q ++ "]")
                   ("src=" ++ Js.q ++ localPath ++ Js.q) modifiedHtml with
           | None => None
           | Some modifiedHtml =>
               match replaceRegExp
                       ("href=['" ++ Js.q ++ "]" ++ escapedUrl ++ "['" ++ Js.q ++ "]")
                       ("href=" ++ Js.q ++ localPath ++ Js.q) modifiedHtml with
               | None => None
               | Some modifiedHtml =>
                   replaceRegExp
                     ("url\(['" ++ Js.q ++ "]?" ++ escapedUrl ++ "['" ++ Js.q ++ "]?\)")
                     ("url(" ++ Js.q ++ localPath ++ Js.q ++ ")") modifiedHtml
               end
           end
       end)
    entries (Some html)
  = Some (fold_left rewriteOne entries html).
Proof.
  revert html. induction entries as [|[u p] entries IH]; intros html; [reflexivity|].
  cbn [fold_left]. cbv zeta.
  rewrite replace_src, replace_href, replace_url.
  apply IH.
Qed.

(** The rewriter never fails: its result is the fold of [rewriteOne] over
    the entries of the mapping. *)
Lemma replaceAssetUrls_total (html : string) (assetMapping : JsObject string) :
  AssetMapper.replaceAssetUrls html assetMapping
  = Some (fold_left rewriteOne (Obj.entries assetMapping) html).
Proof. apply replaceAssetUrls_fold. Qed.

(* ------------------------------------------------------------------ *)
(** ** Running the methods                                             *)
(* ------------------------------------------------------------------ *)

Arguments Path.join : simpl never.
Arguments Path.normalize : simpl never.
Arguments MD5.hex : simpl never.
Arguments Js.toString : simpl never.
Arguments Js.includes : simpl never.
Arguments RegExp.replace : simpl never.
Arguments AssetNamer.filenameAt : simpl never.
Arguments AssetMapper.replaceAssetUrls : simpl never.
Arguments Url.parse : simpl never.
Arguments addEntry : simpl never.
Arguments String.append : simpl never.
Arguments Obj.spread : simpl never.

Lemma bind_Normal {A B} (c : M A) (k : A -> M B) (s s' : State) (a : A) :
  c s = (Normal a, s') -> bind c k s = k a s'.
Proof. intros H. unfold bind. now rewrite H. Qed.

Lemma bind_Throw {A B} (c : M A) (k : A -> M B) (s s' : State) (msg : string) :
  c s = (Throw msg, s') -> bind c k s = (Throw msg, s').
Proof. intros H. unfold bind. now rewrite H. Qed.

Lemma sameScraper_refl (s : State) : sameScraper s s.
Proof. split; reflexivity. Qed.

Lemma sameScraper_trans (a b c : State) :
  sameScraper a b -> sameScraper b c -> sameScraper a c.
Proof. intros [H1 H2] [H3 H4]. split; congruence. Qed.

Lemma sameScraper_afterCall (env : Env) (e : Event) (s : State) :
  sameScraper s (afterCall env e s).
Proof. split; reflexivity. Qed.

Lemma for_of_mkdir (env : Env) (dirs : list string) (s : State) :
  for_of dirs (FileManager.mkdir env) s
  = (Normal tt, fold_left (afterMkdir env) dirs s).
Proof.
  revert s. induction dirs as [|d dirs IH]; intros s; [reflexivity|].
  cbn [for_of fold_left].
  rewrite (bind_Normal _ _ s (afterMkdir env s d) tt) by reflexivity.
  apply IH.
Qed.

Lemma createDirectoryStructure_run (env : Env) (outputDir : string) (s : State) :
  FileManager.createDirectoryStructure env outputDir s
  = (Normal tt, fold_left (afterMkdir env) (FileManager.directories outputDir) s).
Proof. unfold FileManager.createDirectoryStructure. apply for_of_mkdir. Qed.

Lemma mkdirs_trace (env : Env) (dirs : list string) (s : State) :
  trace (fold_left (afterMkdir env) dirs s) = (trace s ++ map EvMkdir dirs)%list.
Proof.
  revert s. induction dirs as [|d dirs IH]; intros s; simpl.
  - now rewrite app_nil_r.
  - rewrite IH. simpl. now rewrite <- app_assoc.
Qed.

Lemma mkdirs_files (env : Env) (dirs : list string) (s x : State) :
  files s = files x ->
  files (fold_left (afterMkdir env) dirs s)
  = files (fold_left (afterMkdir env) dirs x).
Proof.
  revert s x. induction dirs as [|d dirs IH]; intros s x H; [exact H|].
  cbn [fold_left]. apply IH. unfold afterMkdir. cbn. now rewrite H.
Qed.

Lemma mkdirs_same (env : Env) (dirs : list string) (s : State) :
  sameScraper s (fold_left (afterMkdir env) dirs s)
  /\ console (fold_left (afterMkdir env) dirs s) = console s.
Proof.
  revert s. induction dirs as [|d dirs IH]; intros s; simpl.
  - split; [apply sameScraper_refl | reflexivity].
  - destruct (IH (afterMkdir env s d)) as [[H1 H2] H3].
    repeat split; [rewrite H1 | rewrite H2 | rewrite H3]; reflexivity.
Qed.

Lemma validateUrl_ok (env : Env) (params : Params) (u : Url.t) (s : State) :
  Url.parse (p_url params) = Some u ->
  validProtocol u = true ->
  WebScraper.validateUrl params s = (Normal tt, s).
Proof.
  intros Hp Hv. unfold WebScraper.validateUrl, new_URL, bind.
  rewrite Hp. unfold ret at 1. cbv beta iota.
  fold (validProtocol u). now rewrite Hv.
Qed.

Lemma validateUrl_rejects (params : Params) (u : Url.t) (s : State) :
  Url.parse (p_url params) = Some u ->
  validProtocol u = false ->
  WebScraper.validateUrl params s
  = (Throw "Only HTTP and HTTPS URLs are supported", s).
Proof.
  intros Hp Hv. unfold WebScraper.validateUrl, new_URL, bind.
  rewrite Hp. unfold ret at 1. cbv beta iota.
  fold (validProtocol u). now rewrite Hv.
Qed.

(** The five outcomes of the robots check. *)
Lemma checkRobotsTxt_off (env : Env) (params : Params) (s : State) :
  p_respectRobots params = false ->
  WebScraper.checkRobotsTxt env params s = (Normal tt, s).
Proof. intros H. unfold WebScraper.checkRobotsTxt. now rewrite H. Qed.

Lemma checkRobotsTxt_allowed (env : Env) (params : Params) (u : Url.t) (s : State) :
  Url.parse (p_url params) = Some u ->
  p_respectRobots params = true ->
  robotsLoad env (robotsUrlOf u) = None ->
  robotsIsAllowed env (p_url params) = true ->
  WebScraper.checkRobotsTxt env params s
  = (Normal tt, afterCall env (EvRobotsLoad (robotsUrlOf u)) s).
Proof.
  intros Hp Hr Hl Ha.
  unfold WebScraper.checkRobotsTxt, try_catch, new_URL, bind, callThrowing, bind.
  rewrite Hr, Hp. simpl. fold (robotsUrlOf u). rewrite Hl, Ha. reflexivity.
Qed.

Lemma checkRobotsTxt_disallowed (env : Env) (params : Params) (u : Url.t) (s : State) :
  Url.parse (p_url params) = Some u ->
  p_respectRobots params = true ->
  robotsLoad env (robotsUrlOf u) = None ->
  robotsIsAllowed env (p_url params) = false ->
  WebScraper.checkRobotsTxt env params s
  = (Throw "Access blocked by robots.txt",
     afterCall env (EvRobotsLoad (robotsUrlOf u)) s).
Proof.
  intros Hp Hr Hl Ha.
  unfold WebScraper.checkRobotsTxt, try_catch, new_URL, bind, callThrowing, bind.
  rewrite Hr, Hp. simpl. fold (robotsUrlOf u). rewrite Hl, Ha. reflexivity.
Qed.

Lemma checkRobotsTxt_load_rethrown (env : Env) (params : Params) (u : Url.t)
    (msg : string) (s : State) :
  Url.parse (p_url params) = Some u ->
  p_respectRobots params = true ->
  robotsLoad env (robotsUrlOf u) = Some msg ->
  Js.includes "blocked" msg = true ->
  WebScraper.checkRobotsTxt env params s
  = (Throw msg, afterCall env (EvRobotsLoad (robotsUrlOf u)) s).
Proof.
  intros Hp Hr Hl Hi.
  unfold WebScraper.checkRobotsTxt, try_catch, new_URL, bind, callThrowing, bind.
  rewrite Hr, Hp. simpl. fold (robotsUrlOf u). rewrite Hl. simpl.
  unfold throw. now rewrite Hi.
Qed.

Lemma checkRobotsTxt_fail_open (env : Env) (params : Params) (u : Url.t)
    (msg : string) (s : State) :
  Url.parse (p_url params) = Some u ->
  p_respectRobots params = true ->
  robotsLoad env (robotsUrlOf u) = Some msg ->
  Js.includes "blocked" msg = false ->
  WebScraper.checkRobotsTxt env params s
  = (Normal tt,
     set_console
       (console s ++ [(warn, "robots.txt not accessible - proceeding")])%list
       (afterCall env (EvRobotsLoad (robotsUrlOf u)) s)).
Proof.
  intros Hp Hr Hl Hi.
  unfold WebScraper.checkRobotsTxt, try_catch, new_URL, bind, callThrowing, bind.
  rewrite Hr, Hp. simpl. fold (robotsUrlOf u). rewrite Hl. simpl.
  unfold throw. now rewrite Hi.
Qed.

(** When the check passes it returns, and leaves the scraper as it was. *)
Lemma checkRobotsTxt_pass (env : Env) (params : Params) (u : Url.t) (s : State) :
  Url.parse (p_url params) = Some u ->
  robotsPass env params u = true ->
  exists s', WebScraper.checkRobotsTxt env params s = (Normal tt, s')
             /\ sameScraper s s'.
Proof.
  intros Hp Hpass. unfold robotsPass in Hpass.
  destruct (p_respectRobots params) eqn:Hr.
  - simpl in Hpass.
    destruct (robotsLoad env (robotsUrlOf u)) as [msg|] eqn:Hl.
    + apply negb_true_iff in Hpass.
      rewrite (checkRobotsTxt_fail_open env params u msg s Hp Hr Hl Hpass).
      eexists. split; [reflexivity | split; reflexivity].
    + rewrite (checkRobotsTxt_allowed env params u s Hp Hr Hl Hpass).
      eexists. split; [reflexivity | split; reflexivity].
  - rewrite (checkRobotsTxt_off env params s Hr).
    eexists. split; [reflexivity | apply sameScraper_refl].
Qed.

(** [cleanup] never throws: an error of a close call is caught and
    logged. *)
Lemma cleanup_run (env : Env) (s : State) :
  WebScraper.cleanup env s = (Normal tt, afterCleanup env s).
Proof.
  unfold WebScraper.cleanup, afterCleanup, closeCalls, closeError, try_catch,
    callThrowing, bind, get, call, modify, log, throw, ret, afterCall.
  destruct (browser s); [|reflexivity].
  destruct (closePage env); [reflexivity|].
  destruct (closeContext env); [reflexivity|].
  destruct (closeBrowser env); reflexivity.
Qed.

Lemma afterCleanup_same (env : Env) (s : State) :
  result (afterCleanup env s) = result s
  /\ browser (afterCleanup env s) = browser s
  /\ files (afterCleanup env s) = files s
  /\ trace (afterCleanup env s)
     = (trace s ++ if browser s then closeCalls env else [])%list.
Proof.
  unfold afterCleanup, closeCalls, closeError, afterCall.
  destruct (browser s) eqn:E; [|now rewrite app_nil_r].
  destruct (closePage env); [cbn; now rewrite E|].
  destruct (closeContext env); [cbn; rewrite E, <- app_assoc; now repeat split|].
  destruct (closeBrowser env); cbn; rewrite E, <- !app_assoc; now repeat split.
Qed.

Lemma afterCleanup_idle (env : Env) (s : State) :
  browser s = false -> afterCleanup env s = s.
Proof. intros H. unfold afterCleanup. now rewrite H. Qed.

Lemma launchBrowser_ok (env : Env) (s : State) :
  launch env = None ->
  WebScraper.launchBrowser env s
  = (Normal tt, set_browser true (afterCall env EvLaunch s)).
Proof.
  intros H. unfold WebScraper.launchBrowser, callThrowing, bind.
  simpl. now rewrite H.
Qed.

Lemma scrapePage_ok (env : Env) (params : Params) (status : Z)
    (statusText : string) (s : State) :
  goto env (p_url params) = GotoResponse true status statusText ->
  WebScraper.scrapePage env params s
  = (Normal tt,
     set_result
       (set_scrapedData
          (mkScrapedData (Some (pageContent env)) (Some (pageTitle env))
                         (pageMetadata env) (pageAssets env))
          (result s))
       (afterCall env (EvWait 2000) (afterCall env (EvGoto (p_url params)) s))).
Proof.
  intros H. unfold WebScraper.scrapePage, bind. simpl. now rewrite H.
Qed.

(** [downloadSingleAsset] reports only successes: it returns an object
    whose [success] is [true], or it throws. The scraper's own fields are
    untouched either way. *)
Lemma downloadSingleAsset_outcome (env : Env) (outputDir : string)
    (asset : TypedAsset) (userAgent : string) (s : State) :
  let r := AssetManager.downloadSingleAsset env outputDir asset userAgent s in
  sameScraper s (snd r)
  /\ match fst r with
     | Normal d => d_success d = true
     | Throw _ => True
     end.
Proof.
  unfold AssetManager.downloadSingleAsset, new_URL, bind.
  destruct (Url.parse (url (base asset))) as [u|]; simpl.
  2: { split; [apply sameScraper_refl | exact I]. }
  destruct (existsb _ (files s)); simpl.
  { split; [apply sameScraper_refl | reflexivity]. }
  destruct (fetch env (url (base asset))) as [msg | ok status statusText len]; simpl.
  { split; [split; reflexivity | exact I]. }
  destruct ok; simpl; (split; [split; reflexivity | try reflexivity; exact I]).
Qed.

(** The loop of [downloadAndMapAssets] never throws; every turn adds one
    to exactly one of [downloaded] and [failed]. *)
Lemma download_loop (env : Env) (outputDir userAgent : string)
    (body := fun (asset : TypedAsset) '((mapping, stats) : JsObject string * Stats) =>
       try_catch
         (result <- AssetManager.downloadSingleAsset env outputDir asset userAgent ;;
          if d_success result then
            let mapping := Obj.assign (url (base asset)) (d_relativePath result) mapping in
            let mapping := setIfTruthy (originalSrc (base asset)) (d_relativePath result) mapping in
            let mapping := setIfTruthy (originalHref (base asset)) (d_relativePath result) mapping in
            ret (mapping, mkStats (total stats) (downloaded stats + 1) (failed stats))
          else
            ret (mapping, mkStats (total stats) (downloaded stats) (failed stats + 1)))
         (fun msg =>
            log error ("Failed to download " ++ url (base asset) ++ ": " ++ msg) ;;
            ret (mapping, mkStats (total stats) (downloaded stats) (failed stats + 1))))
    (l : list TypedAsset) :
  forall (mapping : JsObject string) (stats : Stats) (s : State),
  exists mapping' stats' s',
    for_of_with l (mapping, stats) body s = (Normal (mapping', stats'), s')
    /\ total stats' = total stats
    /\ downloaded stats' + failed stats'
       = downloaded stats + failed stats + Z.of_nat (List.length l)
    /\ downloaded stats <= downloaded stats'
    /\ failed stats <= failed stats'
    /\ sameScraper s s'.
Proof.
  induction l as [|asset l IH]; intros mapping stats s.
  - exists mapping, stats, s. simpl.
    repeat split; try lia; reflexivity.
  - cbn [for_of_with]. unfold bind at 1.
    assert (Hturn : exists mapping1 stats1 s1,
              body asset (mapping, stats) s = (Normal (mapping1, stats1), s1)
              /\ total stats1 = total stats
              /\ downloaded stats1 + failed stats1 = downloaded stats + failed stats + 1
              /\ downloaded stats <= downloaded stats1
              /\ failed stats <= failed stats1
              /\ sameScraper s s1).
    { unfold body, try_catch, bind at 1.
      pose proof (downloadSingleAsset_outcome env outputDir asset userAgent s) as [Hs Hd].
      destruct (AssetManager.downloadSingleAsset env outputDir asset userAgent s)
        as [[d|msg] s1]; simpl in Hs, Hd.
      - rewrite Hd. do 3 eexists. split; [reflexivity|]. simpl.
        repeat split; try lia; apply Hs.
      - do 3 eexists. split; [reflexivity|]. simpl.
        repeat split; try lia; apply Hs. }
    destruct Hturn as (m1 & st1 & s1 & Hrun & Ht & Hsum & Hd & Hf & Hs1).
    rewrite Hrun.
    destruct (IH m1 st1 s1) as (m2 & st2 & s2 & Hrun2 & Ht2 & Hsum2 & Hd2 & Hf2 & Hs2).
    exists m2, st2, s2. rewrite Hrun2.
    repeat split; try lia; try congruence.
    + rewrite Hsum2, Hsum. cbn [List.length]. lia.
    + destruct Hs1, Hs2. congruence.
    + destruct Hs1, Hs2. congruence.
Qed.

(** [downloadAndMapAssets] always returns; its counters add up to the
    number of unique assets. *)
Lemma downloadAndMapAssets_returns (env : Env) (outputDir : string)
    (page : Assets) (userAgent : string) (s : State) :
  exists mapping stats s',
    AssetManager.downloadAndMapAssets env outputDir page userAgent s
    = (Normal (mapping, stats), s')
    /\ total stats
       = Z.of_nat (List.length
           (AssetManager.removeDuplicates (AssetManager.flattenAssets page)))
    /\ downloaded stats + failed stats = total stats
    /\ 0 <= downloaded stats /\ 0 <= failed stats
    /\ sameScraper s s'.
Proof.
  unfold AssetManager.downloadAndMapAssets.
  destruct (download_loop env outputDir userAgent
              (AssetManager.removeDuplicates (AssetManager.flattenAssets page))
              [] (mkStats (Z.of_nat (List.length
                   (AssetManager.removeDuplicates (AssetManager.flattenAssets page)))) 0 0) s)
    as (m & st & s' & Hrun & Ht & Hsum & Hd & Hf & Hs).
  exists m, st, s'. simpl in *. rewrite Hrun.
  repeat split; try lia; try apply Hs.
Qed.

(** [captureScreenshots] never throws, and what it returns is decided by
    which of the two captures go through. *)
Lemma captureScreenshots_returns (env : Env) (outputDir : string)
    (desktopViewport mobileViewport : Viewport) (hostname : string) (s : State) :
  exists s',
    ScreenshotManager.captureScreenshots env outputDir
      desktopViewport mobileViewport hostname s
    = (Normal (expectedScreenshots env outputDir desktopViewport mobileViewport
                 hostname (clock s)), s')
    /\ sameScraper s s'.
Proof.
  unfold ScreenshotManager.captureScreenshots, expectedScreenshots, captureOk,
    capturePath, ScreenshotManager.pageScreenshot, callThrowing.
  unfold bind at 1. unfold Date_now at 1. cbv iota beta.
  cbn [try_steps]. unfold bind, call, modify, ret, throw, log.
  change (hostname ++ "-" ++ "desktop" ++ "-" ++ Js.toString (clock s) ++ ".png")
    with (hostname ++ "-desktop-" ++ Js.toString (clock s) ++ ".png").
  change (hostname ++ "-" ++ "mobile" ++ "-" ++ Js.toString (clock s) ++ ".png")
    with (hostname ++ "-mobile-" ++ Js.toString (clock s) ++ ".png").
  destruct (setViewportSize env desktopViewport) as [m1|]; cbn [isNone andb].
  { eexists. split; [reflexivity | split; reflexivity]. }
  destruct (screenshot env _) as [m2|]; cbn [isNone andb].
  { eexists. split; [reflexivity | split; reflexivity]. }
  destruct (setViewportSize env mobileViewport) as [m3|]; cbn [isNone andb].
  { eexists. split; [reflexivity | split; reflexivity]. }
  destruct (screenshot env _) as [m4|]; cbn [isNone andb].
  { eexists. split; [reflexivity | split; reflexivity]. }
  eexists. split; [reflexivity | split; reflexivity].
Qed.

Lemma processAssets_returns (env : Env) (params : Params) (u : Url.t) (s : State) :
  Url.parse (p_url params) = Some u ->
  exists mapping stats s',
    WebScraper.processAssets env params s = (Normal tt, s')
    /\ result s'
       = set_statistics
           (Obj.spread (statistics (result s)) (WebScraper.statsObject stats))
           (set_assetMapping mapping (result s))
    /\ browser s' = browser s
    /\ total stats
       = Z.of_nat (List.length
           (AssetManager.removeDuplicates
              (AssetManager.flattenAssets (assets (scrapedData (result s))))))
    /\ downloaded stats + failed stats = total stats.
Proof.
  intros Hp. unfold WebScraper.processAssets, new_URL. rewrite Hp.
  destruct (downloadAndMapAssets_returns env (p_outputDir params)
              (assets (scrapedData (result s))) (p_userAgent params) s)
    as (m & st & s' & Hrun & Ht & Hsum & _ & _ & Hr & Hb).
  exists m, st.
  unfold bind at 1. cbv beta iota. unfold ret at 1. cbv beta iota.
  unfold bind at 1. unfold get at 1. cbv beta iota.
  rewrite (bind_Normal _ _ _ _ _ Hrun).
  unfold bind, updateResult, modify. simpl.
  eexists. split; [reflexivity|]. simpl. rewrite Hr, Hb.
  repeat split; assumption.
Qed.

Lemma captureScreenshots_step (env : Env) (params : Params) (u : Url.t) (s : State) :
  Url.parse (p_url params) = Some u ->
  exists s',
    WebScraper.captureScreenshots env params s = (Normal tt, s')
    /\ result s'
       = set_screenshots
           (expectedScreenshots env (p_outputDir params)
              (p_desktopViewport params) (p_mobileViewport params)
              (Url.hostname u) (clock s))
           (result s)
    /\ browser s' = browser s.
Proof.
  intros Hp. unfold WebScraper.captureScreenshots, new_URL. rewrite Hp.
  destruct (captureScreenshots_returns env (p_outputDir params)
              (p_desktopViewport params) (p_mobileViewport params)
              (Url.hostname u) s) as (s' & Hrun & Hr & Hb).
  unfold bind at 1. unfold ret at 1. cbv beta iota.
  rewrite (bind_Normal _ _ _ _ _ Hrun).
  unfold updateResult, modify. simpl.
  eexists. split; [reflexivity|]. simpl. rewrite Hr, Hb. split; reflexivity.
Qed.

Lemma saveResults_returns (env : Env) (params : Params) (captured : string)
    (s : State) :
  html (scrapedData (result s)) = Some captured ->
  exists s',
    WebScraper.saveResults env params s = (Normal tt, s')
    /\ result s'
       = set_scrapedData
           (mkScrapedData
              (Some (fold_left rewriteOne (Obj.entries (assetMapping (result s)))
                       captured))
              (title (scrapedData (result s))) (metadata (scrapedData (result s)))
              (assets (scrapedData (result s))))
           (result s)
    /\ browser s' = browser s.
Proof.
  intros Hh. unfold WebScraper.saveResults.
  unfold bind at 1. unfold get at 1. cbv beta iota.
  rewrite Hh, replaceAssetUrls_total.
  unfold FileManager.saveFile, FileManager.writeFile, Date_now, updateResult,
    bind, call, modify. simpl.
  eexists. split; [reflexivity|]. simpl. split; reflexivity.
Qed.

(** With a valid URL, a passing robots check, a browser that starts and
    a page that loads, [scrape] completes with [success]: neither asset
    failures nor capture failures reach the top-level handler. *)
Lemma scrape_succeeds (env : Env) (params : Params) (u : Url.t)
    (status : Z) (statusText : string) (s : State) :
  Url.parse (p_url params) = Some u ->
  validProtocol u = true ->
  robotsPass env params u = true ->
  launch env = None ->
  goto env (p_url params) = GotoResponse true status statusText ->
  exists s',
    WebScraper.scrape env params s = (Normal (result s'), s')
    /\ success (result s') = true
    /\ accessible (result s') = true
    /\ scrapingAllowed (result s') = true
    /\ (if p_takeScreenshots params
        then exists t,
               screenshots (result s')
               = expectedScreenshots env (p_outputDir params)
                   (p_desktopViewport params) (p_mobileViewport params)
                   (Url.hostname u) t
        else screenshots (result s') = screenshots (result s))
    /\ (if p_downloadAssets params
        then exists stats elapsedMs,
               total stats
               = Z.of_nat (List.length
                   (AssetManager.removeDuplicates
                      (AssetManager.flattenAssets (pageAssets env))))
               /\ downloaded stats + failed stats = total stats
               /\ statistics (result s')
                  = Obj.set "processingTime" elapsedMs
                      (Obj.spread (statistics (result s))
                                  (WebScraper.statsObject stats))
        else exists elapsedMs,
               statistics (result s')
               = Obj.set "processingTime" elapsedMs (statistics (result s))).
Proof.
  intros Hp Hv Hrobots Hlaunch Hgoto.
  unfold WebScraper.scrape.
  rewrite (bind_Normal _ _ s s (clock s)) by reflexivity.
  unfold try_finally, try_catch.
  unfold bind at 1.
  rewrite (bind_Normal _ _ _ _ _ (validateUrl_ok env params u s Hp Hv)).
  rewrite (bind_Normal _ _ _ _ _ (createDirectoryStructure_run env _ s)).
  set (s1 := fold_left (afterMkdir env) (FileManager.directories (p_outputDir params)) s).
  destruct (checkRobotsTxt_pass env params u s1 Hp Hrobots) as (s2 & Hrun2 & Hr2 & Hb2).
  rewrite (bind_Normal _ _ _ _ _ Hrun2).
  rewrite (bind_Normal _ _ _ _ _ (launchBrowser_ok env s2 Hlaunch)).
  rewrite (bind_Normal _ _ _ _ _ (scrapePage_ok env params status statusText _ Hgoto)).
  set (s3 := set_browser true (afterCall env EvLaunch s2)).
  set (s4 := set_result _ (afterCall env (EvWait 2000) _)).
  assert (Hres1 : result s1 = result s) by apply (mkdirs_same env _ s).
  assert (Hres4 : result s4
                  = set_scrapedData
                      (mkScrapedData (Some (pageContent env)) (Some (pageTitle env))
                                     (pageMetadata env) (pageAssets env))
                      (result s)).
  { subst s4 s3. simpl. now rewrite Hr2, Hres1. }
  clearbody s4. clear s3.
  (* Step 5 *)
  assert (H5 : exists s5,
             (if p_downloadAssets params
              then WebScraper.processAssets env params else ret tt) s4
             = (Normal tt, s5)
             /\ scrapedData (result s5) = scrapedData (result s4)
             /\ screenshots (result s5) = screenshots (result s)
             /\ success (result s5) = success (result s)
             /\ (if p_downloadAssets params
                 then exists stats,
                        total stats
                        = Z.of_nat (List.length
                            (AssetManager.removeDuplicates
                               (AssetManager.flattenAssets (pageAssets env))))
                        /\ downloaded stats + failed stats = total stats
                        /\ statistics (result s5)
                           = Obj.spread (statistics (result s))
                                        (WebScraper.statsObject stats)
                 else statistics (result s5) = statistics (result s))).
  { destruct (p_downloadAssets params).
    - destruct (processAssets_returns env params u s4 Hp)
        as (m & st & s5 & Hrun5 & Hres5 & _ & Htot & Hsum).
      exists s5. rewrite Hrun5, Hres5, Hres4. simpl.
      repeat split. exists st. rewrite Hres4 in Htot. simpl in Htot.
      repeat split; assumption.
    - exists s4. rewrite Hres4. repeat split. }
  destruct H5 as (s5 & Hrun5 & Hdata5 & Hshots5 & _ & Hstats5).
  rewrite (bind_Normal _ _ _ _ _ Hrun5).
  (* Step 6 *)
  assert (H6 : exists s6,
             (if p_takeScreenshots params
              then WebScraper.captureScreenshots env params else ret tt) s5
             = (Normal tt, s6)
             /\ scrapedData (result s6) = scrapedData (result s5)
             /\ statistics (result s6) = statistics (result s5)
             /\ (if p_takeScreenshots params
                 then exists t,
                        screenshots (result s6)
                        = expectedScreenshots env (p_outputDir params)
                            (p_desktopViewport params) (p_mobileViewport params)
                            (Url.hostname u) t
                 else screenshots (result s6) = screenshots (result s))).
  { destruct (p_takeScreenshots params).
    - destruct (captureScreenshots_step env params u s5 Hp)
        as (s6 & Hrun6 & Hres6 & _).
      exists s6. rewrite Hrun6, Hres6. simpl.
      repeat split. eexists. reflexivity.
    - exists s5. repeat split. exact Hshots5. }
  destruct H6 as (s6 & Hrun6 & Hdata6 & Hstats6 & Hshots6).
  rewrite (bind_Normal _ _ _ _ _ Hrun6).
  (* Step 7 *)
  assert (Hhtml : html (scrapedData (result s6)) = Some (pageContent env)).
  { rewrite Hdata6, Hdata5, Hres4. reflexivity. }
  destruct (saveResults_returns env params _ s6 Hhtml) as (s7 & Hrun7 & Hres7 & _).
  rewrite (bind_Normal _ _ _ _ _ Hrun7).
  unfold WebScraper.setProcessingTime, updateResult, Date_now, bind, modify, get, ret.
  cbv beta iota.
  assert (Hclean : forall x, result (snd (WebScraper.cleanup env x)) = result x).
  { intros x. rewrite cleanup_run. apply afterCleanup_same. }
  eexists. split; [reflexivity|].
  rewrite Hclean. cbn [result set_result]. rewrite Hres7.
  cbn -[Obj.set Obj.spread expectedScreenshots].
  repeat split.
  - destruct (p_takeScreenshots params); exact Hshots6.
  - rewrite Hstats6. destruct (p_downloadAssets params).
    + destruct Hstats5 as (st & Htot & Hsum & Hst). exists st. eexists.
      repeat split; try assumption. rewrite Hst. reflexivity.
    + eexists. rewrite Hstats5. reflexivity.
Qed.

(* ------------------------------------------------------------------ *)
(** ** Runs that abort                                                 *)
(* ------------------------------------------------------------------ *)

(** The state in which [scrape] starts inside [execute]. *)
Lemma execute_scrape (env : Env) (params : Params) (s : State) (r : Result)
    (s' : State) :
  WebScraper.scrape env params
    (set_browser false (set_result (WebScraper.initialResult params) s))
  = (Normal r, s') ->
  WebScraper.execute env params s = (r, s').
Proof. intros H. unfold WebScraper.execute. now rewrite H. Qed.

(** A rejected URL: the handler runs on an untouched world. *)
Lemma scrape_rejects (env : Env) (params : Params) (u : Url.t) (s : State) :
  Url.parse (p_url params) = Some u ->
  validProtocol u = false ->
  let out := WebScraper.execute env params s in
  success (fst out) = false
  /\ accessible (fst out) = false
  /\ scrapingAllowed (fst out) = false
  /\ message (fst out) = "Scraping error: Only HTTP and HTTPS URLs are supported"
  /\ trace (snd out) = trace s
  /\ files (snd out) = files s
  /\ clock (snd out) = clock s.
Proof.
  intros Hp Hv.
  set (s0 := set_browser false (set_result (WebScraper.initialResult params) s)).
  assert (Hrun : exists s',
            WebScraper.scrape env params s0 = (Normal (result s'), s')
            /\ success (result s') = false
            /\ accessible (result s') = false
            /\ scrapingAllowed (result s') = false
            /\ message (result s')
               = "Scraping error: Only HTTP and HTTPS URLs are supported"
            /\ trace s' = trace s /\ files s' = files s /\ clock s' = clock s).
  { unfold WebScraper.scrape.
    rewrite (bind_Normal _ _ s0 s0 (clock s0)) by reflexivity.
    unfold try_finally, try_catch. unfold bind at 1.
    rewrite (bind_Throw _ _ _ _ _ (validateUrl_rejects params u s0 Hp Hv)).
    unfold WebScraper.setProcessingTime, updateResult, log,
      Date_now, bind, modify, get, ret.
    cbv beta iota. rewrite cleanup_run, afterCleanup_idle by reflexivity.
    subst s0. cbn [browser set_browser set_result set_console].
    cbv beta iota.
    eexists. split; [reflexivity|]. cbn -[String.append]. repeat split. }
  destruct Hrun as (s' & Hrun & H).
  cbv zeta. rewrite (execute_scrape env params s _ s' Hrun). exact H.
Qed.

(** A robots check that throws: only the directories were made and the
    robots file asked for. *)
Lemma scrape_stops_at_robots (env : Env) (params : Params) (u : Url.t)
    (msg : string) (s : State) :
  Url.parse (p_url params) = Some u ->
  validProtocol u = true ->
  (forall x,
      WebScraper.checkRobotsTxt env params x
      = (Throw msg, afterCall env (EvRobotsLoad (robotsUrlOf u)) x)) ->
  let out := WebScraper.execute env params s in
  success (fst out) = false
  /\ accessible (fst out) = false
  /\ scrapingAllowed (fst out) = false
  /\ message (fst out) = "Scraping error: " ++ msg
  /\ trace (snd out)
     = (trace s ++ map EvMkdir (FileManager.directories (p_outputDir params))
        ++ [EvRobotsLoad (robotsUrlOf u)])%list
  /\ files (snd out)
     = files (fold_left (afterMkdir env)
                (FileManager.directories (p_outputDir params)) s).
Proof.
  intros Hp Hv Hcheck.
  set (s0 := set_browser false (set_result (WebScraper.initialResult params) s)).
  assert (Hrun : exists s',
            WebScraper.scrape env params s0 = (Normal (result s'), s')
            /\ success (result s') = false
            /\ accessible (result s') = false
            /\ scrapingAllowed (result s') = false
            /\ message (result s') = "Scraping error: " ++ msg
            /\ trace s'
               = (trace s ++ map EvMkdir (FileManager.directories (p_outputDir params))
                  ++ [EvRobotsLoad (robotsUrlOf u)])%list
            /\ files s'
               = files (fold_left (afterMkdir env)
                          (FileManager.directories (p_outputDir params)) s)).
  { unfold WebScraper.scrape.
    rewrite (bind_Normal _ _ s0 s0 (clock s0)) by reflexivity.
    unfold try_finally, try_catch. unfold bind at 1.
    rewrite (bind_Normal _ _ _ _ _ (validateUrl_ok env params u s0 Hp Hv)).
    rewrite (bind_Normal _ _ _ _ _ (createDirectoryStructure_run env _ s0)).
    rewrite (bind_Throw _ _ _ _ _ (Hcheck _)).
    set (s1 := fold_left (afterMkdir env) (FileManager.directories (p_outputDir params)) s0).
    assert (Htrace : trace s1
                     = (trace s ++ map EvMkdir
                          (FileManager.directories (p_outputDir params)))%list)
      by apply (mkdirs_trace env _ s0).
    assert (Hsame : sameScraper s0 s1) by apply (mkdirs_same env _ s0).
    assert (Hfiles : files s1
                     = files (fold_left (afterMkdir env)
                                (FileManager.directories (p_outputDir params)) s)).
    { apply mkdirs_files. reflexivity. }
    destruct Hsame as [Hr1 Hb1]. clearbody s1.
    unfold WebScraper.setProcessingTime, updateResult, log,
      Date_now, bind, modify, get, ret.
    cbv beta iota. rewrite cleanup_run.
    rewrite afterCleanup_idle
      by (cbn [browser set_browser set_result set_console set_clock set_trace
               afterCall]; rewrite Hb1; reflexivity).
    cbn [browser set_browser set_result set_console set_clock set_trace afterCall].
    subst s0. cbn [browser set_browser set_result]. cbv beta iota.
    eexists. split; [reflexivity|].
    cbn -[String.append]. rewrite Hr1, Htrace, Hfiles.
    cbn -[String.append]. rewrite <- app_assoc. repeat split. }
  destruct Hrun as (s' & Hrun & H).
  cbv zeta. rewrite (execute_scrape env params s _ s' Hrun). exact H.
Qed.
(* ------------------------------------------------------------------ *)
(** ** The calls around the capture step                               *)
(* ------------------------------------------------------------------ *)

Lemma elapsedTotal_app (env : Env) (a b : list Event) :
  elapsedTotal env (a ++ b) = elapsedTotal env a + elapsedTotal env b.
Proof.
  unfold elapsedTotal. induction a as [|e a IH]; cbn [app fold_right]; lia.
Qed.

Lemma grows_refl (env : Env) (s : State) : grows env s s.
Proof. exists []. cbn. rewrite app_nil_r. repeat split. lia. Qed.

Lemma grows_trans (env : Env) (a b c : State) :
  grows env a b -> grows env b c -> grows env a c.
Proof.
  intros (x & Hx1 & Hx2 & Hx3) (y & Hy1 & Hy2 & Hy3). exists (x ++ y)%list.
  rewrite Hy1, Hx1, Hy2, Hx2, elapsedTotal_app, filter_app, Hx3, Hy3, app_assoc.
  repeat split. lia.
Qed.

Lemma grows_same (env : Env) (s s' : State) :
  trace s' = trace s -> clock s' = clock s -> grows env s s'.
Proof.
  intros Ht Hc. exists []. rewrite Ht, Hc, app_nil_r. cbn. repeat split. lia.
Qed.

Lemma grows_afterCall (env : Env) (e : Event) (s : State) :
  isCapture e = false -> grows env s (afterCall env e s).
Proof.
  intros He. exists [e]. cbn. rewrite He. repeat split. lia.
Qed.

Section Quiet.
Variable env : Env.

Lemma quiet_ret {A} (a : A) : quiet env (ret a).
Proof. intros s. apply grows_refl. Qed.

Lemma quiet_throw {A} (msg : string) : quiet env (@throw A msg).
Proof. intros s. apply grows_refl. Qed.

Lemma quiet_get : quiet env get.
Proof. intros s. apply grows_refl. Qed.

Lemma quiet_Date_now : quiet env Date_now.
Proof. intros s. apply grows_refl. Qed.

Lemma quiet_modify (f : State -> State) :
  (forall s, trace (f s) = trace s) -> (forall s, clock (f s) = clock s) ->
  quiet env (modify f).
Proof. intros Ht Hc s. apply grows_same; [apply Ht | apply Hc]. Qed.

Lemma quiet_call (e : Event) : isCapture e = false -> quiet env (call env e).
Proof. intros He s. apply (grows_afterCall env e s He). Qed.

Lemma quiet_bind {A B} (c : M A) (k : A -> M B) :
  quiet env c -> (forall a, quiet env (k a)) -> quiet env (bind c k).
Proof.
  intros Hc Hk s. unfold bind. specialize (Hc s).
  destruct (c s) as [[a|msg] s1]; cbn [snd] in *; [|exact Hc].
  exact (grows_trans env _ _ _ Hc (Hk a s1)).
Qed.

Lemma quiet_try_catch {A} (c : M A) (h : string -> M A) :
  quiet env c -> (forall msg, quiet env (h msg)) -> quiet env (try_catch c h).
Proof.
  intros Hc Hh s. unfold try_catch. specialize (Hc s).
  destruct (c s) as [[a|msg] s1]; cbn [snd] in *; [exact Hc|].
  exact (grows_trans env _ _ _ Hc (Hh msg s1)).
Qed.

Lemma quiet_for_of_with {A L} (l : list A) (body : A -> L -> M L) :
  (forall x acc, quiet env (body x acc)) ->
  forall acc, quiet env (for_of_with l acc body).
Proof.
  intros Hbody. induction l as [|x l IH]; intros acc; cbn [for_of_with].
  - apply quiet_ret.
  - apply quiet_bind; [apply Hbody | exact IH].
Qed.

Lemma quiet_callThrowing (e : Event) (o : option string) :
  isCapture e = false -> quiet env (callThrowing env e o).
Proof.
  intros He. unfold callThrowing.
  apply quiet_bind; [now apply quiet_call | intros _].
  destruct o; [apply quiet_throw | apply quiet_ret].
Qed.

Lemma quiet_log (l : Level) (msg : string) : quiet env (log l msg).
Proof. apply quiet_modify; reflexivity. Qed.

Lemma quiet_updateResult (f : Result -> Result) : quiet env (updateResult f).
Proof. apply quiet_modify; reflexivity. Qed.

End Quiet.

(** Breaks a computation down by the rules above. *)
Ltac quiet_step :=
  first
    [ apply quiet_ret
    | apply quiet_throw
    | apply quiet_get
    | apply quiet_Date_now
    | apply quiet_log
    | apply quiet_updateResult
    | apply quiet_callThrowing; reflexivity
    | apply quiet_call; reflexivity
    | apply quiet_modify; reflexivity
    | apply quiet_bind; [|intros ?]
    | apply quiet_try_catch; [|intros ?]
    | apply quiet_for_of_with; intros ? ?
    | match goal with
      | |- quiet _ (match ?x with _ => _ end) => destruct x
      | |- quiet _ (let '(_, _) := ?x in _) => destruct x
      end ].

Ltac quiet_all := repeat quiet_step.

Lemma quiet_checkRobotsTxt (env : Env) (params : Params) :
  quiet env (WebScraper.checkRobotsTxt env params).
Proof. unfold WebScraper.checkRobotsTxt, new_URL. quiet_all. Qed.

Lemma quiet_processAssets (env : Env) (params : Params) :
  quiet env (WebScraper.processAssets env params).
Proof.
  unfold WebScraper.processAssets, AssetManager.downloadAndMapAssets,
    AssetManager.downloadSingleAsset, AssetNamer.generateFilename,
    FileManager.fileExists, FileManager.saveAsset, FileManager.writeFile,
    new_URL.
  quiet_all.
Qed.

Lemma quiet_saveResults (env : Env) (params : Params) :
  quiet env (WebScraper.saveResults env params).
Proof.
  unfold WebScraper.saveResults, FileManager.saveFile, FileManager.writeFile.
  quiet_all.
Qed.

Lemma quiet_cleanup (env : Env) : quiet env (WebScraper.cleanup env).
Proof. unfold WebScraper.cleanup. quiet_all. Qed.

Lemma mkdirs_grow (env : Env) (dirs : list string) (s : State) :
  grows env s (fold_left (afterMkdir env) dirs s).
Proof.
  revert s. induction dirs as [|d dirs IH]; intros s; [apply grows_refl|].
  cbn [fold_left]. eapply grows_trans; [|apply IH].
  exists [EvMkdir d]. cbn. repeat split. lia.
Qed.

(** The calls of [captureScreenshots], and what it returns. *)
Lemma captureScreenshots_calls (env : Env) (outputDir : string)
    (desktopViewport mobileViewport : Viewport) (hostname : string) (s : State) :
  exists s',
    ScreenshotManager.captureScreenshots env outputDir
      desktopViewport mobileViewport hostname s
    = (Normal (expectedScreenshots env outputDir desktopViewport mobileViewport
                 hostname (clock s)), s')
    /\ result s' = result s
    /\ trace s'
       = (trace s ++ captureCalls env outputDir desktopViewport mobileViewport
                       hostname (clock s))%list.
Proof.
  unfold ScreenshotManager.captureScreenshots, expectedScreenshots, captureOk,
    captureCalls, capturePath, ScreenshotManager.pageScreenshot, callThrowing.
  unfold bind at 1. unfold Date_now at 1. cbv iota beta.
  cbn [try_steps]. unfold bind, call, modify, ret, throw, log.
  change (hostname ++ "-" ++ "desktop" ++ "-" ++ Js.toString (clock s) ++ ".png")
    with (hostname ++ "-desktop-" ++ Js.toString (clock s) ++ ".png").
  change (hostname ++ "-" ++ "mobile" ++ "-" ++ Js.toString (clock s) ++ ".png")
    with (hostname ++ "-mobile-" ++ Js.toString (clock s) ++ ".png").
  destruct (setViewportSize env desktopViewport) as [m1|]; cbn [isNone andb].
  { eexists. split; [reflexivity | split; reflexivity]. }
  destruct (screenshot env _) as [m2|]; cbn [isNone andb].
  { eexists. split; [reflexivity | split; [reflexivity|]].
    cbn. now rewrite <- !app_assoc. }
  destruct (setViewportSize env mobileViewport) as [m3|]; cbn [isNone andb].
  { eexists. split; [reflexivity | split; [reflexivity|]].
    cbn. now rewrite <- !app_assoc. }
  destruct (screenshot env _) as [m4|]; cbn [isNone andb].
  { eexists. split; [reflexivity | split; [reflexivity|]].
    cbn. now rewrite <- !app_assoc. }
  eexists. split; [reflexivity | split; [reflexivity|]].
  cbn. now rewrite <- !app_assoc.
Qed.

(** A run that reaches the capture step: the snapshot succeeds, the
    calls of the step are those of [captureCalls] at the clock reading
    at which the step starts, and no other call of the run resizes the
    page or takes a screenshot. *)
Lemma scrape_captures (env : Env) (params : Params) (u : Url.t)
    (status : Z) (statusText : string) (s : State) :
  Url.parse (p_url params) = Some u ->
  validProtocol u = true ->
  robotsPass env params u = true ->
  launch env = None ->
  goto env (p_url params) = GotoResponse true status statusText ->
  p_takeScreenshots params = true ->
  exists s' before after,
    WebScraper.scrape env params s = (Normal (result s'), s')
    /\ success (result s') = true
    /\ screenshots (result s')
       = expectedScreenshots env (p_outputDir params)
           (p_desktopViewport params) (p_mobileViewport params)
           (Url.hostname u) (clock s + elapsedTotal env before)
    /\ trace s'
       = (trace s ++ before
          ++ captureCalls env (p_outputDir params)
               (p_desktopViewport params) (p_mobileViewport params)
               (Url.hostname u) (clock s + elapsedTotal env before)
          ++ after)%list
    /\ filter isCapture before = []
    /\ filter isCapture after = [].
Proof.
  intros Hp Hv Hrobots Hlaunch Hgoto Hshots.
  unfold WebScraper.scrape.
  rewrite (bind_Normal _ _ s s (clock s)) by reflexivity.
  unfold try_finally, try_catch.
  unfold bind at 1.
  rewrite (bind_Normal _ _ _ _ _ (validateUrl_ok env params u s Hp Hv)).
  rewrite (bind_Normal _ _ _ _ _ (createDirectoryStructure_run env _ s)).
  pose proof (mkdirs_grow env (FileManager.directories (p_outputDir params)) s) as G1.
  set (s1 := fold_left (afterMkdir env) (FileManager.directories (p_outputDir params)) s)
    in *.
  clearbody s1.
  destruct (checkRobotsTxt_pass env params u s1 Hp Hrobots) as (s2 & Hrun2 & _).
  pose proof (quiet_checkRobotsTxt env params s1) as G2.
  rewrite Hrun2 in G2. cbn [snd] in G2.
  rewrite (bind_Normal _ _ _ _ _ Hrun2).
  rewrite (bind_Normal _ _ _ _ _ (launchBrowser_ok env s2 Hlaunch)).
  rewrite (bind_Normal _ _ _ _ _ (scrapePage_ok env params status statusText _ Hgoto)).
  set (s4 := set_result _ (afterCall env (EvWait 2000) _)).
  assert (G4 : grows env s2 s4).
  { subst s4. exists [EvLaunch; EvGoto (p_url params); EvWait 2000].
    cbn. rewrite <- !app_assoc. repeat split. lia. }
  assert (Hhtml4 : html (scrapedData (result s4)) = Some (pageContent env))
    by reflexivity.
  clearbody s4.
  assert (H5 : exists s5,
             (if p_downloadAssets params
              then WebScraper.processAssets env params else ret tt) s4
             = (Normal tt, s5)
             /\ html (scrapedData (result s5)) = Some (pageContent env)
             /\ grows env s4 s5).
  { destruct (p_downloadAssets params).
    - destruct (processAssets_returns env params u s4 Hp)
        as (m & st & s5 & Hrun5 & Hres5 & _).
      pose proof (quiet_processAssets env params s4) as G5.
      rewrite Hrun5 in G5. cbn [snd] in G5.
      exists s5. rewrite Hres5. repeat split; [exact Hrun5 | exact Hhtml4 | exact G5].
    - exists s4. repeat split; [exact Hhtml4 | apply grows_refl]. }
  destruct H5 as (s5 & Hrun5 & Hhtml5 & G5).
  rewrite (bind_Normal _ _ _ _ _ Hrun5).
  rewrite Hshots.
  assert (H6 : exists s6,
             WebScraper.captureScreenshots env params s5 = (Normal tt, s6)
             /\ result s6
                = set_screenshots
                    (expectedScreenshots env (p_outputDir params)
                       (p_desktopViewport params) (p_mobileViewport params)
                       (Url.hostname u) (clock s5))
                    (result s5)
             /\ trace s6
                = (trace s5
                   ++ captureCalls env (p_outputDir params)
                        (p_desktopViewport params) (p_mobileViewport params)
                        (Url.hostname u) (clock s5))%list).
  { unfold WebScraper.captureScreenshots, new_URL. rewrite Hp.
    destruct (captureScreenshots_calls env (p_outputDir params)
                (p_desktopViewport params) (p_mobileViewport params)
                (Url.hostname u) s5) as (s6 & Hrun6 & Hres6 & Htrace6).
    unfold bind at 1. unfold ret at 1. cbv beta iota.
    rewrite (bind_Normal _ _ _ _ _ Hrun6).
    unfold updateResult, modify. cbn [snd].
    eexists. split; [reflexivity|]. cbn [result set_result trace].
    rewrite Hres6. split; [reflexivity | exact Htrace6]. }
  destruct H6 as (s6 & Hrun6 & Hres6 & Htrace6).
  rewrite (bind_Normal _ _ _ _ _ Hrun6).
  assert (Hhtml6 : html (scrapedData (result s6)) = Some (pageContent env)).
  { rewrite Hres6. exact Hhtml5. }
  destruct (saveResults_returns env params _ s6 Hhtml6) as (s7 & Hrun7 & Hres7 & _).
  pose proof (quiet_saveResults env params s6) as G7.
  rewrite Hrun7 in G7. cbn [snd] in G7.
  rewrite (bind_Normal _ _ _ _ _ Hrun7).
  unfold WebScraper.setProcessingTime, updateResult, Date_now, bind, modify, get, ret.
  cbv beta iota. rewrite cleanup_run. cbn [snd].
  match goal with
  | |- context [afterCleanup env ?x] =>
      set (X := x);
      pose proof (quiet_cleanup env X) as G8;
      rewrite cleanup_run in G8; cbn [snd] in G8;
      destruct (afterCleanup_same env X) as (Hr & _);
      set (Y := afterCleanup env X) in *
  end.
  assert (G78 : grows env s6 Y).
  { eapply grows_trans; [exact G7|]. eapply grows_trans; [|exact G8].
    subst X. apply grows_same; reflexivity. }
  pose proof (grows_trans env _ _ _ G1
                (grows_trans env _ _ _ G2
                   (grows_trans env _ _ _ G4 G5))) as G15.
  destruct G15 as (before & Hb1 & Hb2 & Hb3).
  destruct G78 as (after & Ha1 & _ & Ha3).
  exists Y, before, after. clearbody Y.
  split; [reflexivity|]. rewrite Hr. subst X.
  cbn [result set_result]. rewrite Hres7, Hres6, <- Hb2.
  repeat split.
  - rewrite Ha1, Htrace6, Hb1. now rewrite <- !app_assoc.
  - exact Hb3.
  - exact Ha3.
Qed.

(* ------------------------------------------------------------------ *)
(** ** The claims                                                      *)
(* ------------------------------------------------------------------ *)

(** Two references whose canonical URLs agree: [removeDuplicates] keeps
    the first, whatever the literal of the second. *)
Lemma removeDuplicates_keeps_first (a : Asset) (literal : option string) :
  AssetManager.removeDuplicates
    (AssetManager.flattenAssets
       (mkAssets [a; mkAsset (url a) (alt a) literal None] [] [] []))
  = [typed a images].
Proof.
  unfold AssetManager.removeDuplicates, AssetManager.flattenAssets, filterIndexed.
  cbn. rewrite String.eqb_refl. reflexivity.
Qed.

Lemma get_set_other {V} (k k' : string) (v : V) (o : JsObject V) :
  k <> k' -> Obj.get k (Obj.set k' v o) = Obj.get k o.
Proof.
  intros Hk. induction o as [|[k0 v0] o IH]; cbn [Obj.set Obj.get].
  - destruct (String.eqb_spec k k'); [contradiction | reflexivity].
  - destruct (String.eqb_spec k' k0) as [->|Hk0]; cbn [Obj.get].
    + destruct (String.eqb_spec k k0); [contradiction | reflexivity].
    + destruct (String.eqb_spec k k0); [reflexivity | exact IH].
Qed.

Lemma get_assign_other {V} (k k' : string) (v : V) (o : JsObject V) :
  k <> k' -> Obj.get k (Obj.assign k' v o) = Obj.get k o.
Proof.
  intros Hk. unfold Obj.assign.
  destruct (String.eqb k' "__proto__"); [reflexivity | now apply get_set_other].
Qed.

Lemma get_setIfTruthy_other (k : string) (key : option string) (v : string)
    (o : JsObject string) :
  key <> Some k -> Obj.get k (setIfTruthy key v o) = Obj.get k o.
Proof.
  intros Hk. unfold setIfTruthy. destruct key as [k'|]; [|reflexivity].
  destruct (Js.truthy (Some k')); [|reflexivity].
  apply get_assign_other. intros ->. now apply Hk.
Qed.

(** A second reference to the canonical URL of the first adds no key: the
    keys of the mapping are among the canonical URL and the literals of
    the first reference. *)
Lemma duplicate_adds_no_key (env : Env) (outputDir : string) (a : Asset)
    (literal : option string) (userAgent : string) (s : State) (k : string) :
  exists mapping stats s',
    AssetManager.downloadAndMapAssets env outputDir
      (mkAssets [a; mkAsset (url a) (alt a) literal None] [] [] []) userAgent s
    = (Normal (mapping, stats), s')
    /\ (Obj.get k mapping = None
        \/ k = url a \/ originalSrc a = Some k \/ originalHref a = Some k).
Proof.
  unfold AssetManager.downloadAndMapAssets.
  rewrite removeDuplicates_keeps_first.
  cbn [for_of_with]. unfold bind at 1. unfold try_catch. unfold bind at 1.
  pose proof (downloadSingleAsset_outcome env outputDir (typed a images) userAgent s)
    as [_ Hd].
  destruct (AssetManager.downloadSingleAsset env outputDir (typed a images) userAgent s)
    as [[d|msg] s1]; cbn [fst] in Hd.
  - rewrite Hd. cbn [base]. unfold ret. do 3 eexists. split; [reflexivity|].
    destruct (String.eqb_spec k (url a)) as [->|Hurl]; [right; left; reflexivity|].
    destruct (originalSrc a) as [src|] eqn:Hsrc.
    + destruct (String.eqb_spec k src) as [->|Hne]; [right; right; left; reflexivity|].
      destruct (originalHref a) as [href|] eqn:Hhref.
      * destruct (String.eqb_spec k href) as [->|Hne2]; [right; right; right; reflexivity|].
        left. rewrite !get_setIfTruthy_other, get_assign_other by congruence.
        reflexivity.
      * left. rewrite !get_setIfTruthy_other, get_assign_other by congruence.
        reflexivity.
    + destruct (originalHref a) as [href|] eqn:Hhref.
      * destruct (String.eqb_spec k href) as [->|Hne2]; [right; right; right; reflexivity|].
        left. rewrite !get_setIfTruthy_other, get_assign_other by congruence.
        reflexivity.
      * left. rewrite !get_setIfTruthy_other, get_assign_other by congruence.
        reflexivity.
  - unfold log, modify, bind, ret. do 3 eexists. split; [reflexivity|].
    left. reflexivity.
Qed.

(** C1 (the code departs from the claim). A page shows one image twice,
    as [logo.png] and as [/logo.png]; both resolve to
    [https://example.com/logo.png], which downloads. The mapping holds
    the canonical URL and the first literal, mapped to one path; the
    second literal is no key of it, and the saved markup still carries
    [src='/logo.png']. *)
Theorem C1_later_literal_not_mapped :
  let env := site None true sameImageTwice sameImageTwiceHtml serve
                  noCaptureError usualLatency in
  let r := fst (WebScraper.execute env (request "https://example.com/")
                  (boot 1700000000000)) in
  fetch env "https://example.com/logo.png" = FetchResponse true 200 "OK" 1024
  /\ success r = true
  /\ Obj.get "https://example.com/logo.png" (assetMapping r)
     = Some "assets/images/logo-5f946689.png"
  /\ Obj.get "logo.png" (assetMapping r) = Some "assets/images/logo-5f946689.png"
  /\ Obj.get "/logo.png" (assetMapping r) = None
  /\ html (scrapedData r)
     = Some ("<img src=" ++ Js.q ++ "assets/images/logo-5f946689.png" ++ Js.q
             ++ "><img src='/logo.png'>").
Proof. vm_compute. repeat split. Qed.

(** C2 (the code departs from the claim). The name is made from the path
    of the URL and the clock alone. [logoV1] and [logoV2] differ in their
    query only, so they are named alike at any one clock reading; and the
    eight digits kept of the hash also agree for the readings
    1700000099334 and 1700000114609. On a server that answers after
    14975 ms the downloader, started at the first reading, names the
    second URL at the second one: it finds the first file, fetches
    nothing, and maps both URLs to that file. *)
Theorem C2_distinct_urls_same_filename :
  logoV1 <> logoV2
  /\ option_map Url.pathname (Url.parse logoV1) = Some "/logo.png"
  /\ option_map Url.pathname (Url.parse logoV2) = Some "/logo.png"
  /\ (forall (now : Z) (t : AssetType) (p1 p2 : Url.t),
        Url.parse logoV1 = Some p1 -> Url.parse logoV2 = Some p2 ->
        AssetNamer.filenameAt now (Url.pathname p1) t
        = AssetNamer.filenameAt now (Url.pathname p2) t)
  /\ AssetNamer.filenameAt 1700000099334 "/logo.png" images = "logo-aa356d9a.png"
  /\ AssetNamer.filenameAt 1700000114609 "/logo.png" images = "logo-aa356d9a.png"
  /\ let env := site None true twoVersions "" serve noCaptureError slowLatency in
     let out := AssetManager.downloadAndMapAssets env "./scraped-data" twoVersions
                  "Mozilla/5.0" (ready env "./scraped-data" 1700000099334) in
     fst out
     = Normal ([(logoV1, "assets/images/logo-aa356d9a.png");
                ("logo.png?v=1", "assets/images/logo-aa356d9a.png");
                (logoV2, "assets/images/logo-aa356d9a.png");
                ("logo.png?v=2", "assets/images/logo-aa356d9a.png")],
               mkStats 2 2 0)
     /\ countFetches logoV1 (trace (snd out)) = 1%nat
     /\ countFetches logoV2 (trace (snd out)) = 0%nat.
Proof.
  split; [discriminate|].
  split; [vm_compute; reflexivity|].
  split; [vm_compute; reflexivity|].
  split.
  { intros now t p1 p2 H1 H2.
    assert (E1 : Url.parse logoV1
                 = Some (Url.mk "https:" "cdn.example.com" "cdn.example.com" "/logo.png"))
      by (vm_compute; reflexivity).
    assert (E2 : Url.parse logoV2
                 = Some (Url.mk "https:" "cdn.example.com" "cdn.example.com" "/logo.png"))
      by (vm_compute; reflexivity).
    rewrite E1 in H1. rewrite E2 in H2.
    injection H1 as <-. injection H2 as <-. reflexivity. }
  vm_compute. repeat split.
Qed.

(** When the file a download would create is there, nothing is fetched:
    the call returns a success of size 0 and leaves the world as it
    is. *)
Lemma downloadSingleAsset_skips (env : Env) (outputDir : string)
    (asset : TypedAsset) (userAgent : string) (u : Url.t) (s : State) :
  Url.parse (url (base asset)) = Some u ->
  existsb
    (String.eqb
       (Path.join [FileManager.getAssetPath outputDir (Some (type asset));
                   AssetNamer.filenameAt (clock s) (Url.pathname u) (type asset)]))
    (files s) = true ->
  AssetManager.downloadSingleAsset env outputDir asset userAgent s
  = (Normal
       (mkDownload true
          (AssetNamer.filenameAt (clock s) (Url.pathname u) (type asset))
          (Path.join [CONFIG.DIRECTORIES.ASSETS; dirName (type asset);
                      AssetNamer.filenameAt (clock s) (Url.pathname u) (type asset)])
          0),
     s).
Proof.
  intros Hp Hfile.
  unfold AssetManager.downloadSingleAsset, new_URL. rewrite Hp.
  unfold bind at 1. unfold ret at 1. cbv beta iota.
  unfold AssetNamer.generateFilename, Date_now, FileManager.fileExists, bind, get, ret.
  cbv beta iota. now rewrite Hfile.
Qed.

(** C3 (the code departs from the claim). The same page is scraped twice
    into the same directory. The first run stores [a.png] under a name
    made at its clock reading; the second run, later, makes another
    name, does not find it, fetches the image again and stores a second
    copy. In both runs the [downloadedAssets] count of the result is
    0. *)
Theorem C3_rerun_fetches_again :
  let env := site None true threeImages threeImagesHtml serve
                  noCaptureError usualLatency in
  let params := request "https://example.com/" in
  let first := WebScraper.execute env params (boot 1700000000000) in
  let second := WebScraper.execute env params (snd first) in
  success (fst first) = true
  /\ success (fst second) = true
  /\ countFetches "https://example.com/a.png" (trace (snd first)) = 1%nat
  /\ existsb (String.eqb "scraped-data/assets/images/a-db2504f1.png")
             (files (snd first)) = true
  /\ countFetches "https://example.com/a.png" (trace (snd second)) = 2%nat
  /\ existsb (String.eqb "scraped-data/assets/images/a-db2504f1.png")
             (files (snd second)) = true
  /\ existsb (String.eqb "scraped-data/assets/images/a-17d68a57.png")
             (files (snd second)) = true
  /\ Obj.get "a.png" (assetMapping (fst first))
     = Some "assets/images/a-db2504f1.png"
  /\ Obj.get "a.png" (assetMapping (fst second))
     = Some "assets/images/a-17d68a57.png"
  /\ Obj.get "downloadedAssets" (statistics (fst first)) = Some 0
  /\ Obj.get "downloadedAssets" (statistics (fst second)) = Some 0.
Proof. vm_compute. repeat split. Qed.

(** C4, the claim as stated fails. The desktop capture throws; the mobile
    capture would go through (neither resizing to the mobile viewport
    nor a capture into the mobile file throws). The mobile slot is null
    all the same: the mobile viewport is never set, no mobile capture is
    made. The snapshot itself succeeds. *)
Lemma C4_desktop_failure_empties_mobile_slot :
  let env := site None true threeImages threeImagesHtml serve
                  desktopCaptureFails usualLatency in
  let out := WebScraper.execute env (request "https://example.com/")
               (boot 1700000000000) in
  captureOk env (mkViewport 1920 1080)
    "scraped-data/screenshots/example.com-desktop-1700000002931.png" = false
  /\ captureOk env (mkViewport 375 667)
       "scraped-data/screenshots/example.com-mobile-1700000002931.png" = true
  /\ screenshots (fst out) = mkScreenshots None None
  /\ filter (fun e => match e with
                      | EvSetViewport _ | EvScreenshot _ => true
                      | _ => false
                      end) (trace (snd out))
     = [EvSetViewport (mkViewport 1920 1080);
        EvScreenshot "scraped-data/screenshots/example.com-desktop-1700000002931.png"]
  /\ success (fst out) = true.
Proof. vm_compute. repeat split. Qed.

(** C4, amended. The two captures sit in one guarded block, desktop
    first. In a run that reaches the screenshot step (valid URL, robots
    check passed, browser started, page loaded) the snapshot succeeds
    whatever the captures do. With [before] the calls the run makes
    before the step, [t] the clock reading at which the step starts,
    [calls] the calls of the step and [after] those that follow, no call
    outside the step resizes the page or takes a screenshot, and: a
    failing desktop capture leaves both slots null and the step makes no
    call for the mobile capture; a desktop capture that goes through
    followed by a failing mobile one leaves the desktop path and a null
    mobile slot; two captures that go through leave both paths. *)
Theorem C4_captures_share_one_guard (env : Env) (params : Params) (u : Url.t)
    (status : Z) (statusText : string) (s : State) :
  Url.parse (p_url params) = Some u ->
  validProtocol u = true ->
  robotsPass env params u = true ->
  launch env = None ->
  goto env (p_url params) = GotoResponse true status statusText ->
  p_takeScreenshots params = true ->
  success (fst (WebScraper.execute env params s)) = true
  /\ exists before after : list Event,
       let t := clock s + elapsedTotal env before in
       let shots := screenshots (fst (WebScraper.execute env params s)) in
       let desktopPath :=
         capturePath (p_outputDir params) (Url.hostname u) "desktop" t in
       let mobilePath :=
         capturePath (p_outputDir params) (Url.hostname u) "mobile" t in
       let desktopOk := captureOk env (p_desktopViewport params) desktopPath in
       let mobileOk := captureOk env (p_mobileViewport params) mobilePath in
       let calls :=
         captureCalls env (p_outputDir params) (p_desktopViewport params)
           (p_mobileViewport params) (Url.hostname u) t in
       trace (snd (WebScraper.execute env params s))
       = (trace s ++ before ++ calls ++ after)%list
       /\ filter isCapture before = []
       /\ filter isCapture after = []
       /\ (desktopOk = false ->
           shots = mkScreenshots None None
           /\ filter isCapture calls
              = EvSetViewport (p_desktopViewport params)
                :: if isNone (setViewportSize env (p_desktopViewport params))
                   then [EvScreenshot desktopPath] else [])
       /\ (desktopOk = true -> mobileOk = false ->
           shots = mkScreenshots (Some desktopPath) None
           /\ filter isCapture calls
              = EvSetViewport (p_desktopViewport params)
                :: EvScreenshot desktopPath
                :: EvSetViewport (p_mobileViewport params)
                :: if isNone (setViewportSize env (p_mobileViewport params))
                   then [EvScreenshot mobilePath] else [])
       /\ (desktopOk = true -> mobileOk = true ->
           shots = mkScreenshots (Some desktopPath) (Some mobilePath)
           /\ filter isCapture calls
              = [EvSetViewport (p_desktopViewport params);
                 EvScreenshot desktopPath;
                 EvSetViewport (p_mobileViewport params);
                 EvScreenshot mobilePath]).
Proof.
  intros Hp Hv Hrobots Hlaunch Hgoto Hshots.
  destruct (scrape_captures env params u status statusText
              (set_browser false (set_result (WebScraper.initialResult params) s))
              Hp Hv Hrobots Hlaunch Hgoto Hshots)
    as (s' & before & after & Hrun & Hsuccess & Hslots & Htrace & Hb & Ha).
  rewrite (execute_scrape env params s _ s' Hrun). cbn [fst snd].
  split; [exact Hsuccess|].
  exists before, after. cbv zeta.
  cbn [clock trace set_browser set_result] in Hslots, Htrace.
  rewrite Hslots, Htrace.
  split; [reflexivity|]. split; [exact Hb|]. split; [exact Ha|].
  unfold expectedScreenshots, captureCalls, captureOk.
  destruct (setViewportSize env (p_desktopViewport params));
    destruct (screenshot env
                (capturePath (p_outputDir params) (Url.hostname u) "desktop" _));
    destruct (setViewportSize env (p_mobileViewport params));
    destruct (screenshot env
                (capturePath (p_outputDir params) (Url.hostname u) "mobile" _));
    cbn [isNone andb filter isCapture];
    repeat split; intros; try discriminate; reflexivity.
Qed.

Lemma C4_captures_share_one_guard_witness :
  let env := site None true threeImages threeImagesHtml serve
                  mobileCaptureFails usualLatency in
  let params := request "https://example.com/" in
  let s := boot 1700000000000 in
  success (fst (WebScraper.execute env params s)) = true
  /\ exists before after : list Event,
       let t := clock s + elapsedTotal env before in
       let shots := screenshots (fst (WebScraper.execute env params s)) in
       let desktopPath := capturePath "./scraped-data" "example.com" "desktop" t in
       let mobilePath := capturePath "./scraped-data" "example.com" "mobile" t in
       let desktopOk := captureOk env (mkViewport 1920 1080) desktopPath in
       let mobileOk := captureOk env (mkViewport 375 667) mobilePath in
       let calls :=
         captureCalls env "./scraped-data" (mkViewport 1920 1080)
           (mkViewport 375 667) "example.com" t in
       trace (snd (WebScraper.execute env params s))
       = (trace s ++ before ++ calls ++ after)%list
       /\ filter isCapture before = []
       /\ filter isCapture after = []
       /\ (desktopOk = false ->
           shots = mkScreenshots None None
           /\ filter isCapture calls
              = EvSetViewport (mkViewport 1920 1080)
                :: if isNone (setViewportSize env (mkViewport 1920 1080))
                   then [EvScreenshot desktopPath] else [])
       /\ (desktopOk = true -> mobileOk = false ->
           shots = mkScreenshots (Some desktopPath) None
           /\ filter isCapture calls
              = EvSetViewport (mkViewport 1920 1080)
                :: EvScreenshot desktopPath
                :: EvSetViewport (mkViewport 375 667)
                :: if isNone (setViewportSize env (mkViewport 375 667))
                   then [EvScreenshot mobilePath] else [])
       /\ (desktopOk = true -> mobileOk = true ->
           shots = mkScreenshots (Some desktopPath) (Some mobilePath)
           /\ filter isCapture calls
              = [EvSetViewport (mkViewport 1920 1080);
                 EvScreenshot desktopPath;
                 EvSetViewport (mkViewport 375 667);
                 EvScreenshot mobilePath]).
Proof.
  exact (C4_captures_share_one_guard
           (site None true threeImages threeImagesHtml serve
                 mobileCaptureFails usualLatency)
           (request "https://example.com/")
           (Url.mk "https:" "example.com" "example.com" "/")
           200 "OK" (boot 1700000000000)
           eq_refl eq_refl eq_refl eq_refl eq_refl eq_refl).
Defined.

(** C5 (the code departs from the claim). Three distinct images, one of
    which answers 404. The downloader goes on after the failure and its
    own counters read 3, 2 and 1; the snapshot succeeds. But the result
    keeps [totalAssets], [downloadedAssets] and [failedAssets] at 0: the
    counters are merged in under the names [total], [downloaded] and
    [failed]. *)
Theorem C5_counters_under_other_names :
  let env := site None true threeImages threeImagesHtml serve
                  noCaptureError usualLatency in
  let out := WebScraper.execute env (request "https://example.com/")
               (boot 1700000000000) in
  success (fst out) = true
  /\ countFetches "https://example.com/a.png" (trace (snd out)) = 1%nat
  /\ countFetches "https://example.com/missing.png" (trace (snd out)) = 1%nat
  /\ countFetches "https://example.com/c.png" (trace (snd out)) = 1%nat
  /\ statistics (fst out)
     = [("totalAssets", 0); ("downloadedAssets", 0); ("failedAssets", 0);
        ("processingTime", 6937);
        ("total", 3); ("downloaded", 2); ("failed", 1)]
  /\ message (fst out)
     = "Successfully scraped page and processed 0/0 assets in 6937ms".
Proof. vm_compute. repeat split. Qed.

(** C6. A URL whose scheme is neither http nor https is rejected by the
    validation: the result has [success] and [accessible] false and
    carries the validation message, and nothing was called, written or
    waited for. *)
Theorem C6_other_scheme_rejected (env : Env) (params : Params) (u : Url.t)
    (s : State) :
  Url.parse (p_url params) = Some u ->
  Url.protocol u <> "http:" ->
  Url.protocol u <> "https:" ->
  success (fst (WebScraper.execute env params s)) = false
  /\ accessible (fst (WebScraper.execute env params s)) = false
  /\ message (fst (WebScraper.execute env params s))
     = "Scraping error: Only HTTP and HTTPS URLs are supported"
  /\ trace (snd (WebScraper.execute env params s)) = trace s
  /\ files (snd (WebScraper.execute env params s)) = files s
  /\ clock (snd (WebScraper.execute env params s)) = clock s.
Proof.
  intros Hp Hhttp Hhttps.
  assert (Hv : validProtocol u = false).
  { unfold validProtocol. cbn [existsb].
    destruct (String.eqb_spec (Url.protocol u) "http:"); [contradiction|].
    destruct (String.eqb_spec (Url.protocol u) "https:"); [contradiction|].
    reflexivity. }
  destruct (scrape_rejects env params u s Hp Hv)
    as (H1 & H2 & _ & H4 & H5 & H6 & H7).
  repeat split; assumption.
Qed.

Lemma C6_other_scheme_rejected_witness :
  let env := site None true threeImages threeImagesHtml serve
                  noCaptureError usualLatency in
  let params := request "ftp://example.com/pub/file.txt" in
  let s := boot 1700000000000 in
  success (fst (WebScraper.execute env params s)) = false
  /\ accessible (fst (WebScraper.execute env params s)) = false
  /\ message (fst (WebScraper.execute env params s))
     = "Scraping error: Only HTTP and HTTPS URLs are supported"
  /\ trace (snd (WebScraper.execute env params s)) = trace s
  /\ files (snd (WebScraper.execute env params s)) = files s
  /\ clock (snd (WebScraper.execute env params s)) = clock s.
Proof.
  apply (C6_other_scheme_rejected
           (site None true threeImages threeImagesHtml serve
                 noCaptureError usualLatency)
           (request "ftp://example.com/pub/file.txt")
           (Url.mk "ftp:" "example.com" "example.com" "/pub/file.txt")
           (boot 1700000000000)).
  - vm_compute. reflexivity.
  - discriminate.
  - discriminate.
Defined.

(** Making directories and asking for the robots file is neither a
    navigation, nor a download, nor a write. *)
Lemma mkdirs_are_quiet (keep : Event -> bool) (dirs : list string) :
  (forall d, keep (EvMkdir d) = false) ->
  filter keep (map EvMkdir dirs) = [].
Proof.
  intros H. induction dirs as [|d dirs IH]; [reflexivity|].
  cbn [map filter]. now rewrite H.
Qed.

(** C7. With [respectRobots] on, a robots file that loads and disallows
    the URL aborts the run: [scrapingAllowed] and [success] are false,
    the message says so, and after the directories were made the only
    call is the load of the robots file: no browser start, no
    navigation, no fetch, no file or screenshot written. *)
Theorem C7_robots_disallow_aborts (env : Env) (params : Params) (u : Url.t)
    (s : State) :
  Url.parse (p_url params) = Some u ->
  Url.protocol u = "http:" \/ Url.protocol u = "https:" ->
  p_respectRobots params = true ->
  robotsLoad env (robotsUrlOf u) = None ->
  robotsIsAllowed env (p_url params) = false ->
  scrapingAllowed (fst (WebScraper.execute env params s)) = false
  /\ success (fst (WebScraper.execute env params s)) = false
  /\ message (fst (WebScraper.execute env params s))
     = "Scraping error: Access blocked by robots.txt"
  /\ trace (snd (WebScraper.execute env params s))
     = (trace s ++ map EvMkdir (FileManager.directories (p_outputDir params))
        ++ [EvRobotsLoad (robotsUrlOf u)])%list
  /\ filter (fun e => isNavigation e || isDownload e || isWrite e)
            (trace (snd (WebScraper.execute env params s)))
     = filter (fun e => isNavigation e || isDownload e || isWrite e) (trace s)
  /\ files (snd (WebScraper.execute env params s))
     = files (fold_left (afterMkdir env)
                (FileManager.directories (p_outputDir params)) s).
Proof.
  intros Hp Hproto Hrespect Hload Hallowed.
  assert (Hv : validProtocol u = true).
  { unfold validProtocol. cbn [existsb].
    destruct Hproto as [-> | ->]; reflexivity. }
  destruct (scrape_stops_at_robots env params u "Access blocked by robots.txt" s Hp Hv)
    as (H1 & _ & H3 & H4 & H5 & H6).
  { intros x. now apply checkRobotsTxt_disallowed. }
  repeat split; try assumption.
  rewrite H5, !filter_app.
  rewrite mkdirs_are_quiet by reflexivity.
  cbn [filter isNavigation isDownload isWrite orb app].
  now rewrite app_nil_r.
Qed.

Lemma C7_robots_disallow_aborts_witness :
  let env := site None false threeImages threeImagesHtml serve
                  noCaptureError usualLatency in
  let params := request "https://example.com/private/" in
  let u := Url.mk "https:" "example.com" "example.com" "/private/" in
  let s := boot 1700000000000 in
  scrapingAllowed (fst (WebScraper.execute env params s)) = false
  /\ success (fst (WebScraper.execute env params s)) = false
  /\ message (fst (WebScraper.execute env params s))
     = "Scraping error: Access blocked by robots.txt"
  /\ trace (snd (WebScraper.execute env params s))
     = (trace s ++ map EvMkdir (FileManager.directories (p_outputDir params))
        ++ [EvRobotsLoad (robotsUrlOf u)])%list
  /\ filter (fun e => isNavigation e || isDownload e || isWrite e)
            (trace (snd (WebScraper.execute env params s)))
     = filter (fun e => isNavigation e || isDownload e || isWrite e) (trace s)
  /\ files (snd (WebScraper.execute env params s))
     = files (fold_left (afterMkdir env)
                (FileManager.directories (p_outputDir params)) s).
Proof.
  apply (C7_robots_disallow_aborts
           (site None false threeImages threeImagesHtml serve
                 noCaptureError usualLatency)
           (request "https://example.com/private/")
           (Url.mk "https:" "example.com" "example.com" "/private/")
           (boot 1700000000000)).
  - vm_compute. reflexivity.
  - right. reflexivity.
  - reflexivity.
  - reflexivity.
  - reflexivity.
Defined.

(** C8 (the code departs from the claim). The robots file cannot be
    loaded. When the error reads "getaddrinfo ENOTFOUND example.com" the
    run goes on and succeeds, with a warning. When it reads "Request
    blocked by upstream proxy" the handler takes it for its own
    disallow error and throws it again: the run aborts before the
    browser is started, with that text as its message. *)
Theorem C8_load_error_text_decides :
  let unreachable := site (Some "getaddrinfo ENOTFOUND example.com") true
                   threeImages threeImagesHtml serve noCaptureError usualLatency in
  let proxied := site (Some "Request blocked by upstream proxy") true
                   threeImages threeImagesHtml serve noCaptureError usualLatency in
  let params := request "https://example.com/" in
  let went := WebScraper.execute unreachable params (boot 1700000000000) in
  let stopped := WebScraper.execute proxied params (boot 1700000000000) in
  success (fst went) = true
  /\ existsb isNavigation (trace (snd went)) = true
  /\ existsb (fun l => String.eqb (snd l) "robots.txt not accessible - proceeding")
             (console (snd went)) = true
  /\ success (fst stopped) = false
  /\ message (fst stopped) = "Scraping error: Request blocked by upstream proxy"
  /\ existsb isNavigation (trace (snd stopped)) = false
  /\ existsb (fun l => String.eqb (snd l) "robots.txt not accessible - proceeding")
             (console (snd stopped)) = false.
Proof. vm_compute. repeat split. Qed.

(** C9. With an empty mapping the rewriter returns the markup it was
    given, character for character. *)
Theorem C9_empty_mapping_is_identity (markup : string) :
  AssetMapper.replaceAssetUrls markup [] = Some markup.
Proof. reflexivity. Qed.

(** C10. The rewriter of [scraper.js] and the one of [cli.js] return
    the same output for every markup and every mapping, and both do
    return. *)
Theorem C10_rewriters_agree (markup : string) (assetMapping : JsObject string) :
  AssetMapper.replaceAssetUrls markup assetMapping
  = Cli.replaceAssetUrls markup assetMapping
  /\ Cli.replaceAssetUrls markup assetMapping
     = Some (fold_left rewriteOne (Obj.entries assetMapping) markup).
Proof.
  split.
  - unfold AssetMapper.replaceAssetUrls, Cli.replaceAssetUrls, Cli.escapeRegExp.
    reflexivity.
  - unfold Cli.replaceAssetUrls. apply replaceAssetUrls_fold.
Qed.

(* ------------------------------------------------------------------ *)
(** ** Further properties: [removeDuplicates]                          *)
(* ------------------------------------------------------------------ *)

Lemma findIndex_app_hit {A} (pred : A -> bool) (pre : list A) (x : A)
    (suf : list A) :
  pred x = true ->
  sameIndex (List.length pre) (findIndex pred (pre ++ x :: suf)%list)
  = negb (existsb pred pre).
Proof.
  intros Hx.
  assert (H : forall n,
             sameIndex (n + List.length pre)
               (option_map (Nat.add n) (findIndex pred (pre ++ x :: suf)%list))
             = negb (existsb pred pre)).
  { induction pre as [|a pre IH]; intros n; cbn [app findIndex existsb List.length].
    - rewrite Hx. cbn. rewrite Nat.add_0_r. now rewrite Nat.eqb_refl.
    - destruct (pred a) eqn:Ha; cbn [option_map sameIndex orb negb].
      + rewrite Nat.add_0_r. apply Nat.eqb_neq. lia.
      + specialize (IH (S n)).
        replace (S n + List.length pre)%nat with (n + S (List.length pre))%nat in IH by lia.
        rewrite <- IH.
        destruct (findIndex pred (pre ++ x :: suf)%list) as [i|]; cbn; [|reflexivity].
        now replace (n + S i)%nat with (S (n + i))%nat by lia. }
  specialize (H O). cbn [Nat.add] in H.
  destruct (findIndex pred (pre ++ x :: suf)%list); exact H.
Qed.

Lemma filterIndexed_from (pre suf : list TypedAsset) (seen : list string) :
  (forall u, existsb (String.eqb u) seen
             = existsb (fun a => String.eqb (urlOf a) u) pre) ->
  map snd
    (filter
       (fun ix : nat * TypedAsset =>
          sameIndex (fst ix)
            (findIndex (fun a => String.eqb (url (base a)) (url (base (snd ix))))
                       (pre ++ suf)%list))
       (combine (seq (List.length pre) (List.length suf)) suf))
  = firstOccurrences seen suf.
Proof.
  revert pre seen. induction suf as [|x suf IH]; intros pre seen Hseen; [reflexivity|].
  cbn [List.length seq combine filter fst snd firstOccurrences].
  rewrite findIndex_app_hit by apply String.eqb_refl.
  rewrite Hseen. unfold urlOf at 1.
  assert (Hnext :
    map snd
      (filter
         (fun ix : nat * TypedAsset =>
            sameIndex (fst ix)
              (findIndex (fun a => String.eqb (url (base a)) (url (base (snd ix))))
                         (pre ++ x :: suf)%list))
         (combine (seq (S (List.length pre)) (List.length suf)) suf))
    = firstOccurrences
        (if existsb (fun a => String.eqb (url (base a)) (url (base x))) pre
         then seen else url (base x) :: seen) suf).
  { replace (pre ++ x :: suf)%list with ((pre ++ [x]) ++ suf)%list
      by now rewrite <- app_assoc.
    replace (S (List.length pre)) with (List.length (pre ++ [x])%list)
      by (rewrite length_app; cbn; lia).
    apply IH. intros u. rewrite existsb_app. cbn [existsb].
    rewrite orb_false_r. unfold urlOf.
    destruct (existsb (fun a => String.eqb (url (base a)) (url (base x))) pre) eqn:E.
    - rewrite Hseen. unfold urlOf.
      destruct (String.eqb_spec (url (base x)) u) as [<-|]; [|now rewrite orb_false_r].
      rewrite E. reflexivity.
    - cbn [existsb]. rewrite Hseen. unfold urlOf.
      rewrite (String.eqb_sym u). apply orb_comm. }
  destruct (existsb (fun a => String.eqb (url (base a)) (url (base x))) pre);
    cbn [negb map snd]; now rewrite Hnext.
Qed.

(** [removeDuplicates] is the pass that keeps the first reference of
    each canonical URL. *)
Lemma removeDuplicates_firstOccurrences (l : list TypedAsset) :
  AssetManager.removeDuplicates l = firstOccurrences [] l.
Proof.
  unfold AssetManager.removeDuplicates, filterIndexed.
  apply (filterIndexed_from [] l []). reflexivity.
Qed.

Lemma firstOccurrences_seen (seen : list string) (l : list TypedAsset)
    (x : TypedAsset) :
  In x (firstOccurrences seen l) ->
  In x l /\ existsb (String.eqb (urlOf x)) seen = false.
Proof.
  revert seen. induction l as [|a l IH]; intros seen Hx; [contradiction|].
  cbn [firstOccurrences] in Hx.
  destruct (existsb (String.eqb (url (base a))) seen) eqn:E.
  - destruct (IH seen Hx) as [H1 H2]. split; [now right | exact H2].
  - destruct Hx as [<-|Hx]; [split; [now left | exact E]|].
    destruct (IH _ Hx) as [H1 H2]. split; [now right|].
    cbn [existsb] in H2. now apply orb_false_elim in H2.
Qed.

Lemma firstOccurrences_NoDup (seen : list string) (l : list TypedAsset) :
  NoDup (map urlOf (firstOccurrences seen l)).
Proof.
  revert seen. induction l as [|a l IH]; intros seen; [constructor|].
  cbn [firstOccurrences].
  destruct (existsb (String.eqb (url (base a))) seen) eqn:E; [apply IH|].
  cbn [map]. constructor; [|apply IH].
  intros Hin. apply in_map_iff in Hin as (y & Hy & Hin).
  apply firstOccurrences_seen in Hin as [_ Hseen].
  cbn [existsb] in Hseen. apply orb_false_elim in Hseen as [Hne _].
  rewrite Hy in Hne. unfold urlOf in Hne. now rewrite String.eqb_refl in Hne.
Qed.

Lemma firstOccurrences_find (seen : list string) (l : list TypedAsset) (u : string) :
  find (fun a => String.eqb (urlOf a) u) (firstOccurrences seen l)
  = if existsb (String.eqb u) seen then None
    else find (fun a => String.eqb (urlOf a) u) l.
Proof.
  unfold urlOf.
  revert seen. induction l as [|a l IH]; intros seen.
  - cbn. now destruct (existsb (String.eqb u) seen).
  - cbn [firstOccurrences find].
    destruct (existsb (String.eqb (url (base a))) seen) eqn:E.
    + rewrite IH. destruct (existsb (String.eqb u) seen) eqn:Eu; [reflexivity|].
      destruct (String.eqb_spec (url (base a)) u) as [<-|]; [congruence | reflexivity].
    + cbn [find].
      destruct (String.eqb_spec (url (base a)) u) as [<-|Hne].
      * now rewrite E.
      * rewrite IH. cbn [existsb].
        destruct (String.eqb_spec u (url (base a))); [congruence|]. reflexivity.
Qed.

Lemma firstOccurrences_idem (seen : list string) (l : list TypedAsset) :
  firstOccurrences seen (firstOccurrences seen l) = firstOccurrences seen l.
Proof.
  revert seen. induction l as [|a l IH]; intros seen; [reflexivity|].
  cbn [firstOccurrences].
  destruct (existsb (String.eqb (url (base a))) seen) eqn:E; [apply IH|].
  cbn [firstOccurrences]. rewrite E. f_equal. apply IH.
Qed.

Lemma removeDuplicates_NoDup (assets : list TypedAsset) :
  NoDup (map urlOf (AssetManager.removeDuplicates assets)).
Proof.
  rewrite removeDuplicates_firstOccurrences. apply firstOccurrences_NoDup.
Qed.

(** X1. No two references kept by [removeDuplicates] have the same canonical
    URL, and every one of them is a reference of the input. *)
Theorem removeDuplicates_unique_urls (assets : list TypedAsset) :
  NoDup (map urlOf (AssetManager.removeDuplicates assets))
  /\ incl (AssetManager.removeDuplicates assets) assets.
Proof.
  rewrite removeDuplicates_firstOccurrences. split.
  - apply firstOccurrences_NoDup.
  - intros x Hx. now apply firstOccurrences_seen in Hx.
Qed.

(** X2. Looking a canonical URL up gives the same reference after
    [removeDuplicates] as before: no URL is lost, and of several
    references to one URL the first is the one kept. *)
Theorem removeDuplicates_first_wins (assets : list TypedAsset) (u : string) :
  find (fun a => String.eqb (urlOf a) u) (AssetManager.removeDuplicates assets)
  = find (fun a => String.eqb (urlOf a) u) assets.
Proof.
  rewrite removeDuplicates_firstOccurrences. apply (firstOccurrences_find [] assets u).
Qed.

(** X3. Removing duplicates twice changes nothing more. *)
Theorem removeDuplicates_idempotent (assets : list TypedAsset) :
  AssetManager.removeDuplicates (AssetManager.removeDuplicates assets)
  = AssetManager.removeDuplicates assets.
Proof.
  rewrite !removeDuplicates_firstOccurrences. apply firstOccurrences_idem.
Qed.

(* ------------------------------------------------------------------ *)
(** ** Further properties: the mapping                                 *)
(* ------------------------------------------------------------------ *)

Lemma downloadAndMapAssets_loop (env : Env) (outputDir : string) (page : Assets)
    (userAgent : string) :
  AssetManager.downloadAndMapAssets env outputDir page userAgent
  = for_of_with
      (AssetManager.removeDuplicates (AssetManager.flattenAssets page))
      ([], mkStats (Z.of_nat (List.length
             (AssetManager.removeDuplicates (AssetManager.flattenAssets page)))) 0 0)
      (downloadTurn env outputDir userAgent).
Proof. reflexivity. Qed.

Lemma for_of_with_app {A L} (l1 l2 : list A) (acc : L) (body : A -> L -> M L)
    (s : State) :
  for_of_with (l1 ++ l2) acc body s
  = bind (for_of_with l1 acc body) (fun acc' => for_of_with l2 acc' body) s.
Proof.
  revert acc s. induction l1 as [|x l1 IH]; intros acc s; [reflexivity|].
  cbn [app for_of_with]. unfold bind.
  destruct (body x acc s) as [[acc1|msg] s1]; [|reflexivity].
  rewrite IH. reflexivity.
Qed.

Lemma get_set_same {V} (k : string) (v : V) (o : JsObject V) :
  Obj.get k (Obj.set k v o) = Some v.
Proof.
  induction o as [|[k0 v0] o IH]; cbn [Obj.set Obj.get].
  - now rewrite String.eqb_refl.
  - destruct (String.eqb_spec k k0) as [<-|Hne]; cbn [Obj.get].
    + now rewrite String.eqb_refl.
    + destruct (String.eqb_spec k k0); [contradiction | exact IH].
Qed.

Ltac case_key x :=
  let E1 := fresh "E" in
  let E2 := fresh "E" in
  destruct (String.eqb x "") eqn:E1;
  destruct (String.eqb x "__proto__") eqn:E2.

Ltac settle_keys :=
  repeat (cbn [negb filter existsb app orb andb];
          repeat match goal with
                 | E : String.eqb ?x ?y = _ |- context [String.eqb ?x ?y] =>
                     rewrite E
                 end).

(** What the three assignments leave under a key. *)
Lemma get_written (k : string) (a : TypedAsset) (path : string)
    (mapping : JsObject string) :
  Obj.get k (written a path mapping)
  = if existsb (String.eqb k) (mappedKeys a) then Some path
    else Obj.get k mapping.
Proof.
  unfold written, mappedKeys, namesOf, setIfTruthy, Obj.assign, Js.truthy,
    optionList, urlOf.
  case_key (url (base a));
    destruct (originalSrc (base a)) as [src|];
    destruct (originalHref (base a)) as [href|];
    try case_key src; try case_key href;
    settle_keys;
    repeat match goal with
           | |- context [Obj.get k (Obj.set ?k' _ _)] =>
               let E := fresh "E" in
               destruct (String.eqb k k') eqn:E;
               [apply String.eqb_eq in E; subst k; rewrite get_set_same
               |rewrite (get_set_other k k') by (now apply String.eqb_neq);
                apply String.eqb_neq in E]
           end;
    repeat match goal with
           | |- context [String.eqb ?x ?x] => rewrite (String.eqb_refl x)
           | H : ?x <> ?y |- context [String.eqb ?x ?y] =>
               rewrite (proj2 (String.eqb_neq x y) H)
           end;
    cbn [orb]; rewrite ?orb_true_r; try reflexivity.
Qed.

Lemma downloadSingleAsset_fetchable (env : Env) (outputDir : string)
    (a : TypedAsset) (userAgent : string) (s : State) :
  fetchable env a = true ->
  exists d s',
    AssetManager.downloadSingleAsset env outputDir a userAgent s = (Normal d, s').
Proof.
  unfold fetchable, urlOf, AssetManager.downloadSingleAsset, new_URL, bind.
  destruct (Url.parse (url (base a))) as [u|]; [|discriminate].
  destruct (fetch env (url (base a))) as [msg|ok status statusText len];
    [discriminate|].
  destruct ok; [|discriminate]. intros _.
  cbn -[Path.join]. destruct (existsb _ (files s)); cbn -[Path.join];
    do 2 eexists; reflexivity.
Qed.

(** A turn never throws. It leaves the mapping as it was, or makes the
    three assignments for its reference; it makes them when the
    reference can be fetched. *)
Lemma downloadTurn_outcome (env : Env) (outputDir userAgent : string)
    (a : TypedAsset) (mapping : JsObject string) (stats : Stats) (s : State) :
  exists mapping' stats' s',
    downloadTurn env outputDir userAgent a (mapping, stats) s
    = (Normal (mapping', stats'), s')
    /\ (mapping' = mapping \/ exists path, mapping' = written a path mapping)
    /\ (fetchable env a = true -> exists path, mapping' = written a path mapping).
Proof.
  unfold downloadTurn, try_catch. unfold bind at 1.
  pose proof (downloadSingleAsset_outcome env outputDir a userAgent s) as [_ Hd].
  pose proof (downloadSingleAsset_fetchable env outputDir a userAgent s) as Hf.
  destruct (AssetManager.downloadSingleAsset env outputDir a userAgent s)
    as [[d|msg] s1]; cbn [fst] in Hd.
  - rewrite Hd. unfold ret. do 3 eexists. split; [reflexivity|].
    split; [right|intros _]; exists (d_relativePath d); reflexivity.
  - unfold log, modify, bind, ret. do 3 eexists. split; [reflexivity|].
    split; [now left|]. intros H. destruct (Hf H) as (d & s' & Heq). discriminate.
Qed.

(** The turns for references that are not known by [k] leave what is
    under [k]. *)
Lemma loop_keeps_key (env : Env) (outputDir userAgent : string) (k : string)
    (l : list TypedAsset) :
  (forall b, In b l -> existsb (String.eqb k) (mappedKeys b) = false) ->
  forall (mapping : JsObject string) (stats : Stats) (s : State),
  exists mapping' stats' s',
    for_of_with l (mapping, stats) (downloadTurn env outputDir userAgent) s
    = (Normal (mapping', stats'), s')
    /\ Obj.get k mapping' = Obj.get k mapping.
Proof.
  induction l as [|b l IH]; intros Hl mapping stats s.
  - do 3 eexists. split; reflexivity.
  - cbn [for_of_with].
    destruct (downloadTurn_outcome env outputDir userAgent b mapping stats s)
      as (m1 & st1 & s1 & Hrun & Hm1 & _).
    rewrite (bind_Normal _ _ _ _ _ Hrun).
    destruct (IH (fun x Hx => Hl x (or_intror Hx)) m1 st1 s1)
      as (m2 & st2 & s2 & Hrun2 & Hget).
    exists m2, st2, s2. split; [exact Hrun2|]. rewrite Hget.
    destruct Hm1 as [->|[path ->]]; [reflexivity|].
    rewrite get_written, (Hl b (or_introl eq_refl)). reflexivity.
Qed.

Lemma existsb_eqb_In (k : string) (l : list string) :
  existsb (String.eqb k) l = true <-> In k l.
Proof.
  rewrite existsb_exists. split.
  - intros (x & Hx & E). apply String.eqb_eq in E. now subst.
  - intros H. exists k. split; [exact H | apply String.eqb_refl].
Qed.

(** X4. For a reference that is kept and can be fetched, and whose names are
    those of no other kept reference, the mapping returned holds one
    local path under its canonical URL and under each of its literals. *)
Theorem downloaded_reference_is_mapped (env : Env) (outputDir : string)
    (page : Assets) (userAgent : string) (s : State) (a : TypedAsset) :
  In a (AssetManager.removeDuplicates (AssetManager.flattenAssets page)) ->
  fetchable env a = true ->
  (forall b,
      In b (AssetManager.removeDuplicates (AssetManager.flattenAssets page)) ->
      urlOf b <> urlOf a ->
      forall k, In k (mappedKeys a) -> ~ In k (mappedKeys b)) ->
  exists mapping stats s' path,
    AssetManager.downloadAndMapAssets env outputDir page userAgent s
    = (Normal (mapping, stats), s')
    /\ forall k, In k (mappedKeys a) -> Obj.get k mapping = Some path.
Proof.
  intros Hin Hfetch Hdisjoint.
  rewrite downloadAndMapAssets_loop.
  pose proof (removeDuplicates_NoDup (AssetManager.flattenAssets page))
    as Hnodup.
  set (uniq := AssetManager.removeDuplicates (AssetManager.flattenAssets page)) in *.
  generalize (mkStats (Z.of_nat (List.length uniq)) 0 0). intros stats0.
  destruct (in_split a uniq Hin) as (pre & post & Hsplit).
  assert (Hpost : forall b, In b post -> urlOf b <> urlOf a).
  { intros b Hb Heq. rewrite Hsplit, map_app in Hnodup. cbn [map] in Hnodup.
    apply NoDup_remove_2 in Hnodup. apply Hnodup, in_or_app. right.
    rewrite <- Heq. now apply in_map. }
  assert (Hsub : forall b, In b post -> In b uniq).
  { intros b Hb. rewrite Hsplit. apply in_or_app. right. now right. }
  clearbody uniq. subst uniq.
  rewrite for_of_with_app.
  destruct (download_loop env outputDir userAgent pre [] stats0 s)
    as (m0 & st0 & s0 & Hrun0 & _).
  change (for_of_with pre ([], stats0) (downloadTurn env outputDir userAgent) s
          = (Normal (m0, st0), s0)) in Hrun0.
  rewrite (bind_Normal _ _ _ _ _ Hrun0).
  cbn [for_of_with].
  destruct (downloadTurn_outcome env outputDir userAgent a m0 st0 s0)
    as (m1 & st1 & s1 & Hrun1 & _ & Hwritten).
  rewrite (bind_Normal _ _ _ _ _ Hrun1).
  destruct (Hwritten Hfetch) as (path & ->).
  destruct (download_loop env outputDir userAgent post (written a path m0) st1 s1)
    as (m2 & st2 & s2 & Hrun2 & _).
  change (for_of_with post (written a path m0, st1)
            (downloadTurn env outputDir userAgent) s1
          = (Normal (m2, st2), s2)) in Hrun2.
  exists m2, st2, s2, path. split; [exact Hrun2|].
  intros k Hk.
  destruct (loop_keeps_key env outputDir userAgent k post) with
    (mapping := written a path m0) (stats := st1) (s := s1)
    as (m2' & st2' & s2' & Hrun2' & Hget).
  { intros b Hb. destruct (existsb (String.eqb k) (mappedKeys b)) eqn:E; [|reflexivity].
    apply existsb_eqb_In in E.
    exfalso. exact (Hdisjoint b (Hsub b Hb) (Hpost b Hb) k Hk E). }
  rewrite Hrun2 in Hrun2'. injection Hrun2' as <- <- <-.
  rewrite Hget, get_written.
  now rewrite (proj2 (existsb_eqb_In k (mappedKeys a)) Hk).
Qed.

Lemma downloaded_reference_is_mapped_witness :
  exists mapping stats s' path,
    AssetManager.downloadAndMapAssets
      (site None true threeImages threeImagesHtml serve noCaptureError usualLatency)
      "./scraped-data" threeImages "Mozilla/5.0"
      (ready (site None true threeImages threeImagesHtml serve noCaptureError
                   usualLatency) "./scraped-data" 1700000000000)
    = (Normal (mapping, stats), s')
    /\ forall k,
         In k (mappedKeys (typed (img "https://example.com/a.png" "a.png") images)) ->
         Obj.get k mapping = Some path.
Proof.
  apply (downloaded_reference_is_mapped
           (site None true threeImages threeImagesHtml serve noCaptureError usualLatency)
           "./scraped-data" threeImages "Mozilla/5.0"
           (ready (site None true threeImages threeImagesHtml serve noCaptureError
                        usualLatency) "./scraped-data" 1700000000000)
           (typed (img "https://example.com/a.png" "a.png") images)).
  - vm_compute. left. reflexivity.
  - vm_compute. reflexivity.
  - intros b Hb Hne k Hk Hk'.
    vm_compute in Hb.
    destruct Hb as [<-|[<-|[<-|[]]]].
    + apply Hne. reflexivity.
    + vm_compute in Hk, Hk'.
      destruct Hk as [<-|[<-|[]]]; destruct Hk' as [E|[E|[]]]; discriminate E.
    + vm_compute in Hk, Hk'.
      destruct Hk as [<-|[<-|[]]]; destruct Hk' as [E|[E|[]]]; discriminate E.
Defined.

(** X5. [downloadAndMapAssets] never throws, whatever the server answers:
    it returns a mapping and counters in which [total] is the number of
    distinct canonical URLs and [downloaded] and [failed], both
    non-negative, add up to it. *)
Theorem downloadAndMapAssets_counts (env : Env) (outputDir : string)
    (page : Assets) (userAgent : string) (s : State) :
  exists mapping stats s',
    AssetManager.downloadAndMapAssets env outputDir page userAgent s
    = (Normal (mapping, stats), s')
    /\ total stats
       = Z.of_nat (List.length
           (AssetManager.removeDuplicates (AssetManager.flattenAssets page)))
    /\ downloaded stats + failed stats = total stats
    /\ 0 <= downloaded stats /\ 0 <= failed stats.
Proof.
  destruct (downloadAndMapAssets_returns env outputDir page userAgent s)
    as (m & st & s' & H1 & H2 & H3 & H4 & H5 & _).
  exists m, st, s'. repeat split; assumption.
Qed.

(* ------------------------------------------------------------------ *)
(** ** Further properties: what a run leaves untouched                 *)
(* ------------------------------------------------------------------ *)

Section Keeps.
Context {X : Type} (proj : State -> X).

Lemma keeps_ret {A} (a : A) : keeps proj (ret a).
Proof. intros s. reflexivity. Qed.

Lemma keeps_throw {A} (msg : string) : keeps proj (@throw A msg).
Proof. intros s. reflexivity. Qed.

Lemma keeps_get : keeps proj get.
Proof. intros s. reflexivity. Qed.

Lemma keeps_Date_now : keeps proj Date_now.
Proof. intros s. reflexivity. Qed.

Lemma keeps_modify (f : State -> State) :
  (forall s, proj (f s) = proj s) -> keeps proj (modify f).
Proof. intros H s. apply H. Qed.

Lemma keeps_bind {A B} (c : M A) (k : A -> M B) :
  keeps proj c -> (forall a, keeps proj (k a)) -> keeps proj (bind c k).
Proof.
  intros Hc Hk s. unfold bind. specialize (Hc s).
  destruct (c s) as [[a|msg] s1]; cbn [snd] in *.
  - now rewrite Hk.
  - exact Hc.
Qed.

Lemma keeps_try_catch {A} (c : M A) (handler : string -> M A) :
  keeps proj c -> (forall msg, keeps proj (handler msg)) ->
  keeps proj (try_catch c handler).
Proof.
  intros Hc Hh s. unfold try_catch. specialize (Hc s).
  destruct (c s) as [[a|msg] s1]; cbn [snd] in *.
  - exact Hc.
  - now rewrite Hh.
Qed.

Lemma keeps_for_of {A} (l : list A) (body : A -> M unit) :
  (forall x, keeps proj (body x)) -> keeps proj (for_of l body).
Proof.
  intros Hb. induction l as [|x l IH]; cbn [for_of].
  - apply keeps_ret.
  - apply keeps_bind; [apply Hb | intros _; exact IH].
Qed.

Lemma keeps_for_of_with {A L} (l : list A) (acc : L) (body : A -> L -> M L) :
  (forall x acc', keeps proj (body x acc')) -> keeps proj (for_of_with l acc body).
Proof.
  intros Hb. revert acc. induction l as [|x l IH]; intros acc; cbn [for_of_with].
  - apply keeps_ret.
  - apply keeps_bind; [apply Hb | intros acc'; apply IH].
Qed.

Lemma keeps_try_steps {L} (local : L) (steps : list (L -> M L))
    (handler : string -> M unit) :
  Forall (fun step => forall l, keeps proj (step l)) steps ->
  (forall msg, keeps proj (handler msg)) ->
  keeps proj (try_steps local steps handler).
Proof.
  intros Hsteps Hh. revert local.
  induction Hsteps as [|step steps Hstep _ IH]; intros local; cbn [try_steps].
  - apply keeps_ret.
  - intros s. specialize (Hstep local s).
    destruct (step local s) as [[l'|msg] s1]; cbn [snd] in *.
    + now rewrite IH.
    + assert (H : keeps proj (handler msg ;; ret local))
        by (apply keeps_bind; [apply Hh | intros _; apply keeps_ret]).
      now rewrite H.
Qed.

End Keeps.

(** Breaks a computation down by the rules above; what is left are the
    changes to the state themselves. *)
Ltac keeps_step :=
  first
    [ apply keeps_ret
    | apply keeps_throw
    | apply keeps_get
    | apply keeps_Date_now
    | apply keeps_bind; [|intros ?]
    | apply keeps_try_catch; [|intros ?]
    | apply keeps_for_of; intros ?
    | apply keeps_for_of_with; intros ? ?
    | apply keeps_try_steps; [repeat constructor; intros ?|intros ?]
    | match goal with
      | |- keeps _ (match ?x with _ => _ end) => destruct x
      end ].

Ltac keeps_all := repeat keeps_step.

Lemma keeps_flags_call (env : Env) (e : Event) : keeps flags (call env e).
Proof. apply keeps_modify. reflexivity. Qed.

Lemma keeps_flags_log (l : Level) (msg : string) : keeps flags (log l msg).
Proof. apply keeps_modify. reflexivity. Qed.

Lemma keeps_flags_callThrowing (env : Env) (e : Event) (o : option string) :
  keeps flags (callThrowing env e o).
Proof. unfold callThrowing. keeps_all. apply keeps_flags_call. Qed.

Lemma keeps_flags_download (env : Env) (outputDir : string) (page : Assets)
    (userAgent : string) :
  keeps flags (AssetManager.downloadAndMapAssets env outputDir page userAgent).
Proof.
  unfold AssetManager.downloadAndMapAssets, AssetManager.downloadSingleAsset,
    AssetNamer.generateFilename, FileManager.fileExists, FileManager.saveAsset,
    FileManager.writeFile, new_URL.
  keeps_all; try apply keeps_flags_call; try apply keeps_flags_log;
    try (apply keeps_modify; reflexivity).
Qed.

Ltac keeps_flags :=
  keeps_all;
  try apply keeps_flags_call; try apply keeps_flags_log;
  try apply keeps_flags_callThrowing;
  try (apply keeps_modify; intros ?; reflexivity).

Lemma keeps_flags_validateUrl (params : Params) :
  keeps flags (WebScraper.validateUrl params).
Proof. unfold WebScraper.validateUrl, new_URL. keeps_flags. Qed.

Lemma keeps_flags_createDirectoryStructure (env : Env) (outputDir : string) :
  keeps flags (FileManager.createDirectoryStructure env outputDir).
Proof.
  unfold FileManager.createDirectoryStructure, FileManager.mkdir. keeps_flags.
Qed.

Lemma keeps_flags_checkRobotsTxt (env : Env) (params : Params) :
  keeps flags (WebScraper.checkRobotsTxt env params).
Proof. unfold WebScraper.checkRobotsTxt, new_URL. keeps_flags. Qed.

Lemma keeps_flags_launchBrowser (env : Env) :
  keeps flags (WebScraper.launchBrowser env).
Proof. unfold WebScraper.launchBrowser. keeps_flags. Qed.

Lemma keeps_flags_scrapePage (env : Env) (params : Params) :
  keeps flags (WebScraper.scrapePage env params).
Proof. unfold WebScraper.scrapePage, updateResult. keeps_flags. Qed.

Lemma keeps_flags_processAssets (env : Env) (params : Params) :
  keeps flags (WebScraper.processAssets env params).
Proof.
  unfold WebScraper.processAssets, new_URL, updateResult.
  repeat first [apply keeps_flags_download | keeps_step];
    apply keeps_modify; intros ?; reflexivity.
Qed.

Lemma keeps_flags_captureScreenshots (env : Env) (params : Params) :
  keeps flags (WebScraper.captureScreenshots env params).
Proof.
  unfold WebScraper.captureScreenshots, ScreenshotManager.captureScreenshots,
    ScreenshotManager.pageScreenshot, new_URL, updateResult.
  keeps_flags.
Qed.

Lemma keeps_flags_saveResults (env : Env) (params : Params) :
  keeps flags (WebScraper.saveResults env params).
Proof.
  unfold WebScraper.saveResults, FileManager.saveFile, FileManager.writeFile,
    updateResult.
  keeps_flags.
Qed.

Lemma settles_bind {A B} (c : M A) (k : A -> M B) :
  keeps flags c -> (forall a, settles (k a)) -> settles (bind c k).
Proof.
  intros Hc Hk s Hs. unfold bind. specialize (Hc s).
  destruct (c s) as [[a|msg] s1]; cbn [fst snd] in *.
  - apply Hk. congruence.
  - congruence.
Qed.

(** The guarded block of [scrape]: the verdicts are set together, after
    every step went through, and by nothing else. *)
Lemma scrape_settles (env : Env) (params : Params) (s : State) (r : Result)
    (s' : State) :
  flags s = (false, false, false) ->
  WebScraper.scrape env params s = (Normal r, s') ->
  flags s' = (true, true, true) \/ flags s' = (false, false, false).
Proof.
  intros Hs. unfold WebScraper.scrape.
  rewrite (bind_Normal _ _ s s (clock s)) by reflexivity.
  match goal with
  | |- bind (try_finally (try_catch ?body ?handler) ?fin) ?k s = _ -> _ =>
      set (B := body); set (H := handler); set (F := fin);
      assert (Hbody : settles B);
      [|assert (Hhandler : forall msg, keeps flags (H msg));
        [|assert (Hfin : keeps flags F)]]
  end.
  - subst B.
    apply settles_bind; [apply keeps_flags_validateUrl | intros _].
    apply settles_bind; [apply keeps_flags_createDirectoryStructure | intros _].
    apply settles_bind; [apply keeps_flags_checkRobotsTxt | intros _].
    apply settles_bind; [apply keeps_flags_launchBrowser | intros _].
    apply settles_bind; [apply keeps_flags_scrapePage | intros _].
    apply settles_bind;
      [destruct (p_downloadAssets params);
       [apply keeps_flags_processAssets | apply keeps_ret] | intros _].
    apply settles_bind;
      [destruct (p_takeScreenshots params);
       [apply keeps_flags_captureScreenshots | apply keeps_ret] | intros _].
    apply settles_bind; [apply keeps_flags_saveResults | intros _].
    intros x Hx. reflexivity.
  - intros msg. subst H. unfold WebScraper.setProcessingTime, updateResult.
    keeps_flags.
  - subst F. unfold WebScraper.cleanup. keeps_flags.
  - clearbody B H F. unfold bind, try_finally, try_catch.
    specialize (Hbody s Hs).
    destruct (B s) as [[a|msg] s1]; cbn [fst snd] in Hbody.
    + rewrite <- (Hfin s1) in Hbody. intros E. injection E as _ <-. now left.
    + specialize (Hhandler msg s1).
      destruct (H msg s1) as [[a|msg'] s2]; cbn [snd] in Hhandler.
      * intros E. injection E as _ <-. right. rewrite (Hfin s2). congruence.
      * intros E. discriminate E.
Qed.

Lemma cleanup_releases (env : Env) (s : State) :
  browser (snd (WebScraper.cleanup env s)) = browser s
  /\ result (snd (WebScraper.cleanup env s)) = result s.
Proof.
  rewrite cleanup_run. cbn [snd].
  destruct (afterCleanup_same env s) as (Hr & Hb & _). now split.
Qed.

Lemma cleanup_trace (env : Env) (s : State) :
  trace (snd (WebScraper.cleanup env s))
  = (trace s ++ if browser s then closeCalls env else [])%list.
Proof. rewrite cleanup_run. apply afterCleanup_same. Qed.

Lemma cleanup_ends (env : Env) (s : State) :
  exists before,
    trace (snd (WebScraper.cleanup env s))
    = (before ++ if browser (snd (WebScraper.cleanup env s))
                 then closeCalls env else [])%list.
Proof.
  exists (trace s). rewrite cleanup_trace.
  now rewrite (proj1 (cleanup_releases env s)).
Qed.

Lemma scrape_returns (env : Env) (params : Params) (s : State) :
  exists s',
    WebScraper.scrape env params s = (Normal (result s'), s')
    /\ exists before,
         trace s' = (before ++ if browser s' then closeCalls env else [])%list.
Proof.
  unfold WebScraper.scrape.
  rewrite (bind_Normal _ _ s s (clock s)) by reflexivity.
  match goal with
  | |- exists _, bind (try_finally (try_catch ?body ?handler) ?fin) ?k s = _ /\ _ =>
      set (B := body)
  end.
  clearbody B. unfold bind, try_finally, try_catch.
  destruct (B s) as [[a|msg] s1].
  - eexists. split; [reflexivity|]. apply cleanup_ends.
  - unfold WebScraper.setProcessingTime, updateResult, log, Date_now, bind, modify,
      get, ret. cbv beta iota.
    eexists. split; [reflexivity|]. apply cleanup_ends.
Qed.


(** X7. The three verdicts of a result always agree: [accessible] and
    [scrapingAllowed] are true exactly when [success] is. *)
Theorem verdicts_agree (env : Env) (params : Params) (s : State) :
  accessible (fst (WebScraper.execute env params s))
  = success (fst (WebScraper.execute env params s))
  /\ scrapingAllowed (fst (WebScraper.execute env params s))
     = success (fst (WebScraper.execute env params s)).
Proof.
  set (s0 := set_browser false (set_result (WebScraper.initialResult params) s)).
  destruct (scrape_returns env params s0) as (s' & Hrun & _).
  assert (Hflags : flags s0 = (false, false, false)) by reflexivity.
  pose proof (scrape_settles env params s0 _ s' Hflags Hrun) as Hend.
  rewrite (execute_scrape env params s _ s' Hrun). cbn [fst].
  unfold flags in Hend.
  destruct Hend as [E|E]; injection E as -> -> ->; split; reflexivity.
Qed.

(* ------------------------------------------------------------------ *)
(** ** Further properties: a navigation that fails                     *)
(* ------------------------------------------------------------------ *)

Lemma checkRobotsTxt_pass_events (env : Env) (params : Params) (u : Url.t)
    (s : State) :
  Url.parse (p_url params) = Some u ->
  robotsPass env params u = true ->
  exists s', WebScraper.checkRobotsTxt env params s = (Normal tt, s')
             /\ sameScraper s s'
             /\ trace s' = (trace s ++ robotsEvents params u)%list.
Proof.
  intros Hp Hpass. unfold robotsPass in Hpass. unfold robotsEvents.
  destruct (p_respectRobots params) eqn:Hr.
  - simpl in Hpass.
    destruct (robotsLoad env (robotsUrlOf u)) as [msg|] eqn:Hl.
    + apply negb_true_iff in Hpass.
      rewrite (checkRobotsTxt_fail_open env params u msg s Hp Hr Hl Hpass).
      eexists. split; [reflexivity | split; [split; reflexivity | reflexivity]].
    + rewrite (checkRobotsTxt_allowed env params u s Hp Hr Hl Hpass).
      eexists. split; [reflexivity | split; [split; reflexivity | reflexivity]].
  - rewrite (checkRobotsTxt_off env params s Hr).
    eexists. split; [reflexivity | split; [apply sameScraper_refl|]].
    now rewrite app_nil_r.
Qed.

Lemma scrapePage_fails (env : Env) (params : Params) (msg : string) (s : State) :
  gotoError (goto env (p_url params)) = Some msg ->
  WebScraper.scrapePage env params s
  = (Throw msg, afterCall env (EvGoto (p_url params)) s).
Proof.
  unfold gotoError, WebScraper.scrapePage, bind. cbn [call modify].
  destruct (goto env (p_url params)) as [m| |ok status statusText].
  - intros E. injection E as <-. reflexivity.
  - intros E. injection E as <-. reflexivity.
  - destruct ok; [discriminate|]. intros E. injection E as <-. reflexivity.
Qed.

(** X8. A navigation that throws (a time-out), returns nothing or returns a
    status outside 2xx aborts the snapshot: the verdicts stay false, the
    message carries the error, no markup was captured, and after the
    directories, the robots check, the browser start and the navigation
    the only calls are those of [cleanup]: the page, the context and the
    browser are closed in that order, up to the first close that
    throws. *)
Theorem navigation_failure_aborts (env : Env) (params : Params) (u : Url.t)
    (msg : string) (s : State) :
  Url.parse (p_url params) = Some u ->
  validProtocol u = true ->
  robotsPass env params u = true ->
  launch env = None ->
  gotoError (goto env (p_url params)) = Some msg ->
  success (fst (WebScraper.execute env params s)) = false
  /\ accessible (fst (WebScraper.execute env params s)) = false
  /\ message (fst (WebScraper.execute env params s)) = "Scraping error: " ++ msg
  /\ html (scrapedData (fst (WebScraper.execute env params s))) = None
  /\ trace (snd (WebScraper.execute env params s))
     = (trace s ++ map EvMkdir (FileManager.directories (p_outputDir params))
        ++ robotsEvents params u
        ++ [EvLaunch; EvGoto (p_url params)] ++ closeCalls env)%list.
Proof.
  intros Hp Hv Hrobots Hlaunch Hgoto.
  set (s0 := set_browser false (set_result (WebScraper.initialResult params) s)).
  assert (Hrun : exists s',
            WebScraper.scrape env params s0 = (Normal (result s'), s')
            /\ success (result s') = false
            /\ accessible (result s') = false
            /\ message (result s') = "Scraping error: " ++ msg
            /\ html (scrapedData (result s')) = None
            /\ trace s'
               = (trace s ++ map EvMkdir (FileManager.directories (p_outputDir params))
                  ++ robotsEvents params u
                  ++ [EvLaunch; EvGoto (p_url params)] ++ closeCalls env)%list).
  { unfold WebScraper.scrape.
    rewrite (bind_Normal _ _ s0 s0 (clock s0)) by reflexivity.
    unfold try_finally, try_catch. unfold bind at 1.
    rewrite (bind_Normal _ _ _ _ _ (validateUrl_ok env params u s0 Hp Hv)).
    rewrite (bind_Normal _ _ _ _ _ (createDirectoryStructure_run env _ s0)).
    set (s1 := fold_left (afterMkdir env) (FileManager.directories (p_outputDir params)) s0).
    assert (Htrace1 : trace s1
                      = (trace s ++ map EvMkdir
                           (FileManager.directories (p_outputDir params)))%list)
      by apply (mkdirs_trace env _ s0).
    assert (Hres1 : result s1 = WebScraper.initialResult params)
      by apply (mkdirs_same env _ s0).
    clearbody s1.
    destruct (checkRobotsTxt_pass_events env params u s1 Hp Hrobots)
      as (s2 & Hrun2 & [Hres2 _] & Htrace2).
    rewrite (bind_Normal _ _ _ _ _ Hrun2).
    rewrite (bind_Normal _ _ _ _ _ (launchBrowser_ok env s2 Hlaunch)).
    rewrite (bind_Throw _ _ _ _ _ (scrapePage_fails env params msg _ Hgoto)).
    unfold WebScraper.setProcessingTime, updateResult, log,
      Date_now, bind, modify, get, call, ret.
    cbv beta iota. rewrite cleanup_run. cbn [snd].
    match goal with
    | |- context [afterCleanup env ?x] =>
        set (X := x);
        destruct (afterCleanup_same env X) as (Hr & _ & _ & Ht);
        set (Y := afterCleanup env X) in *
    end.
    exists Y. split; [reflexivity|]. clearbody Y.
    rewrite Hr, Ht. subst X.
    cbn -[String.append closeCalls]. rewrite Hres2, Hres1, Htrace2, Htrace1.
    cbn -[String.append closeCalls]. rewrite <- !app_assoc. repeat split. }
  destruct Hrun as (s' & Hrun & H).
  rewrite (execute_scrape env params s _ s' Hrun). exact H.
Qed.

Lemma navigation_failure_aborts_witness :
  let env := contextCloseFails (GotoResponse false 503 "Service Unavailable") in
  let params := request "https://example.com/" in
  let u := Url.mk "https:" "example.com" "example.com" "/" in
  let s := boot 1700000000000 in
  success (fst (WebScraper.execute env params s)) = false
  /\ accessible (fst (WebScraper.execute env params s)) = false
  /\ message (fst (WebScraper.execute env params s))
     = "Scraping error: " ++ "HTTP 503: Service Unavailable"
  /\ html (scrapedData (fst (WebScraper.execute env params s))) = None
  /\ trace (snd (WebScraper.execute env params s))
     = (trace s ++ map EvMkdir (FileManager.directories (p_outputDir params))
        ++ robotsEvents params u
        ++ [EvLaunch; EvGoto (p_url params)] ++ closeCalls env)%list.
Proof.
  apply (navigation_failure_aborts
           (contextCloseFails (GotoResponse false 503 "Service Unavailable"))
           (request "https://example.com/")
           (Url.mk "https:" "example.com" "example.com" "/")
           "HTTP 503: Service Unavailable"
           (boot 1700000000000)).
  - vm_compute. reflexivity.
  - reflexivity.
  - reflexivity.
  - reflexivity.
  - vm_compute. reflexivity.
Defined.

(* ------------------------------------------------------------------ *)
(** ** Further properties: a run that downloads no assets              *)
(* ------------------------------------------------------------------ *)

Lemma keeps_try_finally {X A} (proj : State -> X) (c : M A) (fin : M unit) :
  keeps proj c -> keeps proj fin -> keeps proj (try_finally c fin).
Proof.
  intros Hc Hf s. unfold try_finally. specialize (Hc s).
  destruct (c s) as [r s1]; cbn [snd] in *. now rewrite Hf.
Qed.

Lemma keeps_downloads_call (env : Env) (e : Event) :
  isDownload e = false -> keeps downloadsOf (call env e).
Proof.
  intros He. apply keeps_modify. intros s. unfold downloadsOf. cbn [trace set_clock set_trace].
  rewrite filter_app. cbn [filter]. rewrite He. apply app_nil_r.
Qed.

(** The mapping held by the result. *)
Lemma keeps_mapping_call (env : Env) (e : Event) :
  keeps (fun s => assetMapping (result s)) (call env e).
Proof. apply keeps_modify. reflexivity. Qed.

Ltac keeps_quiet :=
  keeps_all;
  try (apply keeps_downloads_call; reflexivity);
  try apply keeps_mapping_call;
  try (apply keeps_modify; intros ?; reflexivity).

Lemma scrape_without_assets_keeps {X} (proj : State -> X) (env : Env)
    (params : Params) :
  (forall e, isDownload e = false -> keeps proj (call env e)) ->
  (forall f, (forall s, proj (f s) = proj s) -> keeps proj (modify f)) ->
  (forall s d, proj (set_files d s) = proj s) ->
  (forall s c, proj (set_console c s) = proj s) ->
  (forall s b, proj (set_browser b s) = proj s) ->
  (forall s r, assetMapping r = assetMapping (result s) ->
               proj (set_result r s) = proj s) ->
  p_downloadAssets params = false ->
  keeps proj (WebScraper.scrape env params).
Proof.
  intros Hcall Hmod Hfiles Hconsole Hbrowser Hresult Hoff.
  unfold WebScraper.scrape. rewrite Hoff.
  unfold WebScraper.validateUrl, FileManager.createDirectoryStructure,
    FileManager.mkdir, WebScraper.checkRobotsTxt, WebScraper.launchBrowser,
    WebScraper.scrapePage, WebScraper.captureScreenshots,
    ScreenshotManager.captureScreenshots, ScreenshotManager.pageScreenshot,
    WebScraper.saveResults, FileManager.saveFile, FileManager.writeFile,
    WebScraper.setProcessingTime, WebScraper.cleanup, callThrowing, new_URL,
    updateResult, log.
  repeat first [apply keeps_try_finally | keeps_step];
    try (apply Hcall; reflexivity);
    try (apply Hmod; intros ?;
         first [apply Hfiles | apply Hconsole | apply Hbrowser
               | apply Hresult; reflexivity]).
Qed.

(** X9. With [downloadAssets] off no run fetches anything, and the mapping of
    its result is empty, whatever else happens. *)
Theorem nothing_fetched_when_off (env : Env) (params : Params) (s : State) :
  p_downloadAssets params = false ->
  downloadsOf (snd (WebScraper.execute env params s)) = downloadsOf s
  /\ assetMapping (fst (WebScraper.execute env params s)) = [].
Proof.
  intros Hoff.
  set (s0 := set_browser false (set_result (WebScraper.initialResult params) s)).
  destruct (scrape_returns env params s0) as (s' & Hrun & _).
  rewrite (execute_scrape env params s _ s' Hrun). cbn [fst snd].
  assert (Hs' : s' = snd (WebScraper.scrape env params s0)) by now rewrite Hrun.
  split.
  - rewrite Hs'.
    rewrite (scrape_without_assets_keeps downloadsOf env params); try assumption;
      try reflexivity.
    + apply keeps_downloads_call.
    + intros f Hf. now apply keeps_modify.
  - rewrite Hs'.
    rewrite (scrape_without_assets_keeps (fun x => assetMapping (result x)) env params);
      try assumption; try reflexivity.
    + intros e _. apply keeps_mapping_call.
    + intros f Hf. now apply keeps_modify.
    + intros x r Hr. exact Hr.
Qed.

Lemma nothing_fetched_when_off_witness :
  let env := site None true threeImages threeImagesHtml serve
                  noCaptureError usualLatency in
  let params := mkParams "https://example.com/" "./scraped-data" "Mozilla/5.0"
                         true 30000 false true
                         (mkViewport 1920 1080) (mkViewport 375 667) in
  let s := boot 1700000000000 in
  downloadsOf (snd (WebScraper.execute env params s)) = downloadsOf s
  /\ assetMapping (fst (WebScraper.execute env params s)) = [].
Proof.
  apply (nothing_fetched_when_off
           (site None true threeImages threeImagesHtml serve
                 noCaptureError usualLatency)
           (mkParams "https://example.com/" "./scraped-data" "Mozilla/5.0"
                     true 30000 false true
                     (mkViewport 1920 1080) (mkViewport 375 667))
           (boot 1700000000000)).
  reflexivity.
Defined.

Lemma saveResults_writes (env : Env) (params : Params) (captured : string)
    (s : State) :
  html (scrapedData (result s)) = Some captured ->
  exists s' record,
    WebScraper.saveResults env params s = (Normal tt, s')
    /\ html (scrapedData (result s'))
       = Some (fold_left rewriteOne (Obj.entries (assetMapping (result s))) captured)
    /\ trace s'
       = (trace s
          ++ [EvWriteFile (Path.join [p_outputDir params; "index.html"])
                (Text (fold_left rewriteOne
                         (Obj.entries (assetMapping (result s))) captured));
              EvWriteFile (Path.join [p_outputDir params; "metadata.json"])
                (Json record)])%list.
Proof.
  intros Hh. unfold WebScraper.saveResults.
  unfold bind at 1. unfold get at 1. cbv beta iota.
  rewrite Hh, replaceAssetUrls_total.
  unfold FileManager.saveFile, FileManager.writeFile, Date_now, updateResult,
    bind, call, modify. simpl.
  do 2 eexists. split; [reflexivity|]. simpl. split; [reflexivity|].
  now rewrite <- app_assoc.
Qed.

(* ------------------------------------------------------------------ *)
(** ** Further properties: one fetch for each canonical URL            *)
(* ------------------------------------------------------------------ *)

Lemma countFetches_snoc (u : string) (t : list Event) (e : Event) :
  countFetches u (t ++ [e])%list
  = (countFetches u t
     + match e with
       | EvFetch x => if String.eqb x u then 1 else 0
       | _ => 0
       end)%nat.
Proof.
  unfold countFetches. rewrite filter_app, length_app. f_equal.
  destruct e; cbn; try reflexivity.
  now destruct (String.eqb target u).
Qed.

Lemma downloadSingleAsset_fetches (env : Env) (outputDir : string)
    (a : TypedAsset) (userAgent : string) (s : State) (u : string) :
  (countFetches u
     (trace (snd (AssetManager.downloadSingleAsset env outputDir a userAgent s)))
   <= countFetches u (trace s) + fetchesAllowed u a)%nat.
Proof.
  unfold AssetManager.downloadSingleAsset, new_URL, bind, fetchesAllowed, urlOf.
  destruct (Url.parse (url (base a))) as [p|]; cbn -[Path.join countFetches]; [|lia].
  destruct (existsb _ (files s)); cbn -[Path.join countFetches]; [lia|].
  destruct (fetch env (url (base a))) as [msg|ok status statusText len];
    cbn -[Path.join countFetches].
  - rewrite countFetches_snoc. lia.
  - destruct ok; cbn -[Path.join countFetches]; rewrite ?countFetches_snoc; lia.
Qed.

Lemma downloadTurn_fetches (env : Env) (outputDir userAgent : string)
    (a : TypedAsset) (acc : JsObject string * Stats) (s : State) (u : string) :
  (countFetches u (trace (snd (downloadTurn env outputDir userAgent a acc s)))
   <= countFetches u (trace s) + fetchesAllowed u a)%nat.
Proof.
  destruct acc as [mapping stats]. unfold downloadTurn, try_catch. unfold bind at 1.
  pose proof (downloadSingleAsset_fetches env outputDir a userAgent s u) as H.
  destruct (AssetManager.downloadSingleAsset env outputDir a userAgent s)
    as [[d|msg] s1]; cbn [snd] in H.
  - destruct (d_success d); exact H.
  - exact H.
Qed.

Lemma download_loop_fetches (env : Env) (outputDir userAgent : string)
    (u : string) (l : list TypedAsset) :
  forall (acc : JsObject string * Stats) (s : State),
    (countFetches u
       (trace (snd (for_of_with l acc (downloadTurn env outputDir userAgent) s)))
     <= countFetches u (trace s)
        + count_occ string_dec (map urlOf l) u)%nat.
Proof.
  induction l as [|a l IH]; intros acc s; [cbn; lia|].
  cbn [for_of_with map count_occ]. unfold bind.
  pose proof (downloadTurn_fetches env outputDir userAgent a acc s u) as Ha.
  destruct (downloadTurn env outputDir userAgent a acc s) as [[acc1|msg] s1];
    cbn [snd] in Ha; unfold fetchesAllowed in Ha.
  - specialize (IH acc1 s1).
    destruct (string_dec (urlOf a) u) as [E|E].
    + rewrite (proj2 (String.eqb_eq _ _) E) in Ha. lia.
    + rewrite (proj2 (String.eqb_neq _ _) E) in Ha. lia.
  - cbn [snd].
    destruct (string_dec (urlOf a) u) as [E|E].
    + rewrite (proj2 (String.eqb_eq _ _) E) in Ha. lia.
    + rewrite (proj2 (String.eqb_neq _ _) E) in Ha. lia.
Qed.

(** X11. In one call of [downloadAndMapAssets] a canonical URL is fetched at
    most once, however often the page refers to it. *)
Theorem each_url_fetched_at_most_once (env : Env) (outputDir : string)
    (page : Assets) (userAgent : string) (s : State) (u : string) :
  (countFetches u
     (trace (snd (AssetManager.downloadAndMapAssets env outputDir page userAgent s)))
   <= countFetches u (trace s) + 1)%nat.
Proof.
  rewrite downloadAndMapAssets_loop.
  pose proof (download_loop_fetches env outputDir userAgent u
                (AssetManager.removeDuplicates (AssetManager.flattenAssets page))
                ([], mkStats (Z.of_nat (List.length
                   (AssetManager.removeDuplicates (AssetManager.flattenAssets page)))) 0 0)
                s) as H.
  pose proof (removeDuplicates_NoDup (AssetManager.flattenAssets page)) as Hnodup.
  pose proof (proj1 (NoDup_count_occ string_dec _) Hnodup u) as Hcount.
  eapply Nat.le_trans; [exact H|]. apply Nat.add_le_mono_l. exact Hcount.
Qed.

(* ------------------------------------------------------------------ *)
(** ** Further properties: the generated file name                     *)
(* ------------------------------------------------------------------ *)

Lemma scan_unsafe (l beforeRev : list ascii) :
  scan AssetNamer.unsafeChar ["_"%char] beforeRev 0 l = sanitized l.
Proof.
  revert beforeRev. induction l as [|c l IH]; intros beforeRev; [reflexivity|].
  change AssetNamer.unsafeChar with [Class true safeItems] in *.
  cbn [scan matchAt sanitized map].
  destruct (inClass true safeItems c).
  - cbn [expand List.length app]. change (Ascii.eqb "_" "$") with false.
    cbv iota. cbn [app]. now rewrite IH.
  - now rewrite IH.
Qed.

Lemma replace_sanitized (b : string) :
  Js.chars (RegExp.replace AssetNamer.unsafeChar "_" b) = sanitized (Js.chars b).
Proof.
  unfold RegExp.replace. rewrite chars_str.
  change (Js.chars "_") with ["_"%char]. apply scan_unsafe.
Qed.

Lemma sanitized_name (l : list ascii) :
  Forall (fun c => isNameChar c = true) (sanitized l).
Proof.
  induction l as [|c l IH]; [constructor|].
  cbn [sanitized map]. constructor; [|exact IH].
  destruct (inClass true safeItems c) eqn:E; [reflexivity|].
  unfold isNameChar. now rewrite E.
Qed.

Lemma nameChar_noSlash (l : list ascii) :
  Forall (fun c => isNameChar c = true) l -> noSlash l.
Proof.
  apply Forall_impl. intros c Hc. unfold Path.isSlash.
  destruct (Ascii.eqb_spec c "/") as [->|]; [discriminate Hc | reflexivity].
Qed.

Lemma lowerHex_noSlash (l : list ascii) :
  Forall (fun c => isLowerHex c = true) l -> noSlash l.
Proof.
  apply Forall_impl. intros c Hc. unfold Path.isSlash.
  destruct (Ascii.eqb_spec c "/") as [->|]; [discriminate Hc | reflexivity].
Qed.

Lemma hexDigit_lower_nat (k : nat) :
  (k < 16)%nat -> isLowerHex (MD5.hexDigit (Z.of_nat k)) = true.
Proof.
  do 16 (destruct k as [|k]; [reflexivity|]). lia.
Qed.

Lemma hexDigit_lower (n : Z) :
  0 <= n < 16 -> isLowerHex (MD5.hexDigit n) = true.
Proof.
  intros H. rewrite <- (Z2Nat.id n) by lia. apply hexDigit_lower_nat. lia.
Qed.

Lemma hexByte_lower (b : Z) :
  0 <= b < 256 -> Forall (fun c => isLowerHex c = true) (MD5.hexByte b).
Proof.
  intros H. unfold MD5.hexByte.
  repeat constructor; apply hexDigit_lower.
  - split; [apply Z.div_pos; lia | apply Z.div_lt_upper_bound; lia].
  - apply Z.mod_pos_bound. lia.
Qed.

Lemma bytesLE_bytes (n : nat) (x : Z) :
  Forall (fun b => 0 <= b < 256) (MD5.bytesLE n x).
Proof.
  unfold MD5.bytesLE. apply Forall_map, Forall_forall. intros i _.
  apply Z.mod_pos_bound. lia.
Qed.

Lemma hexBytes_lower (l : list Z) :
  Forall (fun b => 0 <= b < 256) l ->
  Forall (fun c => isLowerHex c = true) (flat_map MD5.hexByte l)
  /\ List.length (flat_map MD5.hexByte l) = (2 * List.length l)%nat.
Proof.
  induction 1 as [|b l Hb _ [IH1 IH2]]; [split; [constructor | reflexivity]|].
  cbn [flat_map]. split.
  - apply Forall_app. split; [now apply hexByte_lower | exact IH1].
  - rewrite length_app, IH2. cbn [MD5.hexByte List.length]. lia.
Qed.

(** An MD5 digest in hex is thirty-two lower-case hex digits. *)
Lemma hex_digest (s : string) :
  Forall (fun c => isLowerHex c = true) (Js.chars (MD5.hex s))
  /\ List.length (Js.chars (MD5.hex s)) = 32%nat.
Proof.
  unfold MD5.hex.
  destruct (MD5.blocks _ MD5.init _) as [[[a b] c] d].
  rewrite chars_str.
  assert (Hb : Forall (fun b => 0 <= b < 256)
                 (flat_map (MD5.bytesLE 4) [a; b; c; d])).
  { cbn [flat_map]. repeat (apply Forall_app; split); try apply bytesLE_bytes.
    constructor. }
  destruct (hexBytes_lower _ Hb) as [H1 H2]. split; [exact H1|].
  rewrite H2. reflexivity.
Qed.

Lemma chars_substring0 (n : nat) (s : string) :
  Js.chars (Js.substring0 n s) = firstn n (Js.chars s).
Proof.
  unfold Js.substring0, Js.chars. revert s.
  induction n as [|n IH]; intros [|c s]; cbn; try reflexivity.
  now rewrite IH.
Qed.

Lemma hash_prefix (s : string) :
  Forall (fun c => isLowerHex c = true) (Js.chars (Js.substring0 8 (MD5.hex s)))
  /\ List.length (Js.chars (Js.substring0 8 (MD5.hex s))) = 8%nat.
Proof.
  rewrite chars_substring0. destruct (hex_digest s) as [H1 H2]. split.
  - rewrite <- (firstn_skipn 8 (Js.chars (MD5.hex s))) in H1.
    now apply Forall_app in H1.
  - rewrite length_firstn, H2. reflexivity.
Qed.

Lemma untilSlash_noSlash (r : list ascii) : noSlash (Path.untilSlash r).
Proof.
  induction r as [|c r IH]; [constructor|].
  cbn [Path.untilSlash]. destruct (Path.isSlash c) eqn:E; [constructor|].
  constructor; assumption.
Qed.

Lemma splitAtDot_noSlash (r : list ascii) :
  forall acc after rest,
    noSlash r -> noSlash acc ->
    Path.splitAtDot r acc = Some (after, rest) -> noSlash after.
Proof.
  induction r as [|c r IH]; intros acc after rest Hr Hacc H; [discriminate|].
  cbn [Path.splitAtDot] in H. inversion Hr as [|? ? Hc Hr']; subst.
  destruct (Ascii.eqb c "."); [now inversion H; subst|].
  apply (IH (c :: acc) after rest); [assumption | now constructor | assumption].
Qed.

Lemma extname_noSlash (p : string) : noSlash (Js.chars (Path.extname p)).
Proof.
  unfold Path.extname, Path.lastSegmentRev.
  destruct (Path.splitAtDot _ []) as [[after rest]|] eqn:E; [|constructor].
  apply splitAtDot_noSlash in E;
    [|apply untilSlash_noSlash | constructor].
  assert (H : noSlash (Js.chars (Js.str ("."%char :: after)))).
  { rewrite chars_str. now constructor. }
  repeat match goal with
         | |- noSlash (Js.chars (match ?x with _ => _ end)) => destruct x
         end;
    first [exact H | constructor].
Qed.

Lemma extensionOf_noSlash (pathname : string) (t : AssetType) :
  noSlash (Js.chars (extensionOf pathname t)) /\ extensionOf pathname t <> "".
Proof.
  unfold extensionOf, Js.or_else.
  destruct (String.eqb_spec (Path.extname pathname) "") as [E|E].
  - destruct t; split; cbn; try discriminate; repeat constructor.
  - destruct (String.eqb_spec (Path.extname pathname) "") as [E'|_];
      [contradiction|].
    split; [apply extname_noSlash | exact E].
Qed.

Lemma length_chars (s : string) : List.length (Js.chars s) = String.length s.
Proof.
  unfold Js.chars. induction s as [|c s IH]; [reflexivity | cbn; now rewrite IH].
Qed.

Lemma chars_nil (s : string) : Js.chars s = [] -> s = "".
Proof. destruct s; [reflexivity | discriminate]. Qed.

(** X12. The name [generateFilename] builds is [stem-hash.ext]: a stem of
    characters of [a-zA-Z0-9._-], never empty; eight lower-case hex
    digits; and the extension of the path, or else the default of the
    asset type. *)
Theorem generateFilename_shape (now : Z) (pathname : string) (t : AssetType) :
  exists stem hash : string,
    AssetNamer.filenameAt now pathname t
    = stem ++ "-" ++ hash ++ extensionOf pathname t
    /\ stem <> ""
    /\ Forall (fun c => isNameChar c = true) (Js.chars stem)
    /\ String.length hash = 8%nat
    /\ Forall (fun c => isLowerHex c = true) (Js.chars hash).
Proof.
  unfold AssetNamer.filenameAt. fold (extensionOf pathname t).
  set (base := Js.or_else (Path.basename pathname (extensionOf pathname t)) "asset").
  exists (RegExp.replace AssetNamer.unsafeChar "_" base),
         (Js.substring0 8 (MD5.hex (pathname ++ Js.toString now))).
  destruct (hash_prefix (pathname ++ Js.toString now)) as [Hhex Hlen].
  repeat split.
  - intros H. apply (f_equal Js.chars) in H.
    rewrite replace_sanitized in H. unfold sanitized in H.
    apply map_eq_nil in H. apply chars_nil in H.
    subst base. unfold Js.or_else in H.
    destruct (String.eqb_spec (Path.basename pathname (extensionOf pathname t)) "");
      [discriminate H | contradiction].
  - rewrite replace_sanitized. apply sanitized_name.
  - now rewrite <- length_chars.
  - exact Hhex.
Qed.

(** X13. The name [generateFilename] returns holds no path separator: joined
    to the directory of its type it names a file of that directory. The
    call always returns and leaves the state alone. *)
Theorem generateFilename_single_component (pathname : string) (t : AssetType)
    (s : State) :
  exists name : string,
    AssetNamer.generateFilename pathname t s = (Normal name, s)
    /\ name <> ""
    /\ noSlash (Js.chars name).
Proof.
  exists (AssetNamer.filenameAt (clock s) pathname t).
  split; [reflexivity|].
  unfold AssetNamer.filenameAt. fold (extensionOf pathname t).
  destruct (hash_prefix (pathname ++ Js.toString (clock s))) as [Hhex _].
  destruct (extensionOf_noSlash pathname t) as [Hext _].
  split.
  - intros H. apply (f_equal Js.chars) in H. rewrite !chars_app in H.
    apply app_eq_nil in H as [_ H]. discriminate H.
  - rewrite !chars_app. repeat (apply Forall_app; split).
    + apply nameChar_noSlash. rewrite replace_sanitized. apply sanitized_name.
    + repeat constructor.
    + now apply lowerHex_noSlash.
    + exact Hext.
Qed.

(* ------------------------------------------------------------------ *)
(** ** Further properties: what the rewriter matches                   *)
(* ------------------------------------------------------------------ *)

Lemma matchAt_literal (l : list ascii) (post : pattern) (s m rest : list ascii) :
  matchAt (map Lit l ++ post)%list s = Some (m, rest) ->
  exists s' m', s = (l ++ s')%list /\ m = (l ++ m')%list
                /\ matchAt post s' = Some (m', rest).
Proof.
  revert s m. induction l as [|c l IH]; intros s m H.
  - exists s, m. now repeat split.
  - cbn [map app matchAt] in H. destruct s as [|x s]; [discriminate|].
    destruct (Ascii.eqb_spec x c) as [->|]; [|discriminate].
    destruct (matchAt (map Lit l ++ post)%list s) as [[m1 r1]|] eqn:E; [|discriminate].
    inversion H; subst. destruct (IH _ _ E) as (s' & m' & -> & -> & H').
    exists s', m'. now repeat split.
Qed.

Lemma matchAt_literal_hit (l : list ascii) (post : pattern) (s m rest : list ascii) :
  matchAt post s = Some (m, rest) ->
  matchAt (map Lit l ++ post)%list (l ++ s)%list = Some ((l ++ m)%list, rest).
Proof.
  intros H. induction l as [|c l IH]; [exact H|].
  cbn [map app matchAt]. now rewrite Ascii.eqb_refl, IH.
Qed.

(** Whatever a pattern holding the literal text [l] matches holds [l]. *)
Lemma matchAt_contains (pre : pattern) (l : list ascii) (post : pattern) :
  forall s m rest,
    matchAt (pre ++ map Lit l ++ post)%list s = Some (m, rest) ->
    exists a b, s = (a ++ l ++ b)%list.
Proof.
  induction pre as [|[c|n items|n items] pre IH]; intros s m rest H.
  - apply matchAt_literal in H as (s' & _ & -> & _). now exists [], s'.
  - cbn [app matchAt] in H. destruct s as [|x s]; [discriminate|].
    destruct (Ascii.eqb x c); [|discriminate].
    destruct (matchAt (pre ++ map Lit l ++ post)%list s) as [[m1 r1]|] eqn:E;
      [|discriminate].
    destruct (IH _ _ _ E) as (a & b & ->). now exists (x :: a), b.
  - cbn [app matchAt] in H. destruct s as [|x s]; [discriminate|].
    destruct (inClass n items x); [|discriminate].
    destruct (matchAt (pre ++ map Lit l ++ post)%list s) as [[m1 r1]|] eqn:E;
      [|discriminate].
    destruct (IH _ _ _ E) as (a & b & ->). now exists (x :: a), b.
  - cbn [app matchAt] in H. destruct s as [|x s]; [now apply IH in H|].
    destruct (inClass n items x); [|now apply IH in H].
    destruct (matchAt (pre ++ map Lit l ++ post)%list s) as [[m1 r1]|] eqn:E.
    + destruct (IH _ _ _ E) as (a & b & ->). now exists (x :: a), b.
    + now apply IH in H.
Qed.

Lemma prefix_app (t : string) (b : list ascii) :
  String.prefix t (Js.str (Js.chars t ++ b)%list) = true.
Proof.
  induction t as [|c t IH].
  - cbn [Js.chars list_ascii_of_string app]. now destruct (Js.str b).
  - cbn [Js.chars list_ascii_of_string app Js.str string_of_list_ascii String.prefix].
    destruct (ascii_dec c c) as [_|N]; [exact IH | contradiction].
Qed.

Lemma includes_unfold (t s : string) :
  Js.includes t s
  = String.prefix t s
    || match s with
       | EmptyString => false
       | String _ s' => Js.includes t s'
       end.
Proof. destruct s; reflexivity. Qed.

Lemma includes_complete (t : string) (a b : list ascii) :
  Js.includes t (Js.str (a ++ Js.chars t ++ b)%list) = true.
Proof.
  induction a as [|x a IH].
  - cbn [app]. rewrite includes_unfold, prefix_app. reflexivity.
  - rewrite includes_unfold. cbn [app Js.str string_of_list_ascii].
    fold (Js.str (a ++ Js.chars t ++ b)%list). rewrite IH. apply orb_true_r.
Qed.

Lemma str_chars (s : string) : Js.str (Js.chars s) = s.
Proof. apply string_of_list_ascii_of_string. Qed.

Lemma scan_no_match (p : pattern) (template : list ascii) (s : list ascii) :
  forall beforeRev,
    (forall a b, s = (a ++ b)%list -> matchAt p b = None) ->
    scan p template beforeRev 0 s = s.
Proof.
  induction s as [|c s IH]; intros beforeRev H.
  - cbn [scan]. now rewrite (H [] [] eq_refl).
  - cbn [scan]. rewrite (H [] (c :: s) eq_refl). f_equal.
    apply IH. intros a b ->. now apply (H (c :: a) b).
Qed.

(** A global replace whose pattern holds a literal text the subject does
    not contain returns the subject. *)
Lemma replace_absent (pre : pattern) (l : string) (post : pattern)
    (template subject : string) :
  Js.includes l subject = false ->
  RegExp.replace (pre ++ map Lit (Js.chars l) ++ post)%list template subject = subject.
Proof.
  intros H. unfold RegExp.replace. rewrite scan_no_match; [apply str_chars|].
  intros a b Hab.
  destruct (matchAt _ b) as [[m rest]|] eqn:E; [|reflexivity].
  apply matchAt_contains in E as (a' & b' & ->).
  rewrite <- (str_chars subject), Hab, app_assoc, includes_complete in H.
  discriminate H.
Qed.

Lemma rewriteOne_absent (html : string) (k v : string) :
  Js.includes k html = false -> rewriteOne html (k, v) = html.
Proof.
  intros H. unfold rewriteOne, attrPattern, urlPattern.
  rewrite !(app_assoc (map Lit _) _ (map Lit (Js.chars k) ++ _)%list).
  do 3 (rewrite (replace_absent _ k _ _ html) by exact H). reflexivity.
Qed.

Lemma rewriteOne_no_position (html : string) (entry : string * string) :
  Js.includes "src=" html = false ->
  Js.includes "href=" html = false ->
  Js.includes "url(" html = false ->
  rewriteOne html entry = html.
Proof.
  intros Hsrc Hhref Hurl. destruct entry as [k v]. unfold rewriteOne.
  change (attrPattern "src" k)
    with ([] ++ map Lit (Js.chars "src=")
          ++ Class false quoteClass :: map Lit (Js.chars k)
             ++ [Class false quoteClass])%list.
  rewrite (replace_absent [] "src=") by exact Hsrc.
  change (attrPattern "href" k)
    with ([] ++ map Lit (Js.chars "href=")
          ++ Class false quoteClass :: map Lit (Js.chars k)
             ++ [Class false quoteClass])%list.
  rewrite (replace_absent [] "href=") by exact Hhref.
  change (urlPattern k)
    with ([] ++ map Lit (Js.chars "url(")
          ++ OptClass false quoteClass :: map Lit (Js.chars k)
             ++ [OptClass false quoteClass; Lit ")"%char])%list.
  now rewrite (replace_absent [] "url(").
Qed.

(** X14. Markup that nowhere contains a key of the mapping comes back from
    [replaceAssetUrls] as it went in. *)
Theorem unreferenced_markup_untouched (html : string)
    (assetMapping : JsObject string) :
  forallb (fun entry => negb (Js.includes (fst entry) html))
          (Obj.entries assetMapping) = true ->
  AssetMapper.replaceAssetUrls html assetMapping = Some html.
Proof.
  intros H. rewrite replaceAssetUrls_total. f_equal.
  induction (Obj.entries assetMapping) as [|[k v] entries IH]; [reflexivity|].
  cbn [forallb fst] in H. apply andb_true_iff in H as [Hk H].
  apply negb_true_iff in Hk.
  cbn [fold_left]. rewrite rewriteOne_absent by exact Hk. now apply IH.
Qed.

Lemma unreferenced_markup_untouched_witness :
  AssetMapper.replaceAssetUrls "<p>See logo.png</p>"
    [("https://example.com/logo.png", "assets/images/logo-0a1b2c3d.png")]
  = Some "<p>See logo.png</p>".
Proof.
  exact (unreferenced_markup_untouched "<p>See logo.png</p>"
           [("https://example.com/logo.png", "assets/images/logo-0a1b2c3d.png")]
           eq_refl).
Defined.

(** X15. The rewriter touches nothing outside the three positions it looks
    for: markup without [src=], [href=] and [url(] comes back as it went
    in, even where it spells out a key of the mapping. *)
Theorem markup_outside_positions_untouched (html : string)
    (assetMapping : JsObject string) :
  Js.includes "src=" html = false ->
  Js.includes "href=" html = false ->
  Js.includes "url(" html = false ->
  AssetMapper.replaceAssetUrls html assetMapping = Some html.
Proof.
  intros Hsrc Hhref Hurl. rewrite replaceAssetUrls_total. f_equal.
  induction (Obj.entries assetMapping) as [|entry entries IH]; [reflexivity|].
  cbn [fold_left]. now rewrite rewriteOne_no_position.
Qed.

Lemma markup_outside_positions_untouched_witness :
  AssetMapper.replaceAssetUrls "<p>See https://example.com/logo.png</p>"
    [("https://example.com/logo.png", "assets/images/logo-0a1b2c3d.png")]
  = Some "<p>See https://example.com/logo.png</p>".
Proof.
  exact (markup_outside_positions_untouched
           "<p>See https://example.com/logo.png</p>"
           [("https://example.com/logo.png", "assets/images/logo-0a1b2c3d.png")]
           eq_refl eq_refl eq_refl).
Defined.

(** X16. Escaping makes a text its own pattern: whatever [escapeRegExp]
    returns compiles, and the pattern matches at the head of a subject
    exactly when the subject starts with the text, taking that text and
    no more. *)
Theorem escapeRegExp_matches_literally (text : string) :
  exists p : pattern,
    compile None (Js.chars (Cli.escapeRegExp text)) = Some p
    /\ forall s m rest : list ascii,
         matchAt p s = Some (m, rest)
         <-> m = Js.chars text /\ s = (Js.chars text ++ rest)%list.
Proof.
  exists (map Lit (Js.chars text)). split.
  - rewrite escapeRegExp_chars, <- (app_nil_r (escaped _)), compile_escaped.
    change (compile None []) with (Some (@nil atom)).
    now rewrite consAtoms_Some, app_nil_r.
  - intros s m rest. rewrite <- (app_nil_r (map Lit _)). split.
    + intros H. apply matchAt_literal in H as (s' & m' & -> & -> & H).
      cbn [matchAt] in H. inversion H; subst. now rewrite app_nil_r.
    + intros [-> ->].
      rewrite <- (app_nil_r (Js.chars text)) at 3.
      now apply matchAt_literal_hit.
Qed.

(* ------------------------------------------------------------------ *)
(** ** The scraper tool of [src/cli.js]: what a run ends with          *)
(* ------------------------------------------------------------------ *)

Section Yields.

Lemma yields_ret {A} (a : A) (Q : A -> Prop) (E : string -> Prop) :
  Q a -> yields (ret a) Q E.
Proof. intros H s. exact H. Qed.

Lemma yields_throw {A} (msg : string) (Q : A -> Prop) (E : string -> Prop) :
  E msg -> yields (@throw A msg) Q E.
Proof. intros H s. exact H. Qed.

Lemma yields_any {A} (c : M A) :
  yields c (fun _ => True) (fun _ => True).
Proof. intros s. now destruct (fst (c s)). Qed.

Lemma yields_bind {A B} (c : M A) (k : A -> M B) (R : A -> Prop)
    (Q : B -> Prop) (E : string -> Prop) :
  yields c R E -> (forall a, R a -> yields (k a) Q E) ->
  yields (bind c k) Q E.
Proof.
  intros Hc Hk s. unfold bind. specialize (Hc s).
  destruct (c s) as [[a|msg] s']; cbn [fst] in *; [now apply Hk | exact Hc].
Qed.

Lemma yields_try_catch {A} (c : M A) (h : string -> M A) (Q : A -> Prop)
    (E' E : string -> Prop) :
  yields c Q E' -> (forall msg, E' msg -> yields (h msg) Q E) ->
  yields (try_catch c h) Q E.
Proof.
  intros Hc Hh s. unfold try_catch. specialize (Hc s).
  destruct (c s) as [[a|msg] s']; cbn [fst] in *; [exact Hc | now apply Hh].
Qed.

Lemma yields_try_finally {A} (c : M A) (fin : M unit) (Q : A -> Prop)
    (E : string -> Prop) :
  yields c Q E -> yields (try_finally c fin) Q E.
Proof.
  intros Hc s. unfold try_finally. specialize (Hc s).
  now destruct (c s) as [r s'].
Qed.

Lemma yields_for_of_with {A L} (l : list A) (body : A -> L -> M L)
    (I : L -> Prop) (E : string -> Prop) :
  (forall x acc, I acc -> yields (body x acc) I E) ->
  forall acc, I acc -> yields (for_of_with l acc body) I E.
Proof.
  intros Hbody. induction l as [|x l IH]; intros acc Hacc.
  - now apply yields_ret.
  - cbn [for_of_with]. eapply yields_bind; [now apply Hbody | exact IH].
Qed.

Lemma yields_weaken {A} (c : M A) (Q Q' : A -> Prop) (E E' : string -> Prop) :
  yields c Q E -> (forall a, Q a -> Q' a) -> (forall m, E m -> E' m) ->
  yields c Q' E'.
Proof.
  intros H HQ HE s. specialize (H s).
  destruct (fst (c s)); [now apply HQ | now apply HE].
Qed.

Lemma yields_modify (f : State -> State) (E : string -> Prop) :
  yields (modify f) (fun _ => True) E.
Proof. intros s. exact I. Qed.

Lemma yields_log (l : Level) (msg : string) (E : string -> Prop) :
  yields (log l msg) (fun _ => True) E.
Proof. intros s. exact I. Qed.

Lemma yields_Date_now (E : string -> Prop) :
  yields Date_now (fun _ => True) E.
Proof. intros s. exact I. Qed.

End Yields.

Ltac yields_quiet :=
  first [apply yields_modify | apply yields_log | apply yields_Date_now].

(** A turn of the tool's download loop never throws and moves one of the
    two counters by one. *)
Lemma downloadOne_counts (env : Env) (outputDir userAgent : string)
    (asset : TypedAsset) (n : Z) (acc : JsObject string * Stats) :
  downloaded (snd acc) + failed (snd acc) = n ->
  0 <= downloaded (snd acc) -> 0 <= failed (snd acc) ->
  yields (WebScraperTool.downloadOne env outputDir userAgent asset acc)
    (fun r => total (snd r) = total (snd acc)
              /\ downloaded (snd r) + failed (snd r) = n + 1
              /\ 0 <= downloaded (snd r) /\ 0 <= failed (snd r))
    (fun _ => False).
Proof.
  destruct acc as [mapping stats]. cbn [snd]. intros Hn Hd Hf.
  unfold WebScraperTool.downloadOne.
  eapply yields_try_catch with (E' := fun _ => True).
  - eapply yields_bind; [apply yields_any|]. intros assetUrl _.
    eapply yields_bind; [apply yields_any|]. intros filename _.
    eapply yields_bind; [apply yields_any|]. intros [|] _.
    + apply yields_ret. cbn. lia.
    + eapply yields_bind; [apply yields_any|]. intros _ _.
      destruct (fetch env (url (base asset))) as [msg|ok status statusText len].
      * now apply yields_throw.
      * destruct ok; cbn [negb]; [|now apply yields_throw].
        eapply yields_bind; [apply yields_any|]. intros _ _.
        apply yields_ret. cbn. lia.
  - intros msg _. eapply yields_bind; [yields_quiet|]. intros _ _.
    apply yields_ret. cbn. lia.
Qed.

Lemma tool_download_loop (env : Env) (outputDir userAgent : string)
    (l : list TypedAsset) :
  forall (n : Z) (acc : JsObject string * Stats),
    downloaded (snd acc) + failed (snd acc) = n ->
    0 <= downloaded (snd acc) -> 0 <= failed (snd acc) ->
    yields (for_of_with l acc (WebScraperTool.downloadOne env outputDir userAgent))
      (fun r => total (snd r) = total (snd acc)
                /\ downloaded (snd r) + failed (snd r) = n + Z.of_nat (List.length l)
                /\ 0 <= downloaded (snd r) /\ 0 <= failed (snd r))
      (fun _ => False).
Proof.
  induction l as [|a l IH]; intros n acc Hn Hd Hf.
  - apply yields_ret. cbn [List.length]. lia.
  - cbn [for_of_with]. eapply yields_bind.
    + now apply (downloadOne_counts env outputDir userAgent a n acc).
    + intros acc1 (Ht & Hsum & Hd1 & Hf1). cbv beta.
      eapply yields_weaken; [apply (IH (n + 1) acc1); assumption | |].
      * intros r (Ht' & Hsum' & Hd' & Hf'). cbn [List.length].
        repeat split; lia.
      * tauto.
Qed.

(** The tool's [downloadAndMapAssets] never throws, and its counters add
    up. *)
Lemma tool_downloadAndMapAssets_counts (env : Env) (page : Assets)
    (outputDir userAgent : string) :
  yields (WebScraperTool.downloadAndMapAssets env page outputDir userAgent)
    statsAddUp (fun _ => False).
Proof.
  unfold WebScraperTool.downloadAndMapAssets. cbv zeta.
  eapply yields_weaken;
    [apply (tool_download_loop env outputDir userAgent _ 0); cbn; lia | |].
  - intros r (Ht & Hsum & Hd & Hf). cbn [snd total] in Ht.
    unfold statsAddUp. repeat split; lia.
  - tauto.
Qed.

Lemma tool_handler_returns (params : Params) (msg : string) :
  yields (log error ("Scraping error: " ++ msg) ;;
          now <- Date_now ;;
          now' <- Date_now ;;
          ret (mkToolResult false (p_url params) false false (p_outputDir params)
                 None None None (mkStatistics 0 0 0 (now - now'))
                 ("Scraping error: " ++ msg)))
    (fun r => countersAddUp r /\ verdictsAgree r) (fun _ => False).
Proof.
  eapply yields_bind; [yields_quiet|]. intros _ _.
  eapply yields_bind; [yields_quiet|]. intros now _.
  eapply yields_bind; [yields_quiet|]. intros now' _.
  apply yields_ret. unfold countersAddUp, verdictsAgree. cbn.
  repeat split; lia.
Qed.

Lemma tool_execute_yields (env : Env) (params : Params) :
  yields (WebScraperTool.execute env params)
    (fun r => countersAddUp r /\ verdictsAgree r) (fun _ => False).
Proof.
  unfold WebScraperTool.execute.
  eapply yields_bind; [yields_quiet|]. intros _ _.
  apply yields_try_finally.
  eapply yields_try_catch with (E' := fun _ => True);
    [|intros msg _; apply tool_handler_returns].
  cbv zeta.
  eapply yields_bind; [apply yields_any|]. intros startTime _.
  eapply yields_bind; [apply yields_any|]. intros urlObj _.
  destruct (negb (existsb _ _)); [now apply yields_throw|].
  eapply yields_bind; [apply yields_any|]. intros _ _.
  eapply yields_bind; [apply yields_any|]. intros robotsAllowed _.
  destruct robotsAllowed; cbn [negb].
  2: { apply yields_ret. unfold countersAddUp, verdictsAgree. cbn.
       repeat split; lia. }
  eapply yields_bind; [apply yields_any|]. intros _ _.
  eapply yields_bind; [apply yields_any|]. intros _ _.
  eapply yields_bind; [apply yields_any|]. intros _ _.
  destruct (goto env (p_url params)) as [msg| |ok status statusText];
    try now apply yields_throw.
  destruct ok; cbn [negb]; [|now apply yields_throw].
  eapply yields_bind; [apply yields_any|]. intros _ _.
  eapply yields_bind; [apply yields_any|]. intros screenshots _.
  eapply yields_bind with (R := statsAddUp).
  { destruct (p_downloadAssets params).
    - eapply yields_weaken; [apply tool_downloadAndMapAssets_counts | tauto | tauto].
    - apply yields_ret. unfold statsAddUp. cbn. lia. }
  intros downloadResult (Hsum & Hd & Hf).
  destruct (Cli.replaceAssetUrls _ _) as [modifiedHtml|]; [|now apply yields_throw].
  eapply yields_bind; [apply yields_any|]. intros _ _.
  eapply yields_bind; [apply yields_any|]. intros scrapedAt _.
  eapply yields_bind; [apply yields_any|]. intros _ _.
  eapply yields_bind; [apply yields_any|]. intros now _.
  apply yields_ret. unfold countersAddUp, verdictsAgree. cbn.
  repeat split; try lia; discriminate.
Qed.

Lemma closeAll_run (env : Env) (s : State) :
  WebScraperTool.closeAll env s = (Normal tt, afterCleanup env s).
Proof. exact (cleanup_run env s). Qed.

Lemma closeAll_ends (env : Env) (s : State) :
  exists before,
    trace (snd (WebScraperTool.closeAll env s))
    = (before ++ if browser (snd (WebScraperTool.closeAll env s))
                 then closeCalls env else [])%list.
Proof.
  exists (trace s). rewrite closeAll_run. cbn [snd].
  destruct (afterCleanup_same env s) as (_ & Hb & _ & Ht). now rewrite Hb, Ht.
Qed.

Lemma tool_execute_returns (env : Env) (params : Params) (s : State) :
  exists r s',
    WebScraperTool.execute env params s = (Normal r, s')
    /\ countersAddUp r /\ verdictsAgree r
    /\ exists before,
         trace s' = (before ++ if browser s' then closeCalls env else [])%list.
Proof.
  pose proof (tool_execute_yields env params s) as H.
  assert (Hb : exists before,
             trace (snd (WebScraperTool.execute env params s))
             = (before
                ++ if browser (snd (WebScraperTool.execute env params s))
                   then closeCalls env else [])%list).
  { unfold WebScraperTool.execute, bind, modify, try_finally. cbn [fst snd].
    match goal with
    | |- context [try_catch ?b ?h ?s0] => destruct (try_catch b h s0) as [r s1]
    end.
    cbn [snd]. apply closeAll_ends. }
  destruct (WebScraperTool.execute env params s) as [[r|msg] s'];
    cbn [fst snd] in *; [|contradiction].
  exists r, s'. tauto.
Qed.


(** X18. The statistics of a tool result are under the names of the result
    contract and add up: [downloadedAssets + failedAssets = totalAssets],
    none negative, and all zero when the run did not succeed. *)
Theorem tool_statistics_add_up (env : Env) (params : Params) (s : State) :
  exists r s',
    WebScraperTool.execute env params s = (Normal r, s')
    /\ downloadedAssets (t_statistics r) + failedAssets (t_statistics r)
       = totalAssets (t_statistics r)
    /\ 0 <= downloadedAssets (t_statistics r)
    /\ 0 <= failedAssets (t_statistics r)
    /\ (t_success r = false -> totalAssets (t_statistics r) = 0).
Proof.
  destruct (tool_execute_returns env params s) as (r & s' & H & Hc & _ & _).
  exists r, s'. split; [exact H | exact Hc].
Qed.

(** X19. In every tool result [accessible] and [scrapingAllowed] are true
    exactly when [success] is. *)
Theorem tool_verdicts_agree (env : Env) (params : Params) (s : State) :
  exists r s',
    WebScraperTool.execute env params s = (Normal r, s')
    /\ t_accessible r = t_success r
    /\ t_scrapingAllowed r = t_success r.
Proof.
  destruct (tool_execute_returns env params s) as (r & s' & H & _ & Hv & _).
  exists r, s'. split; [exact H | exact Hv].
Qed.

(* ------------------------------------------------------------------ *)
(** ** The scraper tool of [src/cli.js]: validation and robots.txt     *)
(* ------------------------------------------------------------------ *)

Lemma tool_createDirectories_run (env : Env) (outputDir : string) (s : State) :
  WebScraperTool.createDirectories env outputDir s
  = (Normal tt, fold_left (afterMkdir env) (FileManager.directories outputDir) s).
Proof. apply (for_of_mkdir env (FileManager.directories outputDir)). Qed.

(** X20. The tool returns early when [robots.txt] disallows the URL: no error
    is raised or logged, the result is the initial one with the message
    set, and after the directories and the robots load nothing is
    called: no browser is started. *)
Theorem tool_robots_disallow_returns_early (env : Env) (params : Params)
    (u : Url.t) (s : State) :
  Url.parse (p_url params) = Some u ->
  validProtocol u = true ->
  p_respectRobots params = true ->
  robotsLoad env (robotsUrlOf u) = None ->
  robotsIsAllowed env (p_url params) = false ->
  exists r s',
    WebScraperTool.execute env params s = (Normal r, s')
    /\ t_success r = false
    /\ t_scrapingAllowed r = false
    /\ t_message r = "Access blocked by robots.txt"
    /\ trace s'
       = (trace s ++ map EvMkdir (FileManager.directories (p_outputDir params))
          ++ [EvRobotsLoad (robotsUrlOf u)])%list
    /\ console s' = console s.
Proof.
  intros Hp Hv Hr Hl Ha.
  unfold WebScraperTool.execute, try_finally, try_catch, new_URL.
  unfold bind at 1. unfold modify at 1. cbv beta iota.
  unfold bind at 1. unfold Date_now at 1. cbv beta iota.
  rewrite Hp. unfold bind at 1. unfold ret at 1. cbv beta iota.
  fold (validProtocol u). rewrite Hv. cbn [negb].
  unfold bind at 1. rewrite tool_createDirectories_run. cbv beta iota.
  pose proof (mkdirs_trace env (FileManager.directories (p_outputDir params))
                (set_browser false s)) as Ht.
  destruct (mkdirs_same env (FileManager.directories (p_outputDir params))
              (set_browser false s)) as [[_ Hb] Hc].
  set (s1 := fold_left _ _ _) in *. clearbody s1.
  rewrite Hr. fold (robotsUrlOf u). rewrite Hl, Ha.
  unfold bind, callThrowing, bind, call, modify, ret.
  cbn -[FileManager.directories robotsUrlOf WebScraperTool.closeAll].
  rewrite closeAll_run, afterCleanup_idle by exact Hb.
  do 2 eexists. split; [reflexivity|].
  cbn -[FileManager.directories robotsUrlOf].
  split; [reflexivity|]. split; [reflexivity|]. split; [reflexivity|].
  split; [|exact Hc].
  rewrite Ht. cbn [trace set_browser]. now rewrite <- app_assoc.
Qed.

Lemma tool_robots_disallow_returns_early_witness :
  exists r s',
    WebScraperTool.execute
      (site None false threeImages threeImagesHtml serve noCaptureError usualLatency)
      (request "https://example.com/private/") (boot 1700000000000)
    = (Normal r, s')
    /\ t_success r = false
    /\ t_scrapingAllowed r = false
    /\ t_message r = "Access blocked by robots.txt"
    /\ trace s'
       = (trace (boot 1700000000000)
          ++ map EvMkdir (FileManager.directories "./scraped-data")
          ++ [EvRobotsLoad "https://example.com/robots.txt"])%list
    /\ console s' = console (boot 1700000000000).
Proof.
  exact (tool_robots_disallow_returns_early
           (site None false threeImages threeImagesHtml serve
                 noCaptureError usualLatency)
           (request "https://example.com/private/")
           (Url.mk "https:" "example.com" "example.com" "/private/")
           (boot 1700000000000)
           eq_refl eq_refl eq_refl eq_refl eq_refl).
Defined.

Lemma tool_robots_step (env : Env) (robotsUrl : string) (load : option string)
    (allowed : bool) (s : State) :
  try_catch
    (callThrowing env (EvRobotsLoad robotsUrl) load ;; ret allowed)
    (fun _ => ret true) s
  = (Normal (match load with None => allowed | Some _ => true end),
     afterCall env (EvRobotsLoad robotsUrl) s).
Proof. destruct load; reflexivity. Qed.

(** X21. For the tool an error while loading [robots.txt] is the same as a
    file that allows the URL, whatever the error says: the run returns
    the same result and leaves the same state. *)
Theorem tool_robots_error_is_allow (env : Env) (params : Params) (u : Url.t)
    (msg : string) (s : State) :
  Url.parse (p_url params) = Some u ->
  robotsLoad env (robotsUrlOf u) = Some msg ->
  WebScraperTool.execute env params s
  = WebScraperTool.execute (robotsAllowing env) params s.
Proof.
  intros Hp Hl.
  unfold WebScraperTool.execute, try_finally, new_URL.
  unfold bind at 1. unfold modify at 1. cbv beta iota.
  unfold try_catch at 1.
  unfold bind at 1. unfold Date_now at 1. cbv beta iota.
  rewrite Hp. unfold bind at 1. unfold ret at 1. cbv beta iota.
  symmetry.
  unfold bind at 1. unfold modify at 1. cbv beta iota.
  unfold try_catch at 1.
  unfold bind at 1. unfold Date_now at 1. cbv beta iota.
  unfold bind at 1. unfold ret at 1. cbv beta iota.
  symmetry.
  destruct (negb (existsb _ _)); [reflexivity|].
  unfold bind at 1. rewrite tool_createDirectories_run. cbv beta iota.
  symmetry.
  unfold bind at 1. rewrite tool_createDirectories_run. cbv beta iota.
  symmetry.
  change (afterMkdir (robotsAllowing env)) with (afterMkdir env).
  set (s1 := fold_left _ _ _). clearbody s1.
  destruct (p_respectRobots params); [|reflexivity].
  fold (robotsUrlOf u).
  unfold bind at 1. rewrite tool_robots_step, Hl. cbv beta iota.
  symmetry.
  unfold bind at 1. rewrite tool_robots_step. cbv beta iota.
  reflexivity.
Qed.

Lemma tool_robots_error_is_allow_witness :
  WebScraperTool.execute
    (site (Some "Request blocked by the firewall") false threeImages
          threeImagesHtml serve noCaptureError usualLatency)
    (request "https://example.com/") (boot 1700000000000)
  = WebScraperTool.execute
      (robotsAllowing
         (site (Some "Request blocked by the firewall") false threeImages
               threeImagesHtml serve noCaptureError usualLatency))
      (request "https://example.com/") (boot 1700000000000).
Proof.
  exact (tool_robots_error_is_allow
           (site (Some "Request blocked by the firewall") false threeImages
                 threeImagesHtml serve noCaptureError usualLatency)
           (request "https://example.com/")
           (Url.mk "https:" "example.com" "example.com" "/")
           "Request blocked by the firewall"
           (boot 1700000000000) eq_refl eq_refl).
Defined.

(** X22. A URL that does not parse, or whose scheme is neither http nor
    https, makes the tool return a failure carrying the validation error
    before anything is called: no directory is created, the trace, the
    files and the clock are as before. *)
Theorem tool_invalid_url_touches_nothing (env : Env) (params : Params)
    (msg : string) (s : State) :
  validationError (p_url params) = Some msg ->
  exists r s',
    WebScraperTool.execute env params s = (Normal r, s')
    /\ t_success r = false
    /\ t_accessible r = false
    /\ t_message r = "Scraping error: " ++ msg
    /\ trace s' = trace s
    /\ files s' = files s
    /\ clock s' = clock s.
Proof.
  unfold validationError. intros H.
  unfold WebScraperTool.execute, try_finally, new_URL.
  unfold bind at 1. unfold modify at 1. cbv beta iota.
  unfold try_catch at 1.
  unfold bind at 1. unfold Date_now at 1. cbv beta iota.
  destruct (Url.parse (p_url params)) as [u|].
  - unfold bind at 1. unfold ret at 1. cbv beta iota.
    fold (validProtocol u). destruct (validProtocol u); [discriminate H|].
    inversion H; subst msg. cbn [negb].
    do 2 eexists. split; [reflexivity|]. repeat split.
  - inversion H; subst msg.
    do 2 eexists. split; [reflexivity|]. repeat split.
Qed.

Lemma tool_invalid_url_touches_nothing_witness :
  exists r s',
    WebScraperTool.execute
      (site None true threeImages threeImagesHtml serve noCaptureError usualLatency)
      (request "ftp://example.com/file.txt") (boot 1700000000000)
    = (Normal r, s')
    /\ t_success r = false
    /\ t_accessible r = false
    /\ t_message r = "Scraping error: " ++ "Only HTTP and HTTPS URLs are supported"
    /\ trace s' = trace (boot 1700000000000)
    /\ files s' = files (boot 1700000000000)
    /\ clock s' = clock (boot 1700000000000).
Proof.
  exact (tool_invalid_url_touches_nothing
           (site None true threeImages threeImagesHtml serve
                 noCaptureError usualLatency)
           (request "ftp://example.com/file.txt")
           "Only HTTP and HTTPS URLs are supported"
           (boot 1700000000000) eq_refl).
Defined.

(** X23. The two implementations name a file alike: for the same path, type
    and clock reading the names have the same stem, hash and extension
    and differ in the separator after the stem only, a hyphen in
    [scraper.js] and an underscore in [cli.js]. *)
Theorem namers_differ_in_separator (now : Z) (pathname : string) (t : AssetType) :
  exists stem tail : string,
    AssetNamer.filenameAt now pathname t = stem ++ "-" ++ tail
    /\ WebScraperTool.assetFilenameAt now pathname t = stem ++ "_" ++ tail.
Proof.
  assert (Hext : Js.or_else (Path.extname pathname)
                   (WebScraperTool.getDefaultExtension t)
                 = extensionOf pathname t).
  { unfold extensionOf, WebScraperTool.getDefaultExtension, Js.or_else.
    destruct (String.eqb_spec (Path.extname pathname) "") as [E|E].
    - now destruct t.
    - destruct (String.eqb_spec (Path.extname pathname) "");
        [contradiction | reflexivity]. }
  unfold AssetNamer.filenameAt, WebScraperTool.assetFilenameAt.
  fold (extensionOf pathname t). rewrite Hext.
  now eexists _, _.
Qed.

(* ------------------------------------------------------------------ *)
(** ** The URL validator                                               *)
(* ------------------------------------------------------------------ *)

Lemma prefix_sound (t s : string) :
  String.prefix t s = true -> exists b, Js.chars s = (Js.chars t ++ b)%list.
Proof.
  revert s. induction t as [|c t IH]; intros s H.
  - now exists (Js.chars s).
  - destruct s as [|x s]; [discriminate H|].
    cbn [String.prefix] in H.
    destruct (ascii_dec c x) as [->|]; [|discriminate H].
    destruct (IH s H) as (b & Hb). exists b.
    unfold Js.chars in *. cbn [list_ascii_of_string app]. now rewrite Hb.
Qed.

Lemma includes_sound (t s : string) :
  Js.includes t s = true ->
  exists a b, Js.chars s = (a ++ Js.chars t ++ b)%list.
Proof.
  induction s as [|x s IH]; rewrite includes_unfold; intros H.
  - rewrite orb_false_r in H. apply prefix_sound in H as (b & Hb). now exists [], b.
  - apply orb_true_iff in H as [H|H].
    + apply prefix_sound in H as (b & Hb). now exists [], b.
    + destruct (IH H) as (a & b & Hab). exists (x :: a), b.
      unfold Js.chars in *. cbn [list_ascii_of_string app]. now rewrite Hab.
Qed.

Lemma toLowerCase_app (a b : string) :
  toLowerCase (a ++ b) = toLowerCase a ++ toLowerCase b.
Proof.
  unfold toLowerCase. rewrite chars_app, map_app.
  rewrite <- (str_chars (Js.str (map lowerChar (Js.chars a))
                         ++ Js.str (map lowerChar (Js.chars b)))).
  now rewrite chars_app, !chars_str.
Qed.

(** X24. The check is monotone: content that holds flagged content is
    flagged, whatever comes before and after it. *)
Theorem malicious_content_spreads (before content after : string) :
  checkForMaliciousContent content = true ->
  checkForMaliciousContent (before ++ content ++ after) = true.
Proof.
  unfold checkForMaliciousContent. intros H.
  apply existsb_exists in H as (indicator & Hin & H).
  apply existsb_exists. exists indicator. split; [exact Hin|].
  apply includes_sound in H as (a & b & Hab).
  rewrite !toLowerCase_app.
  rewrite <- (str_chars (toLowerCase before ++ toLowerCase content
                         ++ toLowerCase after)).
  rewrite !chars_app, Hab.
  replace (Js.chars (toLowerCase before) ++ (a ++ Js.chars indicator ++ b)
           ++ Js.chars (toLowerCase after))%list
    with ((Js.chars (toLowerCase before) ++ a) ++ Js.chars indicator
          ++ (b ++ Js.chars (toLowerCase after)))%list
    by now rewrite <- !app_assoc.
  apply includes_complete.
Qed.

Lemma malicious_content_spreads_witness :
  checkForMaliciousContent
    ("<html><body><h1>" ++ "Deceptive Site Ahead" ++ "</h1></body></html>") = true.
Proof.
  exact (malicious_content_spreads "<html><body><h1>" "Deceptive Site Ahead"
           "</h1></body></html>" eq_refl).
Defined.

Lemma crawl_last (env : ValidatorEnv) (params : ValidatorParams) :
  ve_crawlError env = None ->
  cr_accessible (UrlValidator.crawl env params)
  = cr_accessible
      (fold_left (UrlValidator.onCallback params) (ve_callbacks env)
         (mkCrawlerResult false None None None false (Some "Request not processed")))
  /\ cr_isMalicious (UrlValidator.crawl env params)
     = cr_isMalicious
         (fold_left (UrlValidator.onCallback params) (ve_callbacks env)
            (mkCrawlerResult false None None None false
               (Some "Request not processed"))).
Proof.
  intros He. unfold UrlValidator.crawl. rewrite He.
  set (r := fold_left _ _ _). clearbody r.
  destruct (negb (cr_accessible r) && _); now split.
Qed.

Lemma crawl_accessible (env : ValidatorEnv) (params : ValidatorParams) :
  cr_accessible (UrlValidator.crawl env params) = true ->
  ve_crawlError env = None
  /\ exists before v,
       ve_callbacks env = (before ++ [requestHandler v])%list
       /\ loaded v = true
       /\ cr_isMalicious (UrlValidator.crawl env params)
          = checkForMaliciousContent (v_content v).
Proof.
  intros H.
  assert (He : ve_crawlError env = None).
  { unfold UrlValidator.crawl in H.
    destruct (ve_crawlError env); [discriminate H | reflexivity]. }
  split; [exact He|].
  destruct (crawl_last env params He) as [Ha Hm]. rewrite Hm. rewrite Ha in H.
  clear Ha Hm He. revert H. generalize (ve_callbacks env). intros l H.
  induction l as [|c l _] using rev_ind; [discriminate H|].
  rewrite fold_left_app in *. cbn [fold_left] in *.
  set (r0 := fold_left _ l _) in *. clearbody r0.
  destruct c as [v|msg]; cbn [UrlValidator.onCallback] in *; [|discriminate H].
  exists l, v. split; [reflexivity|]. unfold loaded.
  destruct (v_goto v); [discriminate H | now split | now split].
Qed.

(** X25. The validator approves a URL only on the strength of the last thing
    the crawler reported: [scrapingAllowed] is true only if the URL is
    valid, the crawler raised no error, its last callback was a visit
    that loaded the page, and the content seen then holds none of the
    indicators; [success] and [accessible] are then true as well. *)
Theorem validator_approval_is_grounded (env : ValidatorEnv)
    (params : ValidatorParams) :
  vr_scrapingAllowed (UrlValidator.execute env params) = true ->
  vr_success (UrlValidator.execute env params) = true
  /\ vr_accessible (UrlValidator.execute env params) = true
  /\ validationError (vp_url params) = None
  /\ ve_crawlError env = None
  /\ exists before v,
       ve_callbacks env = (before ++ [requestHandler v])%list
       /\ loaded v = true
       /\ checkForMaliciousContent (v_content v) = false.
Proof.
  unfold UrlValidator.execute, validationError.
  destruct (Url.parse (vp_url params)) as [u|]; [|discriminate].
  fold (validProtocol u). destruct (validProtocol u); [|discriminate].
  cbn [negb].
  destruct (if vp_respectRobots params then _ else _) as [robotsAllowed recs].
  destruct robotsAllowed; cbn [negb]; [|discriminate].
  destruct (cr_accessible (UrlValidator.crawl env params)) eqn:Ha; [|discriminate].
  destruct (crawl_accessible env params Ha) as (He & before & v & Hc & Hl & Hm).
  destruct (cr_isMalicious (UrlValidator.crawl env params)); [discriminate|].
  intros _. repeat split; try assumption.
  exists before, v. repeat split; try assumption. now symmetry.
Qed.

(** X26. In every result of the validator [success] and [accessible] are the
    same, and [scrapingAllowed] is never true without them. *)
Theorem validator_verdicts_agree (env : ValidatorEnv) (params : ValidatorParams) :
  vr_success (UrlValidator.execute env params)
  = vr_accessible (UrlValidator.execute env params)
  /\ (vr_scrapingAllowed (UrlValidator.execute env params) = true ->
      vr_accessible (UrlValidator.execute env params) = true).
Proof.
  unfold UrlValidator.execute.
  destruct (Url.parse (vp_url params)) as [u|]; [|now split].
  destruct (negb (existsb _ _)); [now split|].
  destruct (if vp_respectRobots params then _ else _) as [robotsAllowed recs].
  destruct robotsAllowed; cbn [negb]; [|now split].
  destruct (cr_accessible (UrlValidator.crawl env params)); [|now split].
  destruct (cr_isMalicious (UrlValidator.crawl env params)); now split.
Qed.

Lemma validator_approval_is_grounded_witness :
  vr_success
    (UrlValidator.execute secondAttemptLoads (validatorRequest "https://example.com/"))
  = true
  /\ vr_accessible
       (UrlValidator.execute secondAttemptLoads
          (validatorRequest "https://example.com/")) = true
  /\ validationError "https://example.com/" = None
  /\ ve_crawlError secondAttemptLoads = None
  /\ exists before v,
       ve_callbacks secondAttemptLoads = (before ++ [requestHandler v])%list
       /\ loaded v = true
       /\ checkForMaliciousContent (v_content v) = false.
Proof.
  exact (validator_approval_is_grounded secondAttemptLoads
           (validatorRequest "https://example.com/") eq_refl).
Defined.

(* ------------------------------------------------------------------ *)
(** ** The metadata of the page                                        *)
(* ------------------------------------------------------------------ *)

Lemma get_meta_fold (k : string) (metas : list MetaElement) :
  forall metadata : JsObject string,
    Obj.get k
      (fold_left
         (fun metadata meta =>
            let name :=
              orAttribute (orAttribute (meta_name meta) (meta_property meta))
                          (meta_httpEquiv meta) in
            let content := meta_content meta in
            match name, content with
            | Some n, Some c =>
                if Js.truthy name && Js.truthy content then Obj.assign n c metadata
                else metadata
            | _, _ => metadata
            end)
         metas metadata)
    = match lastContent k metas with
      | Some c => Some c
      | None => Obj.get k metadata
      end.
Proof.
  induction metas as [|meta rest IH]; intros metadata; [reflexivity|].
  cbn [fold_left lastContent]. rewrite IH.
  destruct (lastContent k rest) as [c|]; [reflexivity|].
  unfold metaEntry. cbv zeta.
  destruct (orAttribute _ _) as [n|]; [|reflexivity].
  destruct (meta_content meta) as [c|]; [|reflexivity].
  unfold Js.truthy, Obj.assign.
  destruct (String.eqb n ""); cbn [negb andb]; [reflexivity|].
  destruct (String.eqb c ""); cbn [negb andb]; [reflexivity|].
  destruct (String.eqb_spec n "__proto__") as [->|Hp]; cbn [negb]; [reflexivity|].
  destruct (String.eqb_spec k n) as [->|Hk].
  - apply get_set_same.
  - now apply get_set_other.
Qed.

(** X27. Looking a key up in the extracted metadata: the four entries on the
    page itself ([lang], [charset], [url], [domain]) are always there
    and come from the document, whatever the [meta] elements say; any
    other key holds the content of the last [meta] element of that
    name, and is absent when there is none. *)
Theorem extractMetadata_lookup (document : Document) (k : string) :
  Obj.get k (PageExtractor.extractMetadata document)
  = match pageInfo document k with
    | Some v => Some v
    | None => lastContent k (metaElements document)
    end.
Proof.
  unfold PageExtractor.extractMetadata, pageInfo. cbv zeta.
  destruct (String.eqb_spec k "domain") as [->|Hd]; [apply get_set_same|].
  rewrite get_set_other by exact Hd.
  destruct (String.eqb_spec k "url") as [->|Hu]; [apply get_set_same|].
  rewrite get_set_other by exact Hu.
  destruct (String.eqb_spec k "charset") as [->|Hc]; [apply get_set_same|].
  rewrite get_set_other by exact Hc.
  destruct (String.eqb_spec k "lang") as [->|Hl]; [apply get_set_same|].
  rewrite get_set_other by exact Hl.
  rewrite get_meta_fold. now destruct (lastContent k (metaElements document)).
Qed.

(* ------------------------------------------------------------------ *)
(** ** The project builder: finding the captures again                 *)
(* ------------------------------------------------------------------ *)

Lemma includes_iff (t s : string) :
  Js.includes t s = true
  <-> exists a b, Js.chars s = (a ++ Js.chars t ++ b)%list.
Proof.
  split; [apply includes_sound|].
  intros (a & b & H). rewrite <- (str_chars s), H. apply includes_complete.
Qed.

Lemma prefix_before (c : ascii) (t l1 l2 y : list ascii) :
  ~ In c t -> (l1 ++ c :: l2 = t ++ y)%list -> exists y', l1 = (t ++ y')%list.
Proof.
  intros Hc. revert l1. induction t as [|x t IH]; intros l1 H.
  - now exists l1.
  - destruct l1 as [|h l1].
    + cbn in H. inversion H; subst. exfalso. apply Hc. now left.
    + cbn in H. inversion H; subst.
      destruct (IH (fun Hin => Hc (or_intror Hin)) l1 H2) as (y' & ->).
      now exists y'.
Qed.

(** An occurrence of a text cannot straddle a character the text does
    not hold. *)
Lemma occurrence_sides (c : ascii) (t a b y : list ascii) :
  ~ In c t ->
  forall x,
    (a ++ c :: b = x ++ t ++ y)%list ->
    (exists y', a = (x ++ t ++ y')%list) \/ (exists x', b = (x' ++ t ++ y)%list).
Proof.
  intros Hc. induction a as [|h a IH]; intros x H.
  - destruct x as [|x0 x].
    + destruct (prefix_before c t [] b y Hc H) as (y' & Hy). left.
      exists y'. exact Hy.
    + cbn in H. inversion H; subst. right. now exists x.
  - destruct x as [|x0 x].
    + destruct (prefix_before c t (h :: a) b y Hc H) as (y' & Hy). left.
      exists y'. exact Hy.
    + cbn in H. inversion H; subst.
      destruct (IH x H2) as [(y' & ->)|(x' & ->)].
      * left. now exists y'.
      * right. now exists x'.
Qed.

Lemma includes_sep (t a b : string) (c : ascii) :
  ~ In c (Js.chars t) ->
  Js.includes t (a ++ String c b) = Js.includes t a || Js.includes t b.
Proof.
  intros Hc. apply eq_true_iff_eq. rewrite orb_true_iff, !includes_iff.
  rewrite chars_app. change (Js.chars (String c b)) with (c :: Js.chars b).
  split.
  - intros (x & y & H).
    destruct (occurrence_sides c _ _ _ _ Hc x H) as [(y' & Hy)|(x' & Hx)].
    + left. now exists x, y'.
    + right. now exists x', y.
  - intros [(x & y & ->)|(x & y & ->)].
    + exists x, (y ++ c :: Js.chars b)%list. now rewrite <- !app_assoc.
    + exists (Js.chars a ++ c :: x)%list, y. now rewrite <- !app_assoc.
Qed.

Lemma digits_uint (d : Decimal.uint) :
  Forall (fun c => Obj.isDigit c = true) (Js.chars (NilEmpty.string_of_uint d)).
Proof.
  induction d; cbn [NilEmpty.string_of_uint Js.chars list_ascii_of_string];
    constructor; try reflexivity; assumption.
Qed.

Lemma digits_toString (n : Z) :
  Forall (fun c => Obj.isDigit c = true) (Js.chars (Js.toString n)).
Proof.
  unfold Js.toString, NilZero.string_of_uint.
  destruct (N.to_uint (Z.to_N n)) eqn:E; try (rewrite <- E; apply digits_uint).
  repeat constructor.
Qed.

(** A text holding a letter does not occur in a decimal numeral. *)
Lemma includes_toString (t : string) (c : ascii) (n : Z) :
  In c (Js.chars t) -> Obj.isDigit c = false ->
  Js.includes t (Js.toString n) = false.
Proof.
  intros Hin Hc. destruct (Js.includes t (Js.toString n)) eqn:E; [|reflexivity].
  apply includes_sound in E as (a & b & H).
  pose proof (digits_toString n) as Hd. rewrite H in Hd.
  apply Forall_app in Hd as [_ Hd]. apply Forall_app in Hd as [Hd _].
  rewrite Forall_forall in Hd. specialize (Hd c Hin). congruence.
Qed.

Lemma captureName_kind (hostname kind : string) (t : Z) :
  Js.includes kind (captureName hostname kind t) = true.
Proof.
  unfold captureName. apply includes_iff.
  exists (Js.chars (hostname ++ "-")), (Js.chars ("-" ++ Js.toString t ++ ".png")).
  now rewrite !chars_app, <- !app_assoc.
Qed.

Lemma mobile_name_not_desktop (hostname : string) (t : Z) :
  Js.includes "desktop" hostname = false ->
  Js.includes "desktop" (captureName hostname "mobile" t) = false.
Proof.
  intros H. unfold captureName.
  change (hostname ++ "-" ++ "mobile" ++ "-" ++ Js.toString t ++ ".png")
    with (hostname ++ String "-" ("mobile" ++ String "-" (Js.toString t ++ String "." "png"))).
  assert (Hdash : ~ In "-"%char (Js.chars "desktop")).
  { cbn. intros [E|[E|[E|[E|[E|[E|[E|[]]]]]]]]; discriminate E. }
  assert (Hdot : ~ In "."%char (Js.chars "desktop")).
  { cbn. intros [E|[E|[E|[E|[E|[E|[E|[]]]]]]]]; discriminate E. }
  rewrite (includes_sep _ _ _ _ Hdash), H.
  rewrite (includes_sep _ _ _ _ Hdash).
  rewrite (includes_sep _ _ _ _ Hdot).
  rewrite (includes_toString "desktop" "d" t); [reflexivity | now left | reflexivity].
Qed.

Lemma find_captures (screenshotsPath dName mName : string) (files : list string) :
  Js.includes "desktop" dName = true ->
  Js.includes "desktop" mName = false ->
  Js.includes "mobile" mName = true ->
  (forall f, In f files -> f = dName \/ f = mName \/ unrelated f = true) ->
  forall acc : Screenshots,
    fold_left
      (fun screenshots file =>
         let filePath := Path.join [screenshotsPath; file] in
         if Js.includes "desktop" file then
           mkScreenshots (Some filePath) (mobile screenshots)
         else if Js.includes "mobile" file then
           mkScreenshots (desktop screenshots) (Some filePath)
         else screenshots)
      files acc
    = mkScreenshots
        (if existsb (String.eqb dName) files
         then Some (Path.join [screenshotsPath; dName]) else desktop acc)
        (if existsb (String.eqb mName) files
         then Some (Path.join [screenshotsPath; mName]) else mobile acc).
Proof.
  intros Hd Hm1 Hm2. induction files as [|f files IH]; intros Hall acc.
  - now destruct acc.
  - assert (Hne : String.eqb dName mName = false).
    { destruct (String.eqb_spec dName mName) as [E|]; [|reflexivity].
      rewrite E in Hd. congruence. }
    assert (Hne' : String.eqb mName dName = false)
      by (rewrite String.eqb_sym; exact Hne).
    cbn [fold_left existsb]. cbv zeta.
    rewrite IH by (intros g Hg; apply Hall; now right).
    destruct (Hall f (or_introl eq_refl)) as [->|[->|Hu]].
    + rewrite Hd, String.eqb_refl, Hne'. cbn [orb desktop mobile].
      now destruct (existsb (String.eqb dName) files).
    + rewrite Hm1, Hm2, String.eqb_refl, Hne. cbn [orb desktop mobile].
      now destruct (existsb (String.eqb mName) files).
    + unfold unrelated in Hu. apply andb_true_iff in Hu as [Hu1 Hu2].
      apply negb_true_iff in Hu1, Hu2. rewrite Hu1, Hu2.
      destruct (String.eqb_spec dName f) as [<-|_]; [congruence|].
      destruct (String.eqb_spec mName f) as [<-|_]; [congruence|].
      reflexivity.
Qed.

(** X28. The builder finds the captures of a snapshot again: for a host name
    that does not itself contain the word desktop, reading a screenshot
    directory that holds the two captures [captureScreenshots] saved,
    in any order and among any files named after neither kind, gives
    the two paths [captureScreenshots] returned. *)
Theorem builder_finds_captures (disk : Disk) (outputDir hostname : string)
    (t : Z) (files : list string) :
  Js.includes "desktop" hostname = false ->
  readdirSync disk (FileManager.getScreenshotPath outputDir) = Entries files ->
  In (captureName hostname "desktop" t) files ->
  In (captureName hostname "mobile" t) files ->
  (forall f, In f files ->
             f = captureName hostname "desktop" t
             \/ f = captureName hostname "mobile" t
             \/ unrelated f = true) ->
  NextJSBuilder.loadScreenshotsInteractive disk
    (FileManager.getScreenshotPath outputDir)
  = mkScreenshots (Some (capturePath outputDir hostname "desktop" t))
                  (Some (capturePath outputDir hostname "mobile" t)).
Proof.
  intros Hhost Hread Hd Hm Hall.
  unfold NextJSBuilder.loadScreenshotsInteractive. rewrite Hread.
  rewrite (find_captures _ (captureName hostname "desktop" t)
             (captureName hostname "mobile" t) files
             (captureName_kind hostname "desktop" t)
             (mobile_name_not_desktop hostname t Hhost)
             (captureName_kind hostname "mobile" t) Hall).
  assert (H1 : existsb (String.eqb (captureName hostname "desktop" t)) files = true).
  { apply existsb_exists. eexists. split; [exact Hd | apply String.eqb_refl]. }
  assert (H2 : existsb (String.eqb (captureName hostname "mobile" t)) files = true).
  { apply existsb_exists. eexists. split; [exact Hm | apply String.eqb_refl]. }
  now rewrite H1, H2.
Qed.

Lemma builder_finds_captures_witness :
  NextJSBuilder.loadScreenshotsInteractive snapshotDisk
    (FileManager.getScreenshotPath "./scraped-data")
  = mkScreenshots
      (Some (capturePath "./scraped-data" "example.com" "desktop" 1700000002000))
      (Some (capturePath "./scraped-data" "example.com" "mobile" 1700000002000)).
Proof.
  apply (builder_finds_captures snapshotDisk "./scraped-data" "example.com"
           1700000002000
           [ captureName "example.com" "mobile" 1700000002000;
             "notes.txt";
             captureName "example.com" "desktop" 1700000002000 ]).
  - reflexivity.
  - reflexivity.
  - right. right. left. reflexivity.
  - left. reflexivity.
  - intros f [<-|[<-|[<-|[]]]].
    + right. left. reflexivity.
    + right. right. reflexivity.
    + left. reflexivity.
Defined.

(* ------------------------------------------------------------------ *)
(** ** The project builder: the asset listing                          *)
(* ------------------------------------------------------------------ *)

Lemma listed_entries (disk : Disk) (typePath : string) (type : AssetType)
    (files : list string) (f : AssetFile) :
  In f (map (fun file =>
               mkAssetFile file (Path.join ["assets"; dirName type; file])
                 (NextJSBuilder.getFileSize disk (Path.join [typePath; file]))
                 (Path.extname file))
            files) ->
  listedAs type f.
Proof.
  intros H. apply in_map_iff in H as (file & <- & _). now split.
Qed.

(** X29. When no directory listing fails, the asset listing is returned, its
    [total] is the number of entries in its four lists, and every entry
    has the relative path [assets/type/name] and the extension of its
    name. *)
Theorem asset_listing_counts_entries (disk : Disk) (assetsPath : string) :
  (forall type msg,
      readdirSync disk (Path.join [assetsPath; dirName type]) <> ReaddirThrows msg) ->
  exists info,
    NextJSBuilder.loadAssetsInfoInteractive disk assetsPath = Normal info
    /\ ai_total info
       = Z.of_nat (List.length (ai_images info) + List.length (ai_stylesheets info)
                   + List.length (ai_scripts info) + List.length (ai_fonts info))
    /\ forall type f, In f (ofType type info) -> listedAs type f.
Proof.
  intros Hread. unfold NextJSBuilder.loadAssetsInfoInteractive.
  cbn [fold_left]. cbv zeta.
  pose proof (Hread images) as H1. pose proof (Hread stylesheets) as H2.
  pose proof (Hread scripts) as H3. pose proof (Hread fonts) as H4.
  destruct (readdirSync disk (Path.join [assetsPath; dirName images]))
    as [l1|m]; [|now destruct (H1 m)].
  destruct (readdirSync disk (Path.join [assetsPath; dirName stylesheets]))
    as [l2|m]; [|now destruct (H2 m)].
  destruct (readdirSync disk (Path.join [assetsPath; dirName scripts]))
    as [l3|m]; [|now destruct (H3 m)].
  destruct (readdirSync disk (Path.join [assetsPath; dirName fonts]))
    as [l4|m]; [|now destruct (H4 m)].
  clear.
  destruct (existsSync disk (Path.join [assetsPath; dirName images]));
    destruct (existsSync disk (Path.join [assetsPath; dirName stylesheets]));
    destruct (existsSync disk (Path.join [assetsPath; dirName scripts]));
    destruct (existsSync disk (Path.join [assetsPath; dirName fonts]));
    (eexists; split; [reflexivity|];
     cbn [ai_total ai_images ai_stylesheets ai_scripts ai_fonts setType addTotal
          List.length];
     split;
     [ rewrite ?length_map; lia
     | intros type f Hf; destruct type;
       cbn [ofType setType addTotal ai_images ai_stylesheets ai_scripts ai_fonts] in Hf;
       first [contradiction | now apply listed_entries in Hf] ]).
Qed.

Lemma asset_listing_counts_entries_witness :
  exists info,
    NextJSBuilder.loadAssetsInfoInteractive snapshotDisk "scraped-data/assets"
    = Normal info
    /\ ai_total info
       = Z.of_nat (List.length (ai_images info) + List.length (ai_stylesheets info)
                   + List.length (ai_scripts info) + List.length (ai_fonts info))
    /\ forall type f, In f (ofType type info) -> listedAs type f.
Proof.
  apply (asset_listing_counts_entries snapshotDisk "scraped-data/assets").
  intros type msg. destruct type; vm_compute; discriminate.
Defined.

(* ------------------------------------------------------------------ *)
(** ** The extension of a stored asset                                 *)
(* ------------------------------------------------------------------ *)

Lemma dropSlashes_id (l : list ascii) : noSlash l -> Path.dropSlashes l = l.
Proof.
  intros H. destruct l as [|c l]; [reflexivity|].
  inversion H as [|? ? Hc _]; subst. cbn [Path.dropSlashes]. now rewrite Hc.
Qed.

Lemma untilSlash_id (l : list ascii) : noSlash l -> Path.untilSlash l = l.
Proof.
  induction 1 as [|c l Hc _ IH]; [reflexivity|].
  cbn [Path.untilSlash]. now rewrite Hc, IH.
Qed.

Lemma splitAtDot_noDot (r : list ascii) :
  forall acc after rest,
    noDot acc -> Path.splitAtDot r acc = Some (after, rest) -> noDot after.
Proof.
  induction r as [|c r IH]; intros acc after rest Hacc H; [discriminate|].
  cbn [Path.splitAtDot] in H.
  destruct (Ascii.eqb c ".") eqn:E; [now inversion H; subst|].
  apply (IH (c :: acc) after rest); [now constructor | exact H].
Qed.

Lemma splitAtDot_found (after : list ascii) :
  noDot after ->
  forall acc rest,
    Path.splitAtDot (rev after ++ "."%char :: rest) acc
    = Some ((after ++ acc)%list, rest).
Proof.
  induction after as [|c after IH] using rev_ind; intros Hd acc rest.
  - reflexivity.
  - apply Forall_app in Hd as [Hd Hc]. inversion Hc as [|? ? Hc' _]; subst.
    rewrite rev_app_distr. cbn [rev app Path.splitAtDot]. rewrite Hc'.
    rewrite IH by exact Hd. now rewrite <- app_assoc.
Qed.

(** The extension of a name without separators that ends in a dot and a
    dotless text, with at least two characters before the dot. *)
Lemma extname_of_chars (s : string) (front after : list ascii) :
  Js.chars s = (front ++ "."%char :: after)%list ->
  noSlash front -> noSlash after -> noDot after ->
  (2 <= List.length front)%nat ->
  Path.extname s = Js.str ("."%char :: after).
Proof.
  intros Hs Hf Ha Hd Hlen.
  unfold Path.extname, Path.lastSegmentRev. rewrite Hs.
  rewrite rev_app_distr. cbn [rev]. rewrite <- app_assoc. cbn [app].
  assert (Hns : noSlash (rev after ++ "."%char :: rev front)).
  { apply Forall_app. split; [now apply Forall_rev|].
    constructor; [reflexivity | now apply Forall_rev]. }
  rewrite dropSlashes_id, untilSlash_id by exact Hns.
  rewrite splitAtDot_found by exact Hd. rewrite app_nil_r.
  assert (Hr : (2 <= List.length (rev front))%nat) by now rewrite length_rev.
  destruct (rev front) as [|x [|y r]]; cbn [List.length] in Hr; try lia.
  destruct after; [|reflexivity].
  now destruct x as [[] [] [] [] [] [] [] []].
Qed.

Lemma extname_form (p : string) :
  Path.extname p = ""
  \/ exists after, Path.extname p = Js.str ("."%char :: after)
                   /\ noDot after /\ noSlash after.
Proof.
  unfold Path.extname, Path.lastSegmentRev.
  destruct (Path.splitAtDot _ []) as [[after rest]|] eqn:E; [|now left].
  pose proof (splitAtDot_noDot _ _ _ _ (Forall_nil _) E) as Hd.
  pose proof (splitAtDot_noSlash _ _ _ _ (untilSlash_noSlash _) (Forall_nil _) E)
    as Hs.
  assert (H : exists a, Js.str ("."%char :: after) = Js.str ("."%char :: a)
                        /\ noDot a /\ noSlash a) by now exists after.
  repeat match goal with
         | |- (match ?x with _ => _ end = _) \/ _ => destruct x
         end;
    first [now left | right; exact H].
Qed.

Lemma extensionOf_form (pathname : string) (t : AssetType) :
  exists after,
    Js.chars (extensionOf pathname t) = "."%char :: after
    /\ noDot after /\ noSlash after.
Proof.
  unfold extensionOf, Js.or_else.
  destruct (extname_form pathname) as [E|(after & E & Hd & Hs)].
  - rewrite E. cbn [String.eqb].
    destruct t; cbn; eexists; (split; [reflexivity|]);
      split; repeat constructor.
  - rewrite E.
    assert (Hne : String.eqb (Js.str ("."%char :: after)) "" = false) by reflexivity.
    rewrite Hne. cbn [negb]. rewrite Hne.
    exists after. split; [apply chars_str | now split].
Qed.

(** X30. The extension read back from a stored name is the one the name was
    given: [path.extname] of the name [generateFilename] builds is the
    extension of the asset's path, or else the default of its type. *)
Theorem stored_name_keeps_extension (now : Z) (pathname : string) (t : AssetType) :
  Path.extname (AssetNamer.filenameAt now pathname t) = extensionOf pathname t.
Proof.
  destruct (extensionOf_form pathname t) as (after & Hext & Hd & Hs).
  rewrite <- (str_chars (extensionOf pathname t)), Hext.
  unfold AssetNamer.filenameAt. fold (extensionOf pathname t).
  destruct (hash_prefix (pathname ++ Js.toString now)) as [Hhex Hlen].
  set (stem := RegExp.replace AssetNamer.unsafeChar "_" _).
  set (hash := Js.substring0 8 _) in *.
  apply (extname_of_chars _ (Js.chars stem ++ "-"%char :: Js.chars hash)).
  - rewrite !chars_app, Hext. change (Js.chars "-") with ["-"%char].
    now rewrite <- !app_assoc.
  - apply Forall_app. split.
    + apply nameChar_noSlash. subst stem. rewrite replace_sanitized.
      apply sanitized_name.
    + constructor; [reflexivity | now apply lowerHex_noSlash].
  - exact Hs.
  - exact Hd.
  - rewrite length_app. cbn [List.length]. rewrite Hlen. lia.
Qed.

(* ------------------------------------------------------------------ *)
(** ** What a successful run saves                                     *)
(* ------------------------------------------------------------------ *)

(** X10. In a snapshot that succeeds, the markup written to [index.html] is
    the markup returned in the result, and it is the captured markup
    rewritten by [replaceAssetUrls] with the mapping the result
    carries. *)
Theorem saved_markup_is_rewritten_capture (env : Env) (params : Params)
    (u : Url.t) (status : Z) (statusText : string) (s : State) :
  Url.parse (p_url params) = Some u ->
  validProtocol u = true ->
  robotsPass env params u = true ->
  launch env = None ->
  goto env (p_url params) = GotoResponse true status statusText ->
  exists modifiedHtml,
    success (fst (WebScraper.execute env params s)) = true
    /\ AssetMapper.replaceAssetUrls (pageContent env)
         (assetMapping (fst (WebScraper.execute env params s)))
       = Some modifiedHtml
    /\ html (scrapedData (fst (WebScraper.execute env params s)))
       = Some modifiedHtml
    /\ In (EvWriteFile (Path.join [p_outputDir params; "index.html"])
                       (Text modifiedHtml))
          (trace (snd (WebScraper.execute env params s))).
Proof.
  intros Hp Hv Hrobots Hlaunch Hgoto.
  set (s0 := set_browser false (set_result (WebScraper.initialResult params) s)).
  assert (Hrun : exists s' m,
            WebScraper.scrape env params s0 = (Normal (result s'), s')
            /\ success (result s') = true
            /\ AssetMapper.replaceAssetUrls (pageContent env)
                 (assetMapping (result s')) = Some m
            /\ html (scrapedData (result s')) = Some m
            /\ In (EvWriteFile (Path.join [p_outputDir params; "index.html"])
                               (Text m)) (trace s')).
  { unfold WebScraper.scrape.
    rewrite (bind_Normal _ _ s0 s0 (clock s0)) by reflexivity.
    unfold try_finally, try_catch. unfold bind at 1.
    rewrite (bind_Normal _ _ _ _ _ (validateUrl_ok env params u s0 Hp Hv)).
    rewrite (bind_Normal _ _ _ _ _ (createDirectoryStructure_run env _ s0)).
    set (s1 := fold_left (afterMkdir env) (FileManager.directories (p_outputDir params)) s0).
    clearbody s1.
    destruct (checkRobotsTxt_pass env params u s1 Hp Hrobots) as (s2 & Hrun2 & _).
    rewrite (bind_Normal _ _ _ _ _ Hrun2).
    rewrite (bind_Normal _ _ _ _ _ (launchBrowser_ok env s2 Hlaunch)).
    rewrite (bind_Normal _ _ _ _ _ (scrapePage_ok env params status statusText _ Hgoto)).
    set (s4 := set_result _ (afterCall env (EvWait 2000) _)).
    assert (Hhtml4 : html (scrapedData (result s4)) = Some (pageContent env))
      by reflexivity.
    clearbody s4.
    assert (H5 : exists s5,
               (if p_downloadAssets params
                then WebScraper.processAssets env params else ret tt) s4
               = (Normal tt, s5)
               /\ html (scrapedData (result s5)) = Some (pageContent env)).
    { destruct (p_downloadAssets params).
      - destruct (processAssets_returns env params u s4 Hp)
          as (m & st & s5 & Hrun5 & Hres5 & _).
        exists s5. rewrite Hrun5, Hres5. split; [reflexivity | exact Hhtml4].
      - exists s4. split; [reflexivity | exact Hhtml4]. }
    destruct H5 as (s5 & Hrun5 & Hhtml5).
    rewrite (bind_Normal _ _ _ _ _ Hrun5).
    assert (H6 : exists s6,
               (if p_takeScreenshots params
                then WebScraper.captureScreenshots env params else ret tt) s5
               = (Normal tt, s6)
               /\ html (scrapedData (result s6)) = Some (pageContent env)
               /\ assetMapping (result s6) = assetMapping (result s5)).
    { destruct (p_takeScreenshots params).
      - destruct (captureScreenshots_step env params u s5 Hp)
          as (s6 & Hrun6 & Hres6 & _).
        exists s6. rewrite Hrun6, Hres6. repeat split. exact Hhtml5.
      - exists s5. repeat split. exact Hhtml5. }
    destruct H6 as (s6 & Hrun6 & Hhtml6 & _).
    rewrite (bind_Normal _ _ _ _ _ Hrun6).
    destruct (saveResults_writes env params _ s6 Hhtml6)
      as (s7 & record & Hrun7 & Hhtml7 & Htrace7).
    destruct (saveResults_returns env params _ s6 Hhtml6)
      as (s7' & Hrun7' & Hres7 & _).
    rewrite Hrun7 in Hrun7'. inversion Hrun7'; subst s7'. clear Hrun7'.
    rewrite (bind_Normal _ _ _ _ _ Hrun7).
    unfold WebScraper.setProcessingTime, updateResult, Date_now, bind, modify, get, ret.
    cbv beta iota.
    eexists. exists (fold_left rewriteOne (Obj.entries (assetMapping (result s6)))
                       (pageContent env)).
    split; [reflexivity|].
    rewrite (proj2 (cleanup_releases env _)), cleanup_trace.
    cbn [result set_result trace]. cbn -[Obj.set Path.join AssetMapper.replaceAssetUrls].
    rewrite Hres7. cbn -[Obj.set Path.join AssetMapper.replaceAssetUrls].
    repeat split.
    - apply replaceAssetUrls_total.
    - apply in_or_app. left. rewrite Htrace7. apply in_or_app. right. now left. }
  destruct Hrun as (s' & m & Hrun & H).
  rewrite (execute_scrape env params s _ s' Hrun). now exists m.
Qed.

Lemma saved_markup_is_rewritten_capture_witness :
  exists modifiedHtml,
    success
      (fst (WebScraper.execute
              (site None true threeImages threeImagesHtml serve
                    noCaptureError usualLatency)
              (request "https://example.com/") (boot 1700000000000))) = true
    /\ AssetMapper.replaceAssetUrls
         (pageContent (site None true threeImages threeImagesHtml serve
                             noCaptureError usualLatency))
         (assetMapping
            (fst (WebScraper.execute
                    (site None true threeImages threeImagesHtml serve
                          noCaptureError usualLatency)
                    (request "https://example.com/") (boot 1700000000000))))
       = Some modifiedHtml
    /\ html (scrapedData
               (fst (WebScraper.execute
                       (site None true threeImages threeImagesHtml serve
                             noCaptureError usualLatency)
                       (request "https://example.com/") (boot 1700000000000))))
       = Some modifiedHtml
    /\ In (EvWriteFile
             (Path.join [p_outputDir (request "https://example.com/"); "index.html"])
             (Text modifiedHtml))
          (trace
             (snd (WebScraper.execute
                     (site None true threeImages threeImagesHtml serve
                           noCaptureError usualLatency)
                     (request "https://example.com/") (boot 1700000000000)))).
Proof.
  exact (saved_markup_is_rewritten_capture
           (site None true threeImages threeImagesHtml serve
                 noCaptureError usualLatency)
           (request "https://example.com/")
           (Url.mk "https:" "example.com" "example.com" "/")
           200 "OK" (boot 1700000000000)
           eq_refl eq_refl eq_refl eq_refl eq_refl).
Defined.
